(** * Invoice PDF layout: a shallow embedding of the two [generateInvoice]
    functions, of the date formatters and of the line-item list of the edit
    page, with the properties of the layout specification settled against
    them.

    Conventions of the embedding.
    - A JavaScript [number] of a record (quantity, unit price, total) is
      an IEEE-754 binary64 value: the type [spec_float] of the Standard
      Library with its addition and multiplication at precision 53 (round
      to nearest, ties to even), NaN, the infinities and the two zeros
      included.  Time values and calendar fields, which are integers far
      below 2^53, are [Z].
    - Page coordinates are exact rationals ([Q]).  The code computes them
      from a few decimal constants by additions and subtractions of small
      integers; nothing proved here about them compares values closer than
      the rounding of doubles could move them.
    - A JavaScript string is a [string] of code units below 256 (Latin-1).
      [split], [trim], [padStart] and [toLowerCase] are exact on such
      strings; [toUpperCase] is exact (sharp s becomes SS) except on the
      two letters whose upper-case form lies outside Latin-1 (micro sign,
      y with diaeresis), which it leaves alone.  Strings with other
      characters are outside the embedding, and what is proved of a text
      in upper case is proved of ASCII strings.
    - [page.drawText], [page.drawRectangle] and [page.drawLine] append one
      primitive to the page; a page is the ordered list of its primitives.
      The serialisation of the page ([pdfDoc.save()]) belongs to pdf-lib
      and is outside the embedding.
    - [new Date()], the local time zone and the date formats a runtime
      accepts beyond the subset modelled here are read from an explicit
      environment. *)

From Stdlib Require Import ZArith QArith Qabs Qpower Qround List String Ascii Lia Lqa Bool.
From Stdlib Require Import DecimalString DecimalFacts DecimalPos DecimalZ.
From Stdlib Require Import SpecFloat.
Import ListNotations.

Open Scope string_scope.
Open Scope Z_scope.

(** ** JavaScript numbers *)

Module Number.

(** A binary64 value. *)
Definition t : Type := spec_float.

Definition prec : Z := 53.
Definition emax : Z := 1024.

(** The operators [+], [*], [-] and [/]. *)
Definition add : t -> t -> t := SFadd prec emax.
Definition mul : t -> t -> t := SFmul prec emax.
Definition sub : t -> t -> t := SFsub prec emax.
Definition div : t -> t -> t := SFdiv prec emax.

(** The literal [0]. *)
Definition zero : t := S754_zero false.

(** An integer as a number: the nearest double (the integer itself up to
    2^53 in absolute value). *)
Definition ofZ (z : Z) : t := binary_normalize prec emax z 0 false.

(** An integer as an operand that is not rounded. *)
Definition exact (z : Z) : t :=
  match z with
  | Z0 => S754_zero false
  | Zpos p => S754_finite false p 0
  | Zneg p => S754_finite true p 0
  end.

(** The double nearest to [n / d] (ties to even): how a decimal literal is
    read ([0.05] is [ratio 5 100], [9.99] is [ratio 999 100]). *)
Definition ratio (n d : Z) : t := div (exact n) (exact d).

(** The exact value of a finite double. *)
Definition finite (s : bool) (m : positive) (e : Z) : Q :=
  (inject_Z (cond_Zopp s (Zpos m)) * 2 ^ e)%Q.

Definition value (x : t) : option Q :=
  match x with
  | S754_zero _ => Some 0%Q
  | S754_finite s m e => Some (finite s m e)
  | _ => None
  end.

Definition exponent (x : t) : Z :=
  match x with S754_finite _ _ e => e | _ => 0 end.

End Number.

(** ** JavaScript built-ins used by the renderers *)

Module Js.

(** [String.prototype.split("\n")]: never returns the empty array. *)
Definition newline : ascii := Ascii.ascii_of_nat 10.

Fixpoint split_newline (s : string) : list string :=
  match s with
  | EmptyString => [EmptyString]
  | String c rest =>
      if Ascii.eqb c newline then EmptyString :: split_newline rest
      else match split_newline rest with
           | l :: ls => String c l :: ls
           | [] => [String c EmptyString]
           end
  end.

(** [String.prototype.toUpperCase] on Latin-1: a-z, and the letters from
    a-grave to thorn except the division sign, move down by 32; sharp s
    becomes SS. *)
Definition upper_char (c : ascii) : string :=
  let n := nat_of_ascii c in
  if (n =? 223)%nat then "SS"
  else if (((97 <=? n) && (n <=? 122))
           || ((224 <=? n) && (n <=? 254) && negb (n =? 247)))%nat
  then String (ascii_of_nat (n - 32)) EmptyString
  else String c EmptyString.

Fixpoint toUpperCase (s : string) : string :=
  match s with
  | EmptyString => EmptyString
  | String c rest => upper_char c ++ toUpperCase rest
  end.

(** [String.prototype.toLowerCase] on Latin-1: A-Z, and the letters from
    A-grave to Thorn except the multiplication sign, move up by 32. *)
Definition lower_char (c : ascii) : ascii :=
  let n := nat_of_ascii c in
  if (((65 <=? n) && (n <=? 90))
      || ((192 <=? n) && (n <=? 222) && negb (n =? 215)))%nat
  then ascii_of_nat (n + 32) else c.

Fixpoint toLowerCase (s : string) : string :=
  match s with
  | EmptyString => EmptyString
  | String c rest => String (lower_char c) (toLowerCase rest)
  end.

(** White space in the sense of [String.prototype.trim] below 256: TAB, LF,
    VT, FF, CR, SP and NBSP. *)
Definition is_white (c : ascii) : bool :=
  let n := nat_of_ascii c in
  (((9 <=? n) && (n <=? 13)) || (n =? 32) || (n =? 160))%nat.

Fixpoint trimStart (s : string) : string :=
  match s with
  | EmptyString => EmptyString
  | String c rest => if is_white c then trimStart rest else s
  end.

(** [trimEnd s] drops the trailing white space: a character is kept when
    it is not white or when something is kept after it. *)
Fixpoint trimEnd (s : string) : string :=
  match s with
  | EmptyString => EmptyString
  | String c rest =>
      match trimEnd rest with
      | EmptyString => if is_white c then EmptyString else String c EmptyString
      | kept => String c kept
      end
  end.

Definition trim (s : string) : string := trimEnd (trimStart s).

(** [Number.prototype.toString] on an integer below 2^53 in absolute
    value. *)
Definition toString (n : Z) : string :=
  NilEmpty.string_of_int (Z.to_int n).

Definition two_digits (n : Z) : string :=
  if n <? 10 then "0" ++ toString n else toString n.

(** The digits of [toFixed(2)] for an exact value [0 <= a < 1e21]: the
    integer [n] nearest to [100 * a] (the larger one on a tie) printed with
    a decimal point before its last two digits. *)
Definition fixed2 (a : Q) : string :=
  let n := Qfloor (a * 100 + (1 # 2))%Q in
  toString (n / 100) ++ "." ++ two_digits (n mod 100).

(** *** [Number::toString]

    The digits are the shortest decimal that reads back as the double
    and, among those, the nearest to it. *)

Definition digitCount (n : Z) : Z := Z.of_nat (String.length (toString n)).

(** The [n] with [10^(n-1) <= v < 10^n], for a [v > 0] that is a double. *)
Definition decimalExponent (v : Q) : Z :=
  if Qle_bool 1 v then digitCount (Qfloor v) else 1 - digitCount (Qfloor (/ v)).

(** [v / 10^p]. *)
Definition scaleDown (v : Q) (p : Z) : Q :=
  if 0 <=? p then (v / inject_Z (10 ^ p))%Q else (v * inject_Z (10 ^ (- p)))%Q.

(** Does [c * 10^p] read back as the double of value [v]? *)
Definition readsBackAs (v : Q) (c p : Z) : bool :=
  let x := if 0 <=? p then Number.ratio (c * 10 ^ p) 1 else Number.ratio c (10 ^ (- p)) in
  match Number.value x with
  | Some w => Qeq_bool w v
  | None => false
  end.

(** Of the two integers around [v / 10^p], the one that reads back as [v];
    the nearer one when both do, the even one on a tie. *)
Definition candidate (v : Q) (p : Z) : option Z :=
  let w := scaleDown v p in
  let lo := Qfloor w in
  match readsBackAs v lo p, readsBackAs v (lo + 1) p with
  | true, true =>
      Some (match (w - inject_Z lo ?= inject_Z (lo + 1) - w)%Q with
            | Lt => lo
            | Gt => lo + 1
            | Eq => if Z.even lo then lo else lo + 1
            end)
  | true, false => Some lo
  | false, true => Some (lo + 1)
  | false, false => None
  end.

(** One digit more at each step, [fuel] more steps at most: the digits,
    as an integer [s], and the exponent [p] of [s * 10^p]. *)
Fixpoint shortest (fuel : nat) (v : Q) (p : Z) : Z * Z :=
  match candidate v p with
  | Some s => (s, p)
  | None =>
      match fuel with
      | O => (Qfloor (scaleDown v p), p)
      | S fuel' => shortest fuel' v (p - 1)
      end
  end.

Fixpoint dropTrailingZeros (s : string) : string :=
  match s with
  | EmptyString => EmptyString
  | String c rest =>
      match dropTrailingZeros rest with
      | EmptyString => if Ascii.eqb c "0" then EmptyString else String c EmptyString
      | kept => String c kept
      end
  end.

Fixpoint zeros (n : nat) : string :=
  match n with
  | O => EmptyString
  | S n' => String "0" (zeros n')
  end.

(** [Number::toString] of a double of value [v > 0]: up to 17 digits,
    written without exponent when the decimal point falls within 21
    digits to the right of the first digit or 6 zeros to its left. *)
Definition positiveToString (v : Q) : string :=
  let '(s, p) := shortest 16 v (decimalExponent v - 1) in
  let all := toString s in
  let digits := dropTrailingZeros all in
  let k := Z.of_nat (String.length digits) in
  let n := p + Z.of_nat (String.length all) in
  if (k <=? n) && (n <=? 21) then digits ++ zeros (Z.to_nat (n - k))
  else if (0 <? n) && (n <=? 21)
  then substring 0 (Z.to_nat n) digits ++ "." ++ substring (Z.to_nat n) (Z.to_nat (k - n)) digits
  else if (-6 <? n) && (n <=? 0) then "0." ++ zeros (Z.to_nat (- n)) ++ digits
  else
    let exponent := (if 0 <? n then "e+" else "e-") ++ toString (Z.abs (n - 1)) in
    match digits with
    | String d EmptyString => String d exponent
    | String d rest => String d ("." ++ rest ++ exponent)
    | EmptyString => "0"
    end.

Definition sign (s : bool) : string := if s then "-" else EmptyString.

(** [Number.prototype.toString]. *)
Definition numberToString (x : Number.t) : string :=
  match x with
  | S754_nan => "NaN"
  | S754_infinity s => sign s ++ "Infinity"
  | S754_zero _ => "0"
  | S754_finite s m e => sign s ++ positiveToString (Number.finite false m e)
  end.

(** [Number.prototype.toFixed(2)]: NaN and the infinities print their
    names; otherwise the sign, then [fixed2] of the absolute value below
    1e21 and [Number::toString] from 1e21 on.  Both zeros print "0.00". *)
Definition toFixed2 (x : Number.t) : string :=
  match x with
  | S754_nan => "NaN"
  | S754_infinity s => sign s ++ "Infinity"
  | S754_zero _ => "0.00"
  | S754_finite s m e =>
      let a := Number.finite false m e in
      sign s ++ (if Qle_bool (inject_Z (10 ^ 21)) a then positiveToString a else fixed2 a)
  end.

End Js.

(** ** The [Date] object: parsing and local calendar fields *)

(** What [Date] reads from the runtime: the local time zone, as a fixed
    offset in minutes east of UTC (daylight saving is not modelled), and
    the answer of [Date.parse] on the strings outside the subset of the
    date-time string format modelled below ([None] for [NaN]).  ECMAScript
    leaves those to the implementation; nothing is assumed about them. *)
Record Runtime : Type := mkRuntime {
  utcOffset : Z;
  otherFormats : string -> option Z
}.

Module JsDate.

Definition msPerMinute : Z := 60000.
Definition msPerDay : Z := 86400000.

(** Day number (days since 1970-01-01) of a proleptic Gregorian date;
    [m] is 1-based. *)
Definition days_from_civil (y m d : Z) : Z :=
  let y' := if m <=? 2 then y - 1 else y in
  let era := y' / 400 in
  let yoe := y' - era * 400 in
  let mp := if m <=? 2 then m + 9 else m - 3 in
  let doy := (153 * mp + 2) / 5 + d - 1 in
  let doe := yoe * 365 + yoe / 4 - yoe / 100 + doy in
  era * 146097 + doe - 719468.

(** Day of the 400-year era to year of the era. *)
Definition yoe_of_doe (doe : Z) : Z :=
  (doe - doe / 1460 + doe / 36524 - doe / 146096) / 365.

Definition doy_of_doe (doe : Z) : Z :=
  let yoe := yoe_of_doe doe in
  doe - (365 * yoe + yoe / 4 - yoe / 100).

Definition mp_of_doy (doy : Z) : Z := (5 * doy + 2) / 153.

Definition dom_of_doy (doy : Z) : Z :=
  doy - (153 * mp_of_doy doy + 2) / 5 + 1.

(** Inverse direction: (year, 1-based month, day of month) of a day
    number. *)
Definition civil_from_days (z : Z) : Z * Z * Z :=
  let z' := z + 719468 in
  let era := z' / 146097 in
  let doe := z' - era * 146097 in
  let yoe := yoe_of_doe doe in
  let doy := doy_of_doe doe in
  let mp := mp_of_doy doy in
  let d := dom_of_doy doy in
  let m := if mp <? 10 then mp + 3 else mp - 9 in
  (yoe + era * 400 + (if m <=? 2 then 1 else 0), m, d).

Definition isLeap (y : Z) : bool :=
  ((y mod 4 =? 0) && negb (y mod 100 =? 0)) || (y mod 400 =? 0).

Definition daysInMonth (y m : Z) : Z :=
  if m =? 2 then (if isLeap y then 29 else 28)
  else if (m =? 4) || (m =? 6) || (m =? 9) || (m =? 11) then 30
  else 31.

(** *** Parsing

    The subset of the date-time string format on which every runtime
    agrees: [YYYY-MM-DD] with a day that exists in the month (read as UTC
    midnight) and [YYYY-MM-DDTHH:mm[:ss[.sss]]] followed by nothing (local
    time), [Z], or [+HH:mm] / [-HH:mm].  Every other string (year-month
    forms, hour 24, other fraction lengths, days past the end of the
    month, the formats of a particular engine) is answered by the
    runtime. *)

Definition digit (c : ascii) : option Z :=
  let n := Z.of_nat (nat_of_ascii c) in
  if (48 <=? n) && (n <=? 57) then Some (n - 48) else None.

Fixpoint number (k : nat) (acc : Z) (s : string) : option (Z * string) :=
  match k with
  | O => Some (acc, s)
  | S k' =>
      match s with
      | String c s' =>
          match digit c with
          | Some d => number k' (10 * acc + d) s'
          | None => None
          end
      | EmptyString => None
      end
  end.

Definition expect (c : ascii) (s : string) : option string :=
  match s with
  | String c' s' => if Ascii.eqb c c' then Some s' else None
  | EmptyString => None
  end.

Definition bind {A B} (o : option A) (k : A -> option B) : option B :=
  match o with Some a => k a | None => None end.

Notation "x <- o ;; k" := (bind o (fun x => k))
  (at level 61, o at next level, right associativity).
Notation "' p <- o ;; k" := (bind o (fun x => let p := x in k))
  (at level 61, p pattern, o at next level, right associativity).

Definition guard (b : bool) : option unit := if b then Some tt else None.

(** Calendar date [YYYY-MM-DD]. *)
Definition parseYMD (s : string) : option (Z * Z * Z * string) :=
  '(y, s) <- number 4 0 s ;;
  s <- expect "-" s ;;
  '(m, s) <- number 2 0 s ;;
  s <- expect "-" s ;;
  '(d, s) <- number 2 0 s ;;
  _ <- guard ((1 <=? m) && (m <=? 12) && (1 <=? d) && (d <=? daysInMonth y m)) ;;
  Some (y, m, d, s).

(** Optional [.sss]. *)
Definition parseMillis (s : string) : option (Z * string) :=
  match s with
  | String "." s' => number 3 0 s'
  | _ => Some (0, s)
  end.

(** Optional [:ss[.sss]], in milliseconds. *)
Definition parseSeconds (s : string) : option (Z * string) :=
  match s with
  | String ":" s' =>
      '(ss, s) <- number 2 0 s' ;;
      _ <- guard (ss <=? 59) ;;
      '(ms, s) <- parseMillis s ;;
      Some (ss * 1000 + ms, s)
  | _ => Some (0, s)
  end.

(** [HH:mm[:ss[.sss]]], in milliseconds since midnight. *)
Definition parseHMS (s : string) : option (Z * string) :=
  '(hh, s) <- number 2 0 s ;;
  s <- expect ":" s ;;
  '(mi, s) <- number 2 0 s ;;
  _ <- guard ((hh <=? 23) && (mi <=? 59)) ;;
  '(sec, s) <- parseSeconds s ;;
  Some (hh * 3600000 + mi * msPerMinute + sec, s).

Definition parseHHmm (s : string) : option Z :=
  '(hh, s) <- number 2 0 s ;;
  s <- expect ":" s ;;
  '(mi, s) <- number 2 0 s ;;
  _ <- guard ((hh <=? 23) && (mi <=? 59)) ;;
  match s with EmptyString => Some (hh * 60 + mi) | _ => None end.

(** The UTC offset suffix, in minutes east of UTC; an absent suffix means
    local time, offset [tz]. *)
Definition parseOffset (tz : Z) (s : string) : option Z :=
  match s with
  | EmptyString => Some tz
  | String "Z" EmptyString => Some 0
  | String "+" s' => parseHHmm s'
  | String "-" s' => o <- parseHHmm s' ;; Some (- o)
  | _ => None
  end.

(** The time value (milliseconds since the epoch, UTC) of a string of the
    subset, for a runtime whose local time is [tz] minutes east of UTC. *)
Definition parseISO (tz : Z) (s : string) : option Z :=
  '(y, m, d, s) <- parseYMD s ;;
  let day := days_from_civil y m d * msPerDay in
  match s with
  | EmptyString => Some day
  | String "T" s' =>
      '(t, s) <- parseHMS s' ;;
      off <- parseOffset tz s ;;
      Some (day + t - off * msPerMinute)
  | _ => None
  end.

(** [Date.parse] / [new Date(string)]. *)
Definition parse (rt : Runtime) (s : string) : option Z :=
  match parseISO (utcOffset rt) s with
  | Some t => Some t
  | None => otherFormats rt s
  end.

(** Local calendar fields of a time value. *)
Definition localDay (tz t : Z) : Z := (t + tz * msPerMinute) / msPerDay.

Definition getFullYear (tz t : Z) : Z :=
  let '(y, _, _) := civil_from_days (localDay tz t) in y.

(** 0-based, as in JavaScript. *)
Definition getMonth (tz t : Z) : Z :=
  let '(_, m, _) := civil_from_days (localDay tz t) in m - 1.

Definition getDate (tz t : Z) : Z :=
  let '(_, _, d) := civil_from_days (localDay tz t) in d.

End JsDate.

(** ** [formatDate] (app/utils/format-utils.ts) *)

Module FormatUtils.

Definition monthNames : list string :=
  ["January"; "February"; "March"; "April"; "May"; "June";
   "July"; "August"; "September"; "October"; "November"; "December"].

(** [monthNames[month]]; an index outside the table yields [undefined],
    which a template literal prints as "undefined". *)
Definition monthName (month : Z) : string :=
  if month <? 0 then "undefined"
  else match nth_error monthNames (Z.to_nat month) with
       | Some name => name
       | None => "undefined"
       end.

(** [`${monthNames[month]} ${day}, ${year}`] *)
Definition render (month day year : Z) : string :=
  monthName month ++ " " ++ Js.toString day ++ ", " ++ Js.toString year.

(** An unparsable string gives an invalid date, whose fields are all
    [NaN]. *)
Definition formatDate (rt : Runtime) (dateString : string) : string :=
  match JsDate.parse rt dateString with
  | Some date =>
      let month := JsDate.getMonth (utcOffset rt) date in
      let day := JsDate.getDate (utcOffset rt) date in
      let year := JsDate.getFullYear (utcOffset rt) date in
      render month day year
  | None => "undefined NaN, NaN"
  end.

End FormatUtils.

(** ** Drawing primitives (the part of pdf-lib's page interface in use) *)

Module Pdf.

Inductive Font : Type := Helvetica | HelveticaBold.

Record Color : Type := rgb { red : Q; green : Q; blue : Q }.

Inductive Primitive : Type :=
| DrawText (text : string) (x y size : Q) (font : Font) (color : Color)
| DrawRectangle (x y width height : Q) (color : Color)
    (borderColor : option Color) (borderWidth : option Q)
| DrawLine (startX startY endX endY thickness : Q) (color : Color).

Definition Page : Type := list Primitive.

End Pdf.

(** ** The invoice record *)

(** Modelled from the spec: the type declarations [InvoiceData] and
    [LineItem] (app/types/invoice-types) are not among the sources.  The
    fields are those of the invoice record of the specification, as the
    renderers and the validation schema name them; the optional ones are
    those the renderers treat as optional ([data.status?.],
    [data.totalAmount ?? 0], [data.notes && ...]).  [None] stands for
    [undefined]. *)
Record LineItem : Type := mkLineItem {
  description : string;
  quantity : Number.t;
  unitPrice : Number.t
}.

Record InvoiceData : Type := mkInvoiceData {
  invoiceNumber : string;
  invoiceDate : string;
  dueDate : string;
  companyName : string;
  companyAddress : string;
  companyEmail : string;
  companyPhone : string;
  clientName : string;
  clientAddress : string;
  clientEmail : string;
  notes : option string;
  totalAmount : option Number.t;
  status : option string;
  lineItems : list LineItem
}.

Definition set_totalAmount (data : InvoiceData) (v : option Number.t) : InvoiceData :=
  mkInvoiceData (invoiceNumber data) (invoiceDate data) (dueDate data)
    (companyName data) (companyAddress data) (companyEmail data)
    (companyPhone data) (clientName data) (clientAddress data)
    (clientEmail data) (notes data) v (status data) (lineItems data).

Definition set_notes (data : InvoiceData) (v : option string) : InvoiceData :=
  mkInvoiceData (invoiceNumber data) (invoiceDate data) (dueDate data)
    (companyName data) (companyAddress data) (companyEmail data)
    (companyPhone data) (clientName data) (clientAddress data)
    (clientEmail data) v (totalAmount data) (status data) (lineItems data).

Definition set_companyAddress (data : InvoiceData) (v : string) : InvoiceData :=
  mkInvoiceData (invoiceNumber data) (invoiceDate data) (dueDate data)
    (companyName data) v (companyEmail data)
    (companyPhone data) (clientName data) (clientAddress data)
    (clientEmail data) (notes data) (totalAmount data) (status data)
    (lineItems data).

Definition set_lineItems (data : InvoiceData) (v : list LineItem) : InvoiceData :=
  mkInvoiceData (invoiceNumber data) (invoiceDate data) (dueDate data)
    (companyName data) (companyAddress data) (companyEmail data)
    (companyPhone data) (clientName data) (clientAddress data)
    (clientEmail data) (notes data) (totalAmount data) (status data) v.

(** What a render reads besides its argument: the runtime of [Date] and
    the clock ([new Date()], milliseconds since the epoch). *)
Record Env : Type := mkEnv {
  runtime : Runtime;
  now : Z
}.

(** ** Layout code shared verbatim by the two renderers *)

Module Layout.
Import Pdf.
Local Open Scope Q_scope.
Local Open Scope list_scope.

(** [page.getSize()] of the page added with [[595.28, 841.89]]. *)
Definition width : Q := 595.28.
Definition height : Q := 841.89.

Definition titleFontSize : Q := 24.
Definition headerFontSize : Q := 12.
Definition normalFontSize : Q := 10.

Definition tableTop : Q := height - 280.
Definition tableLeft : Q := 50.
Definition tableRight : Q := width - 50.
Definition columnWidths : list Q := [280; 70; 80; 90].
Definition col (i : nat) : Q := nth i columnWidths 0.

(** An array index or length used as a number. *)
Definition num (n : nat) : Q := inject_Z (Z.of_nat n).

(** [lines.forEach((line, index) => page.drawText(line, { x: 50,
    y: base - index * 15, ... }))], from [index] on. *)
Fixpoint drawLines (base : Q) (lines : list string) (index : nat) : Page :=
  match lines with
  | [] => []
  | line :: rest =>
      DrawText line 50 (base - num index * 15) normalFontSize Helvetica (rgb 0 0 0)
      :: drawLines base rest (S index)
  end.

(** Company name, address lines, e-mail and phone. *)
Definition companyBlock (data : InvoiceData) : Page :=
  let companyAddressLines := Js.split_newline (companyAddress data) in
  [DrawText (companyName data) 50 (height - 90) headerFontSize HelveticaBold (rgb 0 0 0)]
  ++ drawLines (height - 110) companyAddressLines 0
  ++ [DrawText ("Email: " ++ companyEmail data)%string 50
        (height - 110 - num (List.length companyAddressLines) * 15)
        normalFontSize Helvetica (rgb 0 0 0);
      DrawText ("Phone: " ++ companyPhone data)%string 50
        (height - 125 - num (List.length companyAddressLines) * 15)
        normalFontSize Helvetica (rgb 0 0 0)].

(** Invoice number, date and due date, in the right-hand column. *)
Definition metaBlock (rt : Runtime) (data : InvoiceData) : Page :=
  [DrawText ("Invoice #: " ++ invoiceNumber data)%string (width - 200) (height - 90)
     normalFontSize Helvetica (rgb 0 0 0);
   DrawText ("Date: " ++ FormatUtils.formatDate rt (invoiceDate data))%string
     (width - 200) (height - 105) normalFontSize Helvetica (rgb 0 0 0);
   DrawText ("Due Date: " ++ FormatUtils.formatDate rt (dueDate data))%string
     (width - 200) (height - 120) normalFontSize Helvetica (rgb 0 0 0)].

Definition divider : Page :=
  [DrawLine 50 (height - 150) (width - 50) (height - 150) 2 (rgb 0.8 0.8 0.8)].

(** "BILL TO:", client name, address lines and e-mail. *)
Definition clientBlock (data : InvoiceData) : Page :=
  let clientAddressLines := Js.split_newline (clientAddress data) in
  [DrawText "BILL TO:" 50 (height - 180) headerFontSize HelveticaBold (rgb 0.4 0.4 0.4);
   DrawText (clientName data) 50 (height - 200) normalFontSize HelveticaBold (rgb 0 0 0)]
  ++ drawLines (height - 215) clientAddressLines 0
  ++ [DrawText ("Email: " ++ clientEmail data)%string 50
        (height - 215 - num (List.length clientAddressLines) * 15)
        normalFontSize Helvetica (rgb 0 0 0)].

(** The four column labels of the table header, in the given colour. *)
Definition tableLabels (color : Color) : Page :=
  [DrawText "Description" (tableLeft + 10) (tableTop - 15) headerFontSize HelveticaBold color;
   DrawText "Quantity" (tableLeft + col 0 + 10) (tableTop - 15) headerFontSize HelveticaBold color;
   DrawText "Unit Price" (tableLeft + col 0 + col 1 + 10) (tableTop - 15)
     headerFontSize HelveticaBold color;
   DrawText "Amount" (tableLeft + col 0 + col 1 + col 2 + 10) (tableTop - 15)
     headerFontSize HelveticaBold color].

(** The banding rectangle of a row. *)
Definition band (yPosition : Q) : Primitive :=
  DrawRectangle tableLeft (yPosition - 15 + 5) (tableRight - tableLeft) 25
    (rgb 0.97 0.97 0.97) None None.

(** The four cells of a row; [amount = item.quantity * item.unitPrice]. *)
Definition cells (item : LineItem) (yPosition : Q) : Page :=
  let amount := Number.mul (quantity item) (unitPrice item) in
  [DrawText (description item) (tableLeft + 10) yPosition
     normalFontSize Helvetica (rgb 0 0 0);
   DrawText (Js.numberToString (quantity item)) (tableLeft + col 0 + 10) yPosition
     normalFontSize Helvetica (rgb 0 0 0);
   DrawText ("$" ++ Js.toFixed2 (unitPrice item))%string (tableLeft + col 0 + col 1 + 10) yPosition
     normalFontSize Helvetica (rgb 0 0 0);
   DrawText ("$" ++ Js.toFixed2 amount)%string (tableLeft + col 0 + col 1 + col 2 + 10) yPosition
     normalFontSize Helvetica (rgb 0 0 0)].

(** One iteration of [data.lineItems.forEach((item, index) => ...)],
    without the final [yPosition -= 25]. *)
Definition drawRow (item : LineItem) (index : nat) (yPosition : Q) : Page :=
  (if (index mod 2 =? 0)%nat then [band yPosition] else []) ++ cells item yPosition.

(** The whole loop from [index] on: the primitives drawn and the final
    value of [yPosition]. *)
Fixpoint forEachRow (items : list LineItem) (index : nat) (yPosition : Q) : Q * Page :=
  match items with
  | [] => (yPosition, [])
  | item :: rest =>
      let '(y, page) := forEachRow rest (S index) (yPosition - 25) in
      (y, drawRow item index yPosition ++ page)
  end.

(** [lineItems.reduce((sum, item) => sum + item.quantity * item.unitPrice, 0)] *)
Definition sumLineItems (items : list LineItem) : Number.t :=
  fold_left
    (fun sum item => Number.add sum (Number.mul (quantity item) (unitPrice item)))
    items Number.zero.

End Layout.

(** ** The client-side renderer: header band, status badge, tax and payment
    information (the second [generateInvoice] of the sources) *)

Module Rich.
Import Pdf Layout.
Local Open Scope Q_scope.
Local Open Scope list_scope.

(** [if (data.totalAmount === undefined) data.totalAmount = ...reduce(...)]:
    the assignment is to the caller's record. *)
Definition fillTotalAmount (data : InvoiceData) : InvoiceData :=
  match totalAmount data with
  | None => set_totalAmount data (Some (sumLineItems (lineItems data)))
  | Some _ => data
  end.

Definition headerBand : Page :=
  [DrawRectangle 0 (height - 80) width 80 (rgb 0.2 0.2 0.2) None None;
   DrawText "INVOICE" 50 (height - 50) titleFontSize HelveticaBold (rgb 1 1 1)].

(** [data.status?.toUpperCase() || 'UNPAID']: the empty string is falsy. *)
Definition statusOf (data : InvoiceData) : string :=
  match status data with
  | Some s =>
      let upper := Js.toUpperCase s in
      if String.eqb upper EmptyString then "UNPAID" else upper
  | None => "UNPAID"
  end.

(** [status === 'PAID' ? rgb(0.2, 0.7, 0.2) : rgb(0.8, 0.2, 0.2)] *)
Definition statusColorOf (status : string) : Color :=
  if String.eqb status "PAID" then rgb 0.2 0.7 0.2 else rgb 0.8 0.2 0.2.

(** The "Status:" label, the status background and the status text. *)
Definition statusBlock (data : InvoiceData) : Page :=
  let status := statusOf data in
  let statusColor := statusColorOf status in
  [DrawText "Status:" (width - 200) (height - 135) normalFontSize Helvetica (rgb 0 0 0);
   DrawRectangle (width - 150) (height - 145) 70 18 statusColor
     (Some (rgb 0.8 0.8 0.8)) (Some 1);
   DrawText status (width - 145) (height - 135) normalFontSize HelveticaBold (rgb 1 1 1)].

Definition tableHeader : Page :=
  DrawRectangle tableLeft (tableTop - 25) (tableRight - tableLeft) 25
    (rgb 0.2 0.2 0.2) (Some (rgb 0.1 0.1 0.1)) (Some 1)
  :: tableLabels (rgb 1 1 1).

(** The totals the page shows. *)
Record Totals : Type := mkTotals {
  subtotal : Number.t;
  taxAmount : Number.t;
  grandTotal : Number.t
}.

(** [const taxRate = 0.05] *)
Definition taxRate : Number.t := Number.ratio 5 100.

(** [subtotal = data.totalAmount ?? 0; taxAmount = subtotal * taxRate;
    grandTotal = subtotal + taxAmount], read after [fillTotalAmount]. *)
Definition totalsOf (data : InvoiceData) : Totals :=
  let subtotal := match totalAmount data with Some v => v | None => Number.zero end in
  let taxAmount := Number.mul subtotal taxRate in
  let grandTotal := Number.add subtotal taxAmount in
  mkTotals subtotal taxAmount grandTotal.

(** Subtotal, tax and total lines; [yPosition] is the cursor after the
    statement [yPosition -= 5], the result is the cursor after
    [yPosition -= 30]. *)
Definition totalsBlock (t : Totals) (yPosition : Q) : Q * Page :=
  let y0 := yPosition in
  let y1 := y0 - 20 in
  let y2 := y1 - 20 in
  (y2 - 30,
   [DrawText "Subtotal:" (tableLeft + col 0 + col 1 + 10) y0
      normalFontSize HelveticaBold (rgb 0.2 0.2 0.2);
    DrawText ("$" ++ Js.toFixed2 (subtotal t))%string (tableLeft + col 0 + col 1 + col 2 + 10) y0
      normalFontSize Helvetica (rgb 0.2 0.2 0.2);
    DrawText "Tax (5%):" (tableLeft + col 0 + col 1 + 10) y1
      normalFontSize HelveticaBold (rgb 0.2 0.2 0.2);
    DrawText ("$" ++ Js.toFixed2 (taxAmount t))%string (tableLeft + col 0 + col 1 + col 2 + 10) y1
      normalFontSize Helvetica (rgb 0.2 0.2 0.2);
    DrawRectangle (tableLeft + col 0 + col 1) (y2 - 15 + 2)
      (tableRight - (tableLeft + col 0 + col 1)) 30 (rgb 0.2 0.2 0.2) None None;
    DrawText "TOTAL:" (tableLeft + col 0 + col 1 + 10) y2
      headerFontSize HelveticaBold (rgb 1 1 1);
    DrawText ("$" ++ Js.toFixed2 (grandTotal t))%string (tableLeft + col 0 + col 1 + col 2 + 10) y2
      headerFontSize HelveticaBold (rgb 1 1 1)]).

(** Payment information; [yPosition] is the cursor left by [totalsBlock]. *)
Definition paymentBlock (data : InvoiceData) (yPosition : Q) : Page :=
  let y0 := yPosition - 20 in
  let y1 := y0 - 20 in
  let y2 := y1 - 20 in
  let y3 := y2 - 15 in
  let y4 := y3 - 15 in
  [DrawText "PAYMENT INFORMATION" tableLeft y0 headerFontSize HelveticaBold (rgb 0.2 0.2 0.2);
   DrawText "Please make payment via bank transfer to:" (tableLeft + 10) y1
     normalFontSize Helvetica (rgb 0 0 0);
   DrawText "Bank Name:" (tableLeft + 10) y2 normalFontSize HelveticaBold (rgb 0 0 0);
   DrawText "International Bank" (tableLeft + 100) y2 normalFontSize Helvetica (rgb 0 0 0);
   DrawText "Account Name:" (tableLeft + 10) y3 normalFontSize HelveticaBold (rgb 0 0 0);
   DrawText (companyName data) (tableLeft + 100) y3 normalFontSize Helvetica (rgb 0 0 0);
   DrawText "Account Number:" (tableLeft + 10) y4 normalFontSize HelveticaBold (rgb 0 0 0);
   DrawText "1234567890" (tableLeft + 100) y4 normalFontSize Helvetica (rgb 0 0 0)].

Definition footerY : Q := 50.

(** [`${monthNames[date.getMonth()]} ${date.getDate()}, ${date.getFullYear()}`]
    for [date = new Date()]. *)
Definition currentDate (env : Env) : string :=
  let date := now env in
  let tz := utcOffset (runtime env) in
  FormatUtils.render (JsDate.getMonth tz date) (JsDate.getDate tz date)
    (JsDate.getFullYear tz date).

Definition footer (env : Env) : Page :=
  [DrawLine 50 (footerY + 30) (width - 50) (footerY + 30) 1 (rgb 0.8 0.8 0.8);
   DrawText "Thank you for your business!" (width / 2 - 80) (footerY + 15)
     normalFontSize HelveticaBold (rgb 0.4 0.4 0.4);
   DrawText ("Invoice generated on " ++ currentDate env)%string (width / 2 - 100) footerY
     8 Helvetica (rgb 0.4 0.4 0.4);
   DrawText "Payment terms: Due within 30 days of issue" (width / 2 - 120) (footerY - 15)
     8 Helvetica (rgb 0.4 0.4 0.4)].

(** What is drawn before the line-item rows. *)
Definition aboveRows (env : Env) (data : InvoiceData) : Page :=
  headerBand ++ companyBlock data ++ metaBlock (runtime env) data
  ++ statusBlock data ++ divider ++ clientBlock data ++ tableHeader.

(** What is drawn after the line-item rows, the cursor being [yPosition]
    when the loop ends. *)
Definition belowRows (env : Env) (data : InvoiceData) (yPosition : Q) : Page :=
  let '(y, totals) := totalsBlock (totalsOf data) (yPosition - 5) in
  totals ++ paymentBlock data y ++ footer env.

(** The page drawn for a record whose [totalAmount] has been filled in. *)
Definition drawPage (env : Env) (data : InvoiceData) : Page :=
  let '(yPosition, rows) := forEachRow (lineItems data) 0 (tableTop - 45) in
  aboveRows env data ++ rows ++ belowRows env data yPosition.

(** The record as the call leaves it, and the page handed to
    [pdfDoc.save()]. *)
Definition generateInvoice (env : Env) (data : InvoiceData) : InvoiceData * Page :=
  let data := fillTotalAmount data in
  (data, drawPage env data).

End Rich.

(** ** The server-side renderer (app/actions/invoice-actions.ts): no badge,
    a single total line, an optional notes block *)

Module Simple.
Import Pdf Layout.
Local Open Scope Q_scope.
Local Open Scope list_scope.

Definition title : Page :=
  [DrawText "INVOICE" 50 (height - 50) titleFontSize HelveticaBold (rgb 0.2 0.2 0.2)].

Definition tableHeader : Page :=
  DrawRectangle tableLeft (tableTop - 25) (tableRight - tableLeft) 25
    (rgb 0.9 0.9 0.9) (Some (rgb 0.8 0.8 0.8)) (Some 1)
  :: tableLabels (rgb 0.2 0.2 0.2).

(** The total line; [yPosition] is the cursor after [yPosition -= 5], the
    result is the cursor after [yPosition -= 30]. *)
Definition totalBlock (data : InvoiceData) (yPosition : Q) : Q * Page :=
  (yPosition - 30,
   [DrawRectangle (tableLeft + col 0 + col 1) (yPosition - 15 + 2)
      (tableRight - (tableLeft + col 0 + col 1)) 30 (rgb 0.95 0.95 0.95) None None;
    DrawText "Total:" (tableLeft + col 0 + col 1 + 10) yPosition
      headerFontSize HelveticaBold (rgb 0 0 0);
    DrawText ("$" ++ Js.toFixed2 (match totalAmount data with
                                  | Some v => v
                                  | None => Number.zero
                                  end))%string
      (tableLeft + col 0 + col 1 + col 2 + 10) yPosition
      headerFontSize HelveticaBold (rgb 0.2 0.2 0.2)]).

Definition notesLabel (yPosition : Q) : Primitive :=
  DrawText "NOTES:" tableLeft yPosition headerFontSize HelveticaBold (rgb 0.4 0.4 0.4).

(** [notesLines.forEach((line) => { page.drawText(line, ...); yPosition -= 15 })] *)
Fixpoint drawNotesLines (lines : list string) (yPosition : Q) : Q * Page :=
  match lines with
  | [] => (yPosition, [])
  | line :: rest =>
      let '(y, page) := drawNotesLines rest (yPosition - 15) in
      (y, DrawText line (tableLeft + 10) yPosition normalFontSize Helvetica (rgb 0 0 0) :: page)
  end.

(** [data.notes && data.notes.trim() !== ''] *)
Definition hasNotes (data : InvoiceData) : bool :=
  match notes data with
  | Some s => negb (String.eqb s EmptyString) && negb (String.eqb (Js.trim s) EmptyString)
  | None => false
  end.

(** The notes block: the cursor it leaves and what it draws. *)
Definition notesBlock (data : InvoiceData) (yPosition : Q) : Q * Page :=
  if hasNotes data then
    let y0 := yPosition - 20 in
    let notesLines := Js.split_newline (match notes data with Some s => s | None => EmptyString end) in
    let '(y, lines) := drawNotesLines notesLines (y0 - 20) in
    (y, notesLabel y0 :: lines)
  else (yPosition, []).

Definition thanks : Page :=
  [DrawText "Thank you for your business!" (width / 2 - 80) 50
     normalFontSize Helvetica (rgb 0.4 0.4 0.4)].

Definition aboveRows (env : Env) (data : InvoiceData) : Page :=
  title ++ companyBlock data ++ metaBlock (runtime env) data
  ++ divider ++ clientBlock data ++ tableHeader.

(** The cursor after the total line, and the total line. *)
Definition rowsAndTotal (data : InvoiceData) : Q * Page :=
  let '(yPosition, rows) := forEachRow (lineItems data) 0 (tableTop - 45) in
  let '(y, total) := totalBlock data (yPosition - 5) in
  (y, rows ++ total).

Definition generateInvoice (env : Env) (data : InvoiceData) : Page :=
  let '(y, body) := rowsAndTotal data in
  let '(_, notesPage) := notesBlock data y in
  aboveRows env data ++ body ++ notesPage ++ thanks.

End Simple.

(** ** More built-ins: padding, splitting on a character, ISO timestamps *)

Module JsMore.

Fixpoint repeat_char (c : ascii) (n : nat) : string :=
  match n with
  | O => EmptyString
  | S n' => String c (repeat_char c n')
  end.

(** [String.prototype.padStart(targetLength, pad)] for a one-character pad:
    a string already that long is returned as it is. *)
Definition padStart (targetLength : nat) (pad : ascii) (s : string) : string :=
  repeat_char pad (targetLength - String.length s) ++ s.

(** [String.prototype.split(sep)] for a one-character separator. *)
Fixpoint split (sep : ascii) (s : string) : list string :=
  match s with
  | EmptyString => [EmptyString]
  | String c rest =>
      if Ascii.eqb c sep then EmptyString :: split sep rest
      else match split sep rest with
           | l :: ls => String c l :: ls
           | [] => [String c EmptyString]
           end
  end.

(** [Date.prototype.toISOString] of a valid time value: the UTC fields as
    [YYYY-MM-DDTHH:mm:ss.sssZ], the year with a sign and six digits outside
    0..9999. *)
Definition isoYear (y : Z) : string :=
  if (0 <=? y) && (y <=? 9999) then padStart 4 "0" (Js.toString y)
  else (if y <? 0 then "-" else "+") ++ padStart 6 "0" (Js.toString (Z.abs y)).

Definition toISOString (t : Z) : string :=
  let '(y, m, d) := JsDate.civil_from_days (t / JsDate.msPerDay) in
  let ms := t mod JsDate.msPerDay in
  isoYear y ++ "-" ++ padStart 2 "0" (Js.toString m)
  ++ "-" ++ padStart 2 "0" (Js.toString d)
  ++ "T" ++ padStart 2 "0" (Js.toString (ms / 3600000))
  ++ ":" ++ padStart 2 "0" (Js.toString ((ms / 60000) mod 60))
  ++ ":" ++ padStart 2 "0" (Js.toString ((ms / 1000) mod 60))
  ++ "." ++ padStart 3 "0" (Js.toString (ms mod 1000))
  ++ "Z".

End JsMore.

(** ** [formatDateToYYYYMMDD] (app/actions/invoice-actions.ts) *)

Module ServerActions.

(** The local calendar fields of the parsed value, month and day padded to
    two digits; an invalid date has the fields [NaN]. *)
Definition formatDateToYYYYMMDD (rt : Runtime) (date : string) : string :=
  match JsDate.parse rt date with
  | Some d =>
      let tz := utcOffset rt in
      let year := JsDate.getFullYear tz d in
      let month := JsMore.padStart 2 "0" (Js.toString (JsDate.getMonth tz d + 1)) in
      let day := JsMore.padStart 2 "0" (Js.toString (JsDate.getDate tz d)) in
      Js.toString year ++ "-" ++ month ++ "-" ++ day
  | None => "NaN-NaN-NaN"
  end.

End ServerActions.

(** ** The edit page (app/invoices/edit/[id]/page.tsx): dates for the form
    inputs and the line-item list kept in the component state *)

Module EditPage.

(** [date.toISOString().split('T')[0]]; [toISOString] throws a [RangeError]
    on an invalid date ([None]). *)
Definition formatDateForInput (rt : Runtime) (dateString : string) : option string :=
  match JsDate.parse rt dateString with
  | Some date =>
      match JsMore.split "T" (JsMore.toISOString date) with
      | first :: _ => Some first
      | [] => None
      end
  | None => None
  end.

Definition blankItem : LineItem := mkLineItem EmptyString (Number.ofZ 1) Number.zero.

(** [setLineItems([...lineItems, blank])], [blank] being the item with an empty description, quantity 1 and unit price 0. *)
Definition addLineItem (lineItems : list LineItem) : list LineItem :=
  (lineItems ++ [blankItem])%list.

(** [lineItems.filter((_, i) => i !== index)], from position [i] on. *)
Fixpoint filterOutIndex (lineItems : list LineItem) (i index : nat) : list LineItem :=
  match lineItems with
  | [] => []
  | item :: rest =>
      if (i =? index)%nat then filterOutIndex rest (S i) index
      else item :: filterOutIndex rest (S i) index
  end.

(** [if (lineItems.length > 1) setLineItems(lineItems.filter(...))] *)
Definition removeLineItem (lineItems : list LineItem) (index : nat) : list LineItem :=
  if (1 <? List.length lineItems)%nat then filterOutIndex lineItems 0 index
  else lineItems.

(** [lineItems.reduce((sum, item) => sum + item.quantity * item.unitPrice, 0)] *)
Definition calculateTotal (lineItems : list LineItem) : Number.t :=
  fold_left
    (fun sum item => Number.add sum (Number.mul (quantity item) (unitPrice item)))
    lineItems Number.zero.

(** The record [onSubmit] sends:
    [{ ...data, lineItems, totalAmount: calculateTotal() }]. *)
Definition submitted (data : InvoiceData) (lineItems : list LineItem) : InvoiceData :=
  set_totalAmount (set_lineItems data lineItems) (Some (calculateTotal lineItems)).

(** The three amounts under the item list:
    [calculateTotal().toFixed(2)], [(calculateTotal() * 0.05).toFixed(2)] and
    [(calculateTotal() * 1.05).toFixed(2)]. *)
Definition preview (lineItems : list LineItem) : string * string * string :=
  (Js.toFixed2 (calculateTotal lineItems),
   Js.toFixed2 (Number.mul (calculateTotal lineItems) (Number.ratio 5 100)),
   Js.toFixed2 (Number.mul (calculateTotal lineItems) (Number.ratio 105 100))).

End EditPage.

(** ** The list page (app/invoices/page.tsx): the colour of a status *)

Module InvoicesPage.

Definition green : string := "bg-green-500 hover:bg-green-600".
Definition blue : string := "bg-blue-500 hover:bg-blue-600".
Definition red : string := "bg-red-500 hover:bg-red-600".
Definition gray : string := "bg-gray-500 hover:bg-gray-600".
Definition amber : string := "bg-amber-500 hover:bg-amber-600".

(** [(status: string = 'draft') => { switch (status.toLowerCase()) ... }] *)
Definition getStatusColor (status : option string) : string :=
  let status := match status with Some s => s | None => "draft" end in
  let lowered := Js.toLowerCase status in
  if String.eqb lowered "paid" then green
  else if String.eqb lowered "sent" then blue
  else if String.eqb lowered "overdue" then red
  else if String.eqb lowered "cancelled" then gray
  else amber.

End InvoicesPage.

(** * Vocabulary of the properties *)

Import Pdf Layout.

(** Shapes of strings. *)
Module Text.
Import Js.

(** A string without line break. *)
Fixpoint single_line (s : string) : bool :=
  match s with
  | EmptyString => true
  | String c rest => negb (Ascii.eqb c newline) && single_line rest
  end.

(** A string made of white space only (the empty string included). *)
Fixpoint whitespace_only (s : string) : bool :=
  match s with
  | EmptyString => true
  | String c rest => is_white c && whitespace_only rest
  end.

(** A string of ASCII characters (code units below 128). *)
Fixpoint ascii_only (s : string) : bool :=
  match s with
  | EmptyString => true
  | String c rest => (nat_of_ascii c <? 128)%nat && ascii_only rest
  end.

(** A letter of the ASCII alphabet, in either case. *)
Definition letter (c : ascii) : bool :=
  let n := nat_of_ascii c in
  (((65 <=? n) && (n <=? 90)) || ((97 <=? n) && (n <=? 122)))%nat.

(** The same character, or the two cases of one letter (which are 32
    apart). *)
Definition same_letter (a b : ascii) : bool :=
  Ascii.eqb a b
  || (letter a && letter b && (nat_of_ascii a mod 32 =? nat_of_ascii b mod 32)%nat).

End Text.

(** Shapes of printed numbers. *)
Module Decimals.
Import Js.

Definition is_digit (c : ascii) : bool :=
  let n := nat_of_ascii c in ((48 <=? n) && (n <=? 57))%nat.

Fixpoint all_digits (s : string) : bool :=
  match s with
  | EmptyString => true
  | String c rest => is_digit c && all_digits rest
  end.

(** A non-empty run of decimal digits that does not start with 0. *)
Definition plain_positive (s : string) : bool :=
  match s with
  | EmptyString => false
  | String c _ => negb (Ascii.eqb c "0") && all_digits s
  end.

(** A decimal integer the way people write it: "0", or an optional minus
    sign and digits without leading zero. *)
Definition plain_decimal (s : string) : bool :=
  String.eqb s "0" || plain_positive s
  || match s with String "-" rest => plain_positive rest | _ => false end.

End Decimals.

(** Sample data. *)
Module Sample.

(** The single-item invoice of the specification's scenario. *)
Definition invoice : InvoiceData :=
  mkInvoiceData "INV-1" "2024-01-05" "2024-02-04"
    "Acme Ltd" "1 Main Street" "billing@acme.test" "555-0100"
    "Bob" "2 Side Street" "bob@client.test"
    None None (Some "draft")
    [mkLineItem "Consulting" (Number.ofZ 2) (Number.ofZ 100)].

(** An invoice of one item, quantity 1, at the given price. *)
Definition priced (price : Number.t) : InvoiceData :=
  mkInvoiceData "INV-3" "2024-01-05" "2024-02-04"
    "Acme Ltd" "1 Main Street" "billing@acme.test" "555-0100"
    "Bob" "2 Side Street" "bob@client.test"
    None None (Some "sent")
    [mkLineItem "Licence" (Number.ofZ 1) price].

(** A runtime [offset] minutes east of UTC that knows no date format
    beyond the modelled subset. *)
Definition zone (offset : Z) : Runtime := mkRuntime offset (fun _ => None).

(** A runtime in UTC that reads the day-first format "05/01/2024" its own
    way, as 5 January 2024. *)
Definition dayFirst : Runtime :=
  mkRuntime 0 (fun s => if String.eqb s "05/01/2024" then Some 1704412800000 else None).

(** 2024-01-05T12:00:00Z, read in a UTC runtime. *)
Definition noon : Env := mkEnv (zone 0) 1704456000000.

(** One hour later, and one day later. *)
Definition one_pm : Env := mkEnv (zone 0) 1704459600000.
Definition next_day : Env := mkEnv (zone 0) 1704542400000.

End Sample.

(** ** Statuses *)

(** The status values of the storage schema. *)
Definition enumeratedStatuses : list string :=
  ["draft"; "sent"; "paid"; "overdue"; "cancelled"].

(** Equality of two strings up to the case of their letters. *)
Fixpoint eq_ignore_case (s t : string) : bool :=
  match s, t with
  | EmptyString, EmptyString => true
  | String a s', String b t' => Text.same_letter a b && eq_ignore_case s' t'
  | _, _ => false
  end.

(** The stored statuses other than "paid", with the text the badge shows
    for each. *)
Definition unpaidStatuses : list (string * string) :=
  [("draft", "DRAFT"); ("sent", "SENT"); ("overdue", "OVERDUE");
   ("cancelled", "CANCELLED")].

(** The status badge: a filled rectangle and the text drawn on it. *)
Module Badge.
Local Open Scope Q_scope.

(** The fill of a paid invoice and the fill of every other one. *)
Definition paidFill : Color := rgb 0.2 0.7 0.2.
Definition unpaidFill : Color := rgb 0.8 0.2 0.2.

Definition less (a b : Q) : bool := negb (Qle_bool b a).

(** Green-like: the green component is the largest; red-like: the red
    one. *)
Definition greenLike (c : Color) : bool := less (red c) (green c) && less (blue c) (green c).
Definition redLike (c : Color) : bool := less (green c) (red c) && less (blue c) (red c).

(** The badge: 70 by 18, in the right-hand column under the due date,
    with a thin grey border. *)
Definition rectangle (fill : Color) : Primitive :=
  DrawRectangle (width - 150) (height - 145) 70 18 fill (Some (rgb 0.8 0.8 0.8)) (Some 1).

(** The text on the badge: bold, white. *)
Definition label (text : string) : Primitive :=
  DrawText text (width - 145) (height - 135) normalFontSize HelveticaBold (rgb 1 1 1).

(** The text starts inside the rectangle. *)
Definition startsInside (text box : Primitive) : bool :=
  match text, box with
  | DrawText _ x y _ _ _, DrawRectangle bx by_ w h _ _ _ =>
      Qle_bool bx x && Qle_bool x (bx + w) && Qle_bool by_ y && Qle_bool y (by_ + h)
  | _, _ => false
  end.

(** A rectangle with a green-like fill. *)
Definition isGreenRectangle (p : Primitive) : bool :=
  match p with
  | DrawRectangle _ _ _ _ c _ _ => greenLike c
  | _ => false
  end.

End Badge.

(** Rows and bands of the line-item table. *)
Module Banding.
Local Open Scope Q_scope.
Local Open Scope list_scope.

Definition lightFill : Color := rgb 0.97 0.97 0.97.

(** The band behind the row whose text sits on the baseline [y]: as wide
    as the table, one row (25 units) high, from 10 units below the
    baseline, without border. *)
Definition bandBehind (y : Q) : Primitive :=
  DrawRectangle tableLeft (y - 15 + 5) (tableRight - tableLeft) 25 lightFill None None.

(** The text of a row on the baseline [y]: description, quantity, unit
    price and amount = quantity x unit price, each at the left edge of its
    column plus 10. *)
Definition rowText (item : LineItem) (y : Q) : Page :=
  [DrawText (description item) 60 y 10 Helvetica (rgb 0 0 0);
   DrawText (Js.numberToString (quantity item)) 340 y 10 Helvetica (rgb 0 0 0);
   DrawText ("$" ++ Js.toFixed2 (unitPrice item))%string 410 y 10 Helvetica (rgb 0 0 0);
   DrawText ("$" ++ Js.toFixed2 (Number.mul (quantity item) (unitPrice item)))%string
     490 y 10 Helvetica (rgb 0 0 0)].

(** The baseline lies within the band. *)
Definition covers (band : Primitive) (y : Q) : bool :=
  match band with
  | DrawRectangle _ by_ _ h _ _ _ => Qle_bool by_ y && Qle_bool y (by_ + h)
  | _ => false
  end.

(** The primitives of the loop, grouped by iteration. *)
Fixpoint rowPages (items : list LineItem) (index : nat) (yPosition : Q) : list Page :=
  match items with
  | [] => []
  | item :: rest => drawRow item index yPosition :: rowPages rest (S index) (yPosition - 25)
  end.

(** A rectangle filled with the light banding colour, whatever its place
    and size. *)
Definition isBand (p : Primitive) : bool :=
  match p with
  | DrawRectangle _ _ _ _ c _ _ =>
      Qeq_bool (red c) 0.97 && Qeq_bool (green c) 0.97 && Qeq_bool (blue c) 0.97
  | _ => false
  end.

Definition banded (row : Page) : bool := existsb isBand row.

End Banding.

(** The primitives of the address blocks, and the page after the company block. *)
Module Blocks.
Local Open Scope Q_scope.
Local Open Scope list_scope.

Definition companyNameRun (data : InvoiceData) : Primitive :=
  DrawText (companyName data) 50 (height - 90) headerFontSize HelveticaBold (rgb 0 0 0).

Definition emailRun (data : InvoiceData) (y : Q) : Primitive :=
  DrawText ("Email: " ++ companyEmail data)%string 50 y normalFontSize Helvetica (rgb 0 0 0).

Definition phoneRun (data : InvoiceData) (y : Q) : Primitive :=
  DrawText ("Phone: " ++ companyPhone data)%string 50 y normalFontSize Helvetica (rgb 0 0 0).

Definition lineRun (line : string) (y : Q) : Primitive :=
  DrawText line 50 y normalFontSize Helvetica (rgb 0 0 0).

Definition billTo : Primitive :=
  DrawText "BILL TO:" 50 (height - 180) headerFontSize HelveticaBold (rgb 0.4 0.4 0.4).

Definition clientNameRun (data : InvoiceData) : Primitive :=
  DrawText (clientName data) 50 (height - 200) normalFontSize HelveticaBold (rgb 0 0 0).

Definition clientEmailRun (data : InvoiceData) (y : Q) : Primitive :=
  DrawText ("Email: " ++ clientEmail data)%string 50 y normalFontSize Helvetica (rgb 0 0 0).

(** Everything the client-side renderer draws after the company block. *)
Definition afterCompany (env : Env) (data : InvoiceData) : Page :=
  let '(yPosition, rows) := forEachRow (lineItems data) 0 (tableTop - 45) in
  metaBlock (runtime env) data ++ Rich.statusBlock data ++ divider
  ++ clientBlock data ++ Rich.tableHeader ++ rows ++ Rich.belowRows env data yPosition.

End Blocks.

(** Blank notes and the notes label. *)
Module Notes.
Local Open Scope Q_scope.
Local Open Scope list_scope.

(** Notes that are absent, empty, or made of white space only. *)
Definition blank (data : InvoiceData) : Prop :=
  match notes data with
  | None => True
  | Some s => Text.whitespace_only s = true
  end.

(** The notes block under the total line whose baseline is [yTotal]: the
    label 50 units below that baseline (30 after the total, 20 before the
    label), in bold grey at the left edge of the table. *)
Definition label (yTotal : Q) : Primitive :=
  DrawText "NOTES:" 50 (yTotal - 30 - 20) 12 HelveticaBold (rgb 0.4 0.4 0.4).

(** One line of the notes, indented by 10. *)
Definition line (text : string) (y : Q) : Primitive :=
  DrawText text 60 y 10 Helvetica (rgb 0 0 0).

(** The closing line, at a fixed height. *)
Definition closing : Primitive :=
  DrawText "Thank you for your business!" (width / 2 - 80) 50 10 Helvetica (rgb 0.4 0.4 0.4).

(** The "NOTES:" label, wherever it is drawn: that text, in bold, in the
    grey of the block labels. *)
Definition isNotesLabel (p : Primitive) : bool :=
  match p with
  | DrawText t _ _ _ HelveticaBold c => String.eqb t "NOTES:" && Qeq_bool (red c) 0.4
  | _ => false
  end.

End Notes.

(** Totals as the specification computes them, and the lines that show
    them. *)
Module Totals.
Local Open Scope Q_scope.
Local Open Scope list_scope.

(** [amount = quantity x unitPrice]. *)
Definition amount (item : LineItem) : Number.t :=
  Number.mul (quantity item) (unitPrice item).

(** The amounts added one by one to [acc], in input order. *)
Fixpoint addAmounts (acc : Number.t) (items : list LineItem) : Number.t :=
  match items with
  | [] => acc
  | item :: rest => addAmounts (Number.add acc (amount item)) rest
  end.

(** The left-to-right sum of the amounts, from 0. *)
Definition sumOfAmounts (items : list LineItem) : Number.t :=
  addAmounts Number.zero items.

(** "$" and two decimals. *)
Definition money (x : Number.t) : string := ("$" ++ Js.toFixed2 x)%string.

(** The totals block of the client-side page, the subtotal on the baseline
    [y]: subtotal and tax lines 20 units apart, then the dark band with the
    total; labels under the unit-price column, amounts under the amount
    column. *)
Definition lines (subtotal tax total : Number.t) (y : Q) : Page :=
  [DrawText "Subtotal:" 410 y 10 HelveticaBold (rgb 0.2 0.2 0.2);
   DrawText (money subtotal) 490 y 10 Helvetica (rgb 0.2 0.2 0.2);
   DrawText "Tax (5%):" 410 (y - 20) 10 HelveticaBold (rgb 0.2 0.2 0.2);
   DrawText (money tax) 490 (y - 20) 10 Helvetica (rgb 0.2 0.2 0.2);
   DrawRectangle 400 (y - 20 - 20 - 15 + 2) (tableRight - 400) 30 (rgb 0.2 0.2 0.2) None None;
   DrawText "TOTAL:" 410 (y - 20 - 20) 12 HelveticaBold (rgb 1 1 1);
   DrawText (money total) 490 (y - 20 - 20) 12 HelveticaBold (rgb 1 1 1)].

(** The total line of the server-side page on the baseline [y]: a light
    band, the label and the amount. *)
Definition totalLine (total : Number.t) (y : Q) : Page :=
  [DrawRectangle 400 (y - 15 + 2) (tableRight - 400) 30 (rgb 0.95 0.95 0.95) None None;
   DrawText "Total:" 410 y 12 HelveticaBold (rgb 0 0 0);
   DrawText (money total) 490 y 12 HelveticaBold (rgb 0.2 0.2 0.2)].

(** Within [tolerance] of each other. *)
Definition within (tolerance a b : Q) : Prop := Qabs (a - b) <= tolerance.

End Totals.

(** The Gregorian calendar. *)
Module Calendar.

(** A date of the calendar: month 1..12, day 1..length of the month. *)
Definition valid (y m d : Z) : Prop :=
  1 <= m <= 12 /\ 1 <= d <= JsDate.daysInMonth y m.

(** The day before a date. *)
Definition previousDay (y m d : Z) : Z * Z * Z :=
  if 1 <? d then (y, m, d - 1)
  else if 1 <? m then (y, m - 1, JsDate.daysInMonth y (m - 1))
  else (y - 1, 12, 31).

(** The English month names. *)
Definition monthNames : list string :=
  ["January"; "February"; "March"; "April"; "May"; "June";
   "July"; "August"; "September"; "October"; "November"; "December"].

(** "<Month> <day>, <year>", day and year in plain decimal. *)
Definition longDate (date : Z * Z * Z) : string :=
  let '(y, m, d) := date in
  (nth (Z.to_nat (m - 1)) monthNames "undefined"
   ++ " " ++ Js.toString d ++ ", " ++ Js.toString y)%string.

(** "<year>-<MM>-<DD>", month and day on two digits, the year as it
    is. *)
Definition dashed (date : Z * Z * Z) : string :=
  let '(y, m, d) := date in
  (Js.toString y ++ "-" ++ JsMore.padStart 2 "0" (Js.toString m)
   ++ "-" ++ JsMore.padStart 2 "0" (Js.toString d))%string.

End Calendar.

(** Decimal digits as numbers and as characters. *)
Module Digits.

Definition digits10 : list Z := [0; 1; 2; 3; 4; 5; 6; 7; 8; 9].

Definition chr (d : Z) : ascii := ascii_of_nat (48 + Z.to_nat d).

(** The value of four digits, the way [JsDate.number 4 0] accumulates it. *)
Definition value4 (d1 d2 d3 d4 : Z) : Z :=
  10 * (10 * (10 * (10 * 0 + d1) + d2) + d3) + d4.

Definition value3 (d1 d2 d3 : Z) : Z := 10 * (10 * (10 * 0 + d1) + d2) + d3.

Definition value2 (d1 d2 : Z) : Z := 10 * (10 * 0 + d1) + d2.

Definition text4 (d1 d2 d3 d4 : Z) : string :=
  String (chr d1) (String (chr d2) (String (chr d3) (String (chr d4) EmptyString))).

Definition text2 (d1 d2 : Z) : string :=
  String (chr d1) (String (chr d2) EmptyString).

(** Four digits are what [padStart(4, "0")] prints of their value, and from
    1000 on the padding adds nothing. *)
Definition check4 (d1 d2 d3 d4 : Z) : bool :=
  String.eqb (text4 d1 d2 d3 d4)
    (JsMore.padStart 4 "0" (Js.toString (value4 d1 d2 d3 d4)))
  && ((value4 d1 d2 d3 d4 <? 1000)
      || String.eqb (text4 d1 d2 d3 d4) (Js.toString (value4 d1 d2 d3 d4))).

Definition check2 (d1 d2 : Z) : bool :=
  String.eqb (text2 d1 d2) (JsMore.padStart 2 "0" (Js.toString (value2 d1 d2))).

Definition forall4 (P : Z -> Z -> Z -> Z -> bool) (l : list Z) : bool :=
  forallb (fun a => forallb (fun b => forallb (fun c => forallb (P a b c) l) l) l) l.

Definition forall2 (P : Z -> Z -> bool) (l : list Z) : bool :=
  forallb (fun a => forallb (P a) l) l.

(** A calendar date as [YYYY-MM-DD]. *)
Definition isoDate (y m d : Z) : string :=
  JsMore.padStart 4 "0" (Js.toString y) ++ "-"
  ++ JsMore.padStart 2 "0" (Js.toString m) ++ "-"
  ++ JsMore.padStart 2 "0" (Js.toString d).

(** A string without the character [sep]. *)
Fixpoint free_of (sep : ascii) (s : string) : bool :=
  match s with
  | EmptyString => true
  | String c rest => negb (Ascii.eqb c sep) && free_of sep rest
  end.

End Digits.

(** * Properties *)

(** ** The built-ins on concrete inputs *)

Module Examples.

Example split_two_lines :
  Js.split_newline ("1 Main Street" ++ String Js.newline "Springfield")
  = ["1 Main Street"; "Springfield"].
Proof. reflexivity. Qed.

Example split_empty : Js.split_newline EmptyString = [EmptyString].
Proof. reflexivity. Qed.

Example split_trailing_break :
  Js.split_newline (String "a" (String Js.newline EmptyString)) = ["a"; EmptyString].
Proof. reflexivity. Qed.

Example upper_mixed : Js.toUpperCase "Paid-x1" = "PAID-X1".
Proof. reflexivity. Qed.

(** a-grave and b to A-grave and B. *)
Example upper_latin1 :
  Js.toUpperCase (String (ascii_of_nat 224) "b") = String (ascii_of_nat 192) "B".
Proof. reflexivity. Qed.

(** Sharp s to SS. *)
Example upper_sharp_s :
  Js.toUpperCase (String (ascii_of_nat 223) EmptyString) = "SS".
Proof. reflexivity. Qed.

Example same_up_to_case : eq_ignore_case "PaId" "paid" = true.
Proof. reflexivity. Qed.

Example not_same_up_to_case : eq_ignore_case "paid " "paid" = false.
Proof. reflexivity. Qed.

Example trim_both_ends : Js.trim "  net 30  " = "net 30".
Proof. reflexivity. Qed.

Example numberToString_quantities :
  Js.numberToString (Number.ofZ 2) = "2"
  /\ Js.numberToString (Number.ratio 3 2) = "1.5"
  /\ Js.numberToString (Number.ofZ (2 ^ 60)) = "1152921504606847000"
  /\ Js.numberToString (Number.ratio 1 10000000) = "1e-7".
Proof. vm_compute. repeat split; reflexivity. Qed.

Example toFixed2_integer : Js.toFixed2 (Number.ofZ 210) = "210.00".
Proof. vm_compute. reflexivity. Qed.

(** 0.125 is a double; the tie goes up. *)
Example toFixed2_tie_goes_up : Js.toFixed2 (Number.ratio 1 8) = "0.13".
Proof. vm_compute. reflexivity. Qed.

(** 1.005 is not: the double lies below it. *)
Example toFixed2_rounds_the_double : Js.toFixed2 (Number.ratio 1005 1000) = "1.00".
Proof. vm_compute. reflexivity. Qed.

Example toFixed2_negative : Js.toFixed2 (Number.ratio (-12345) 1000) = "-12.35".
Proof. vm_compute. reflexivity. Qed.

Example toFixed2_no_grouping : Js.toFixed2 (Number.ratio 12345 10) = "1234.50".
Proof. vm_compute. reflexivity. Qed.

Example toFixed2_exponent_notation :
  Js.toFixed2 (Number.ofZ (10 ^ 21)) = "1e+21"
  /\ Js.toFixed2 (Number.ofZ 123456789012345678901234567890) = "1.2345678901234568e+29".
Proof. vm_compute. split; reflexivity. Qed.

Example toFixed2_not_a_number :
  Js.toFixed2 (Number.div Number.zero Number.zero) = "NaN"
  /\ Js.toFixed2 (Number.div (Number.ofZ 1) Number.zero) = "Infinity".
Proof. vm_compute. split; reflexivity. Qed.

(** 5% of 100.1 in doubles is just below 5.005. *)
Example tax_of_100_10 :
  Js.toFixed2 (Number.mul (Number.ratio 1001 10) (Number.ratio 5 100)) = "5.00"
  /\ Js.toFixed2 (Number.add (Number.ratio 1001 10)
                    (Number.mul (Number.ratio 1001 10) (Number.ratio 5 100))) = "105.10"
  /\ Js.toFixed2 (Number.mul (Number.ratio 1001 10) (Number.ratio 105 100)) = "105.11".
Proof. vm_compute. repeat split; reflexivity. Qed.

(** 0.1 + 0.2 + 0.3 is 0.6000000000000001. *)
Example sum_is_rounded :
  Number.add (Number.add (Number.add Number.zero (Number.ratio 1 10)) (Number.ratio 2 10))
    (Number.ratio 3 10)
  = Number.ratio 6000000000000001 10000000000000000.
Proof. vm_compute. reflexivity. Qed.

Example parse_date_only :
  JsDate.parse (Sample.zone (-300)) "2024-01-05" = Some 1704412800000.
Proof. reflexivity. Qed.

Example parse_local_time :
  JsDate.parse (Sample.zone (-300)) "2024-01-05T23:30:00"
  = JsDate.parse (Sample.zone 0) "2024-01-06T04:30:00Z".
Proof. reflexivity. Qed.

(** A day past the end of the month is left to the runtime. *)
Example parse_leaves_february_30_to_the_runtime (rt : Runtime) :
  JsDate.parse rt "2024-02-30" = otherFormats rt "2024-02-30".
Proof. reflexivity. Qed.

Example parse_other_format :
  FormatUtils.formatDate Sample.dayFirst "05/01/2024" = "January 5, 2024".
Proof. reflexivity. Qed.

Example civil_epoch : JsDate.civil_from_days 0 = (1970, 1, 1).
Proof. reflexivity. Qed.

Example formatDate_invalid :
  FormatUtils.formatDate (Sample.zone 0) "soon" = "undefined NaN, NaN".
Proof. reflexivity. Qed.

Example sum_single_item : sumLineItems (lineItems Sample.invoice) = Number.ofZ 200.
Proof. vm_compute. reflexivity. Qed.

(** The scenario of the specification: 2 x 100 gives 200, 10 and 210. *)
Example single_item_totals :
  let t := Rich.totalsOf (fst (Rich.generateInvoice Sample.noon Sample.invoice)) in
  (Js.toFixed2 (Rich.subtotal t), Js.toFixed2 (Rich.taxAmount t),
   Js.toFixed2 (Rich.grandTotal t))
  = ("200.00", "10.00", "210.00").
Proof. vm_compute. reflexivity. Qed.

End Examples.

(** ** Strings *)

Module JsFacts.
Import Js Text.

Lemma upper_lower_char (c : ascii) : upper_char (lower_char c) = upper_char c.
Proof.
  destruct c as [[] [] [] [] [] [] [] []]; reflexivity.
Qed.

Lemma toUpperCase_toLowerCase (s : string) :
  toUpperCase (toLowerCase s) = toUpperCase s.
Proof.
  induction s as [|c s IH]; simpl.
  - reflexivity.
  - now rewrite upper_lower_char, IH.
Qed.

(** Strings with the same lower-case form have the same upper-case
    form. *)
Lemma toUpperCase_ignores_case (s t : string) :
  toLowerCase s = toLowerCase t -> toUpperCase s = toUpperCase t.
Proof.
  intros H.
  rewrite <- (toUpperCase_toLowerCase s), <- (toUpperCase_toLowerCase t).
  now rewrite H.
Qed.

Lemma lower_upper_char (c : ascii) :
  (nat_of_ascii c <? 128)%nat = true ->
  toLowerCase (upper_char c) = String (lower_char c) EmptyString.
Proof.
  destruct c as [[] [] [] [] [] [] [] []]; intros H;
    try discriminate H; reflexivity.
Qed.

Lemma toLowerCase_app (s t : string) :
  toLowerCase (s ++ t) = (toLowerCase s ++ toLowerCase t)%string.
Proof.
  induction s as [|c s IH]; simpl; [reflexivity | now rewrite IH].
Qed.

(** On ASCII, lower-casing forgets an upper-casing. *)
Lemma toLowerCase_toUpperCase (s : string) :
  ascii_only s = true -> toLowerCase (toUpperCase s) = toLowerCase s.
Proof.
  induction s as [|c s IH]; simpl; intros H.
  - reflexivity.
  - apply andb_prop in H as [Hc Hs].
    rewrite toLowerCase_app, (lower_upper_char c Hc), (IH Hs). reflexivity.
Qed.

(** A character is a letter of "paid" up to case exactly when its
    lower-case form is that letter; it is then an ASCII character. *)
Lemma same_letter_lower (a b : ascii) :
  In b ["p"; "a"; "i"; "d"]%char ->
  (same_letter a b = true <-> lower_char a = b)
  /\ (lower_char a = b -> (nat_of_ascii a <? 128)%nat = true).
Proof.
  intros Hb. simpl in Hb.
  destruct Hb as [<- | [<- | [<- | [<- | []]]]];
    destruct a as [[] [] [] [] [] [] [] []];
    (split; [split|]); vm_compute; intros H; try discriminate H; reflexivity.
Qed.

Lemma eq_ignore_case_paid (s : string) :
  eq_ignore_case s "paid" = true <-> toLowerCase s = "paid".
Proof.
  assert (Hp := fun a => proj1 (same_letter_lower a "p" ltac:(simpl; tauto))).
  assert (Ha := fun a => proj1 (same_letter_lower a "a" ltac:(simpl; tauto))).
  assert (Hi := fun a => proj1 (same_letter_lower a "i" ltac:(simpl; tauto))).
  assert (Hd := fun a => proj1 (same_letter_lower a "d" ltac:(simpl; tauto))).
  destruct s as [|c1 [|c2 [|c3 [|c4 [|c5 r]]]]]; cbn [eq_ignore_case toLowerCase];
    try (split; intros H; [rewrite ?andb_false_r in H; discriminate H | congruence]).
  rewrite !andb_true_r. split.
  - intros H.
    apply andb_prop in H as [H1 H]. apply andb_prop in H as [H2 H].
    apply andb_prop in H as [H3 H4].
    apply Hp in H1. apply Ha in H2. apply Hi in H3. apply Hd in H4.
    now rewrite H1, H2, H3, H4.
  - intros H. injection H as H1 H2 H3 H4.
    apply Hp in H1. apply Ha in H2. apply Hi in H3. apply Hd in H4.
    now rewrite H1, H2, H3, H4.
Qed.

Lemma lower_paid_ascii (s : string) :
  toLowerCase s = "paid" -> ascii_only s = true.
Proof.
  assert (Hp := fun a => proj2 (same_letter_lower a "p" ltac:(simpl; tauto))).
  assert (Ha := fun a => proj2 (same_letter_lower a "a" ltac:(simpl; tauto))).
  assert (Hi := fun a => proj2 (same_letter_lower a "i" ltac:(simpl; tauto))).
  assert (Hd := fun a => proj2 (same_letter_lower a "d" ltac:(simpl; tauto))).
  destruct s as [|c1 [|c2 [|c3 [|c4 [|c5 r]]]]]; cbn [toLowerCase ascii_only];
    intros H; try congruence.
  injection H as H1 H2 H3 H4.
  now rewrite (Hp _ H1), (Ha _ H2), (Hi _ H3), (Hd _ H4).
Qed.

(** A status equal to "paid" up to case reads PAID in upper case. *)
Lemma upper_of_paid (s : string) :
  eq_ignore_case s "paid" = true -> toUpperCase s = "PAID".
Proof.
  intros H. apply eq_ignore_case_paid in H.
  change "PAID" with (toUpperCase "paid").
  now apply toUpperCase_ignores_case.
Qed.

(** An ASCII status that reads PAID in upper case is "paid" up to
    case. *)
Lemma paid_of_upper (s : string) :
  ascii_only s = true -> toUpperCase s = "PAID" -> eq_ignore_case s "paid" = true.
Proof.
  intros Hs H. apply eq_ignore_case_paid.
  rewrite <- (toLowerCase_toUpperCase s Hs). now rewrite H.
Qed.

Lemma split_newline_nonempty (s : string) : split_newline s <> [].
Proof.
  induction s as [|c s IH]; simpl.
  - discriminate.
  - destruct (Ascii.eqb c newline); [discriminate|].
    destruct (split_newline s); discriminate.
Qed.

Lemma split_newline_single_line (s : string) :
  single_line s = true -> split_newline s = [s].
Proof.
  induction s as [|c s IH]; simpl; intros H.
  - reflexivity.
  - apply andb_prop in H as [Hc Hs].
    destruct (Ascii.eqb c newline); [discriminate|].
    now rewrite (IH Hs).
Qed.

(** Appending a line break and one more line appends one element. *)
Lemma split_newline_add_line (s extra : string) :
  single_line extra = true ->
  split_newline (s ++ String newline extra) = (split_newline s ++ [extra])%list.
Proof.
  intros Hx.
  induction s as [|c s IH]; simpl.
  - rewrite ?Ascii.eqb_refl. now rewrite (split_newline_single_line _ Hx).
  - destruct (Ascii.eqb c newline).
    + now rewrite IH.
    + rewrite IH.
      destruct (split_newline s) as [|l ls] eqn:E.
      * now apply split_newline_nonempty in E.
      * reflexivity.
Qed.

Lemma trimStart_whitespace_only (s : string) :
  whitespace_only s = true -> trimStart s = EmptyString.
Proof.
  induction s as [|c s IH]; simpl; intros H.
  - reflexivity.
  - apply andb_prop in H as [Hc Hs]. rewrite Hc. now apply IH.
Qed.

Lemma trim_whitespace_only (s : string) :
  whitespace_only s = true -> trim s = EmptyString.
Proof.
  intros H. unfold trim. now rewrite (trimStart_whitespace_only _ H).
Qed.

Lemma trimStart_not_white (s : string) :
  trimStart s = EmptyString \/ exists c r, trimStart s = String c r /\ is_white c = false.
Proof.
  induction s as [|c s IH]; simpl.
  - now left.
  - destruct (is_white c) eqn:E; [exact IH|].
    right. now exists c, s.
Qed.

Lemma trimEnd_empty (s : string) : trimEnd s = EmptyString -> whitespace_only s = true.
Proof.
  induction s as [|c s IH]; simpl; intros H.
  - reflexivity.
  - destruct (trimEnd s) eqn:E.
    + destruct (is_white c); [now rewrite IH | discriminate].
    + discriminate.
Qed.

Lemma whitespace_only_trimStart (s : string) :
  whitespace_only (trimStart s) = true -> whitespace_only s = true.
Proof.
  induction s as [|c s IH]; simpl; intros H.
  - reflexivity.
  - destruct (is_white c) eqn:E; simpl.
    + now apply IH.
    + simpl in H. now rewrite E in H.
Qed.

(** [trim] returns the empty string exactly on white-space-only input. *)
Lemma trim_empty_iff (s : string) :
  trim s = EmptyString <-> whitespace_only s = true.
Proof.
  split.
  - intros H. apply whitespace_only_trimStart. now apply trimEnd_empty.
  - apply trim_whitespace_only.
Qed.

End JsFacts.

(** ** Decimal printing *)

Module PrintingFacts.
Import Js Decimals.

Lemma all_digits_string_of_uint (d : Decimal.uint) :
  all_digits (NilEmpty.string_of_uint d) = true.
Proof.
  induction d; simpl; auto.
Qed.

Lemma nzhead_no_leading_zero (d : Decimal.uint) :
  match Decimal.nzhead d with Decimal.D0 _ => False | _ => True end.
Proof.
  induction d; simpl; auto.
Qed.

Lemma to_uint_normal (p : positive) :
  Decimal.unorm (Pos.to_uint p) = Pos.to_uint p.
Proof.
  rewrite <- DecimalPos.Unsigned.to_of.
  now rewrite DecimalPos.Unsigned.of_to.
Qed.

Lemma plain_positive_to_uint (p : positive) :
  plain_positive (NilEmpty.string_of_uint (Pos.to_uint p)) = true.
Proof.
  pose proof (to_uint_normal p) as Hn.
  pose proof (DecimalPos.Unsigned.to_uint_nonzero p) as Hz.
  pose proof (nzhead_no_leading_zero (Pos.to_uint p)) as Hh.
  pose proof (all_digits_string_of_uint (Pos.to_uint p)) as Hd.
  unfold Decimal.unorm in Hn.
  destruct (Decimal.nzhead (Pos.to_uint p)) eqn:E;
    try (rewrite <- Hn in *; simpl in *; first [contradiction | congruence | assumption]).
Qed.

(** [toString] prints a plain decimal: no leading zero, no sign on 0. *)
Lemma toString_plain (z : Z) : plain_decimal (toString z) = true.
Proof.
  unfold plain_decimal, toString.
  destruct z as [|p|p].
  - reflexivity.
  - change (NilEmpty.string_of_int (Z.to_int (Z.pos p)))
      with (NilEmpty.string_of_uint (Pos.to_uint p)).
    rewrite plain_positive_to_uint. now rewrite orb_true_r.
  - change (NilEmpty.string_of_int (Z.to_int (Z.neg p)))
      with (String "-" (NilEmpty.string_of_uint (Pos.to_uint p))).
    cbv iota. rewrite plain_positive_to_uint. now rewrite orb_true_r.
Qed.

End PrintingFacts.

(** ** Calendar arithmetic *)

Module DateFacts.
Import JsDate.

Lemma doy_range (doe : Z) :
  0 <= doe < 146097 -> 0 <= doy_of_doe doe <= 365.
Proof.
  intros H. unfold doy_of_doe, yoe_of_doe.
  Z.div_mod_to_equations. lia.
Qed.

Lemma dom_range (doy : Z) :
  0 <= doy <= 365 ->
  0 <= mp_of_doy doy <= 11 /\ 1 <= dom_of_doy doy <= 31.
Proof.
  intros H. unfold dom_of_doy, mp_of_doy.
  Z.div_mod_to_equations. lia.
Qed.

(** Every day number has a month in 1..12 and a day of month in 1..31. *)
Lemma civil_from_days_range (z : Z) :
  let '(_, m, d) := civil_from_days z in 1 <= m <= 12 /\ 1 <= d <= 31.
Proof.
  unfold civil_from_days.
  set (z' := z + 719468).
  set (doe := z' - z' / 146097 * 146097).
  assert (Hdoe : 0 <= doe < 146097).
  { unfold doe. pose proof (Z.mod_pos_bound z' 146097 ltac:(lia)) as Hm.
    rewrite Z.mod_eq in Hm by lia. lia. }
  pose proof (doy_range doe Hdoe) as Hdoy.
  pose proof (dom_range _ Hdoy) as [Hmp Hd].
  split; [|exact Hd].
  destruct (mp_of_doy (doy_of_doe doe) <? 10) eqn:E.
  - apply Z.ltb_lt in E. lia.
  - apply Z.ltb_ge in E. lia.
Qed.

(** Day of the year (counted from 1 March) to month and day of month. *)
Lemma mp_doy (mp d : Z) :
  0 <= mp <= 11 -> 1 <= d <= 31 ->
  d - 1 < (153 * (mp + 1) + 2) / 5 - (153 * mp + 2) / 5 ->
  let doy := (153 * mp + 2) / 5 + d - 1 in
  mp_of_doy doy = mp /\ dom_of_doy doy = d.
Proof.
  intros Hmp Hd Hlen doy. unfold dom_of_doy, mp_of_doy. subst doy.
  assert (Hcases : mp = 0 \/ mp = 1 \/ mp = 2 \/ mp = 3 \/ mp = 4 \/ mp = 5
                   \/ mp = 6 \/ mp = 7 \/ mp = 8 \/ mp = 9 \/ mp = 10 \/ mp = 11)
    by lia.
  repeat (destruct Hcases as [-> | Hcases]); try subst mp;
    Z.div_mod_to_equations; lia.
Qed.

(** Day of the era to year of the era and day of the year; a day 365 exists
    only before a leap 1 March. *)
Lemma yoe_doe (yoe doy : Z) :
  0 <= yoe < 400 -> 0 <= doy <= 365 ->
  (doy = 365 ->
   (yoe + 1) mod 4 = 0 /\ ((yoe + 1) mod 100 <> 0 \/ (yoe + 1) mod 400 = 0)) ->
  let doe := yoe * 365 + yoe / 4 - yoe / 100 + doy in
  yoe_of_doe doe = yoe /\ doy_of_doe doe = doy /\ 0 <= doe < 146097.
Proof.
  intros Hy Hd Hleap doe.
  assert (Hc : yoe / 100 = 0 \/ yoe / 100 = 1 \/ yoe / 100 = 2 \/ yoe / 100 = 3).
  { Z.div_mod_to_equations. lia. }
  assert (Hyoe : yoe_of_doe doe = yoe).
  { unfold yoe_of_doe. subst doe.
    destruct (Z.eq_dec doy 365) as [E|E].
    - specialize (Hleap E). subst doy.
      destruct Hc as [Hc|[Hc|[Hc|Hc]]]; rewrite Hc; Z.div_mod_to_equations; lia.
    - clear Hleap.
      destruct Hc as [Hc|[Hc|[Hc|Hc]]]; rewrite Hc; Z.div_mod_to_equations; lia. }
  split; [exact Hyoe|]. split.
  - unfold doy_of_doe. rewrite Hyoe. subst doe. lia.
  - subst doe. Z.div_mod_to_equations. lia.
Qed.

Lemma isLeap_spec (y : Z) :
  isLeap y = true <-> y mod 4 = 0 /\ (y mod 100 <> 0 \/ y mod 400 = 0).
Proof.
  unfold isLeap. rewrite orb_true_iff, andb_true_iff, negb_true_iff.
  rewrite !Z.eqb_eq, Z.eqb_neq.
  split.
  - intros [[H1 H2] | H]; [tauto|]. split; [|now right].
    Z.div_mod_to_equations. lia.
  - intros [H1 [H2 | H2]]; [left | right]; tauto.
Qed.

(** Case analysis on every integer comparison in sight. *)
Ltac zbool :=
  repeat match goal with
    | H : context [?a <=? ?b] |- _ => destruct (Z.leb_spec a b); try lia
    | |- context [?a <=? ?b] => destruct (Z.leb_spec a b); try lia
    | H : context [?a =? ?b] |- _ => destruct (Z.eqb_spec a b); try lia
    | |- context [?a =? ?b] => destruct (Z.eqb_spec a b); try lia
    | H : context [?a <? ?b] |- _ => destruct (Z.ltb_spec a b); try lia
    | |- context [?a <? ?b] => destruct (Z.ltb_spec a b); try lia
    end; cbn [orb andb negb] in *.

Lemma month_facts (y m d : Z) :
  1 <= m <= 12 -> 1 <= d <= daysInMonth y m ->
  let y' := if m <=? 2 then y - 1 else y in
  let yoe := y' - y' / 400 * 400 in
  let mp := if m <=? 2 then m + 9 else m - 3 in
  let doy := (153 * mp + 2) / 5 + d - 1 in
  1 <= d <= 31
  /\ d - 1 < (153 * (mp + 1) + 2) / 5 - (153 * mp + 2) / 5
  /\ 0 <= doy <= 365
  /\ (doy = 365 -> (yoe + 1) mod 4 = 0
                   /\ ((yoe + 1) mod 100 <> 0 \/ (yoe + 1) mod 400 = 0)).
Proof.
  intros Hm Hd.
  assert (Hcases : m = 1 \/ m = 2 \/ m = 3 \/ m = 4 \/ m = 5 \/ m = 6 \/ m = 7
                   \/ m = 8 \/ m = 9 \/ m = 10 \/ m = 11 \/ m = 12) by lia.
  unfold daysInMonth in Hd.
  pose proof (isLeap_spec y) as Hleap.
  destruct (isLeap y);
    [assert (Hl : y mod 4 = 0 /\ (y mod 100 <> 0 \/ y mod 400 = 0)) by (now apply Hleap)
    |]; clear Hleap;
    zbool; repeat (destruct Hcases as [Hc | Hcases]; try lia);
    subst m; repeat split; try (Z.div_mod_to_equations; lia).
Qed.

(** [civil_from_days] inverts [days_from_civil] on the dates of the calendar. *)
Lemma civil_roundtrip (y m d : Z) :
  1 <= m <= 12 -> 1 <= d <= daysInMonth y m ->
  civil_from_days (days_from_civil y m d) = (y, m, d).
Proof.
  intros Hm Hd.
  unfold days_from_civil, civil_from_days.
  set (y' := if m <=? 2 then y - 1 else y).
  set (era := y' / 400).
  set (yoe := y' - era * 400).
  set (mp := if m <=? 2 then m + 9 else m - 3).
  set (doy := (153 * mp + 2) / 5 + d - 1).
  set (doe := yoe * 365 + yoe / 4 - yoe / 100 + doy).
  assert (Hyoe : 0 <= yoe < 400).
  { unfold yoe, era. Z.div_mod_to_equations. lia. }
  assert (Hmp : 0 <= mp <= 11 /\ m = (if mp <? 10 then mp + 3 else mp - 9)
                /\ y = y' + (if m <=? 2 then 1 else 0)).
  { unfold mp, y'. destruct (m <=? 2) eqn:E.
    - apply Z.leb_le in E. destruct (m + 9 <? 10) eqn:E2;
        [apply Z.ltb_lt in E2|apply Z.ltb_ge in E2]; lia.
    - apply Z.leb_gt in E. destruct (m - 3 <? 10) eqn:E2;
        [apply Z.ltb_lt in E2|apply Z.ltb_ge in E2]; lia. }
  destruct Hmp as (Hmp & Hm' & Hy').
  destruct (month_facts y m d Hm Hd) as (Hd31 & Hlen & Hdoy & Hleap).
  fold y' in Hleap, Hdoy. fold era in Hleap. fold yoe in Hleap.
  fold mp in Hlen, Hdoy, Hleap. fold doy in Hdoy, Hleap.
  destruct (mp_doy mp d Hmp Hd31 Hlen) as [Hmp' Hd'].
  fold doy in Hmp', Hd'.
  destruct (yoe_doe yoe doy Hyoe Hdoy Hleap) as (Hy1 & Hd1 & Hdoe).
  fold doe in Hy1, Hd1, Hdoe.
  replace (era * 146097 + doe - 719468 + 719468) with (doe + era * 146097) by lia.
  rewrite Z.div_add by lia. rewrite (Z.div_small doe) by lia.
  replace (doe + era * 146097 - (0 + era) * 146097) with doe by lia.
  rewrite Hy1, Hd1, Hmp', Hd', <- Hm'.
  f_equal. f_equal. unfold yoe in *. lia.
Qed.

Lemma getMonth_range (tz t : Z) : 0 <= getMonth tz t <= 11.
Proof.
  unfold getMonth.
  pose proof (civil_from_days_range (localDay tz t)) as H.
  destruct (civil_from_days (localDay tz t)) as [[y m] d]. lia.
Qed.

Lemma getDate_range (tz t : Z) : 1 <= getDate tz t <= 31.
Proof.
  unfold getDate.
  pose proof (civil_from_days_range (localDay tz t)) as H.
  destruct (civil_from_days (localDay tz t)) as [[y m] d]. lia.
Qed.

End DateFacts.

(** ** Layout facts *)

Module LayoutFacts.
Local Open Scope Q_scope.
Local Open Scope list_scope.

(** The reduction adds the items' amounts from left to right, from 0. *)
Lemma sumLineItems_nil : sumLineItems [] = Number.zero.
Proof. reflexivity. Qed.

Lemma sumLineItems_snoc (items : list LineItem) (item : LineItem) :
  sumLineItems (items ++ [item]) = Number.add (sumLineItems items) (Totals.amount item).
Proof.
  unfold sumLineItems. now rewrite fold_left_app.
Qed.

Lemma addAmounts_fold (items : list LineItem) :
  forall acc,
    Totals.addAmounts acc items
    = fold_left
        (fun sum item =>
           Number.add sum (Number.mul (quantity item) (unitPrice item)))
        items acc.
Proof.
  induction items as [|item rest IH]; intros acc; simpl; [reflexivity | apply IH].
Qed.

Lemma sumOfAmounts_is_sumLineItems (items : list LineItem) :
  Totals.sumOfAmounts items = sumLineItems items.
Proof. apply addAmounts_fold. Qed.

Lemma drawLines_length (base : Q) (lines : list string) :
  forall index, List.length (drawLines base lines index) = List.length lines.
Proof.
  induction lines as [|l ls IH]; intros index; simpl.
  - reflexivity.
  - now rewrite IH.
Qed.

Lemma drawLines_snoc (base : Q) (lines : list string) (extra : string) :
  forall index,
    drawLines base (lines ++ [extra]) index
    = drawLines base lines index
      ++ [DrawText extra 50 (base - num (index + List.length lines) * 15)
            normalFontSize Helvetica (rgb 0 0 0)].
Proof.
  induction lines as [|l ls IH]; intros index; simpl.
  - now rewrite Nat.add_0_r.
  - rewrite IH. now rewrite Nat.add_succ_comm.
Qed.

(** The line of index [i] is drawn at [base - i * 15]. *)
Lemma drawLines_nth (base : Q) (lines : list string) :
  forall index i line,
    nth_error lines i = Some line ->
    nth_error (drawLines base lines index) i
    = Some (DrawText line 50 (base - num (index + i) * 15)
              normalFontSize Helvetica (rgb 0 0 0)).
Proof.
  induction lines as [|l ls IH]; intros index i line H.
  - destruct i; discriminate.
  - destruct i as [|i]; simpl in *.
    + injection H as ->. now rewrite Nat.add_0_r.
    + rewrite (IH (S index) i line H). now rewrite Nat.add_succ_comm.
Qed.

Lemma num_succ (n : nat) : num (S n) == num n + 1.
Proof.
  unfold num. rewrite Nat2Z.inj_succ. unfold Z.succ.
  now rewrite inject_Z_plus.
Qed.

End LayoutFacts.

(** ** The cursor of the table *)

Module OverflowFacts.
Local Open Scope Q_scope.
Local Open Scope list_scope.

(** The loop leaves the cursor 25 units lower per item. *)
Lemma forEachRow_cursor (items : list LineItem) :
  forall index y,
    fst (forEachRow items index y) == y - num (List.length items) * 25.
Proof.
  induction items as [|item rest IH]; intros index y.
  - simpl. unfold num. simpl. ring.
  - cbn [forEachRow List.length].
    specialize (IH (S index) (y - 25)).
    destruct (forEachRow rest (S index) (y - 25)) as [y' page].
    cbn [fst] in *. rewrite IH, LayoutFacts.num_succ. ring.
Qed.

Lemma num_le (a b : nat) : (a <= b)%nat -> num a <= num b.
Proof.
  intros H. unfold num. rewrite <- Zle_Qle. lia.
Qed.

End OverflowFacts.

(** ** Rounding of doubles *)

Module RoundingFacts.
Import Number.
Local Open Scope Z_scope.

Lemma digits2_pos_bounds (m : positive) :
  2 ^ (Zpos (digits2_pos m) - 1) <= Zpos m < 2 ^ Zpos (digits2_pos m).
Proof.
  induction m as [m IH | m IH |]; cbn [digits2_pos].
  - rewrite Pos2Z.inj_succ, Pos2Z.inj_xI.
    replace (Z.succ (Z.pos (digits2_pos m)) - 1) with (Z.succ (Z.pos (digits2_pos m) - 1)) by lia.
    rewrite !Z.pow_succ_r by lia.
    generalize dependent (2 ^ (Z.pos (digits2_pos m) - 1)).
    generalize (2 ^ Z.pos (digits2_pos m)). intros; lia.
  - rewrite Pos2Z.inj_succ. change (Z.pos m~0) with (2 * Z.pos m).
    replace (Z.succ (Z.pos (digits2_pos m)) - 1) with (Z.succ (Z.pos (digits2_pos m) - 1)) by lia.
    rewrite !Z.pow_succ_r by lia.
    generalize dependent (2 ^ (Z.pos (digits2_pos m) - 1)).
    generalize (2 ^ Z.pos (digits2_pos m)). intros; lia.
  - simpl. lia.
Qed.

Lemma iter_pos_nat {A : Type} (f : A -> A) (p : positive) :
  forall x, iter_pos f p x = Nat.iter (Pos.to_nat p) f x.
Proof.
  induction p as [p IH | p IH |]; intros x; cbn [iter_pos].
  - rewrite !IH, Pos2Nat.inj_xI.
    rewrite <- Nat.iter_add.
    replace (S (2 * Pos.to_nat p)) with (S (Pos.to_nat p + Pos.to_nat p)) by lia.
    now rewrite Nat.iter_succ_r.
  - rewrite !IH, Pos2Nat.inj_xO. rewrite <- Nat.iter_add.
    now replace (2 * Pos.to_nat p)%nat with (Pos.to_nat p + Pos.to_nat p)%nat by lia.
  - reflexivity.
Qed.

Lemma shr_1_step (m : Z) (r s : bool) :
  0 <= m ->
  shr_1 (Build_shr_record m r s) = Build_shr_record (m / 2) (Z.odd m) (r || s).
Proof.
  intros Hm. rewrite <- Z.div2_div.
  destruct m as [|[p|p|]|p]; try lia; reflexivity.
Qed.

(** Parity of a quotient and divisibility by twice the divisor. *)
Lemma mod_double (M P : Z) :
  0 < P ->
  (M mod (P * 2) =? 0) = (M mod P =? 0) && negb (Z.odd (M / P)).
Proof.
  intros HP. rewrite Z.rem_mul_r by lia.
  pose proof (Z.mod_pos_bound M P HP) as Hd.
  rewrite Zodd_mod.
  pose proof (Z.mod_pos_bound (M / P) 2 ltac:(lia)) as Ho.
  destruct (Z.eqb_spec (M mod P) 0) as [E|E];
    destruct (Z.eqb_spec (M / P mod 2) 1) as [E2|E2]; cbn [andb negb];
    apply Z.eqb_eq || apply Z.eqb_neq; nia.
Qed.

(** The record after [S k] right shifts of a mantissa [M]: the quotient,
    the last bit shifted out, and whether anything below it was set. *)
Lemma shr_iter (M : Z) (k : nat) :
  0 <= M ->
  Nat.iter (S k) shr_1 (Build_shr_record M false false)
  = Build_shr_record (M / 2 ^ Z.of_nat (S k)) (Z.odd (M / 2 ^ Z.of_nat k))
      (negb (M mod 2 ^ Z.of_nat k =? 0)).
Proof.
  intros HM. induction k as [|k IH].
  - cbn [Nat.iter]. rewrite shr_1_step by lia.
    change (2 ^ Z.of_nat 1) with 2. change (2 ^ Z.of_nat 0) with 1.
    rewrite Z.div_1_r, Z.mod_1_r. reflexivity.
  - change (Nat.iter (S (S k)) shr_1 ?x) with (shr_1 (Nat.iter (S k) shr_1 x)).
    rewrite IH.
    assert (Hp : 0 < 2 ^ Z.of_nat k) by (apply Z.pow_pos_nonneg; lia).
    rewrite shr_1_step by (apply Z.div_pos; [lia | apply Z.pow_pos_nonneg; lia]).
    rewrite !Nat2Z.inj_succ, !Z.pow_succ_r by lia.
    f_equal.
    + rewrite Z.div_div by lia. f_equal. lia.
    + rewrite (Z.mul_comm 2 (2 ^ Z.of_nat k)), mod_double by lia.
      rewrite negb_andb, negb_involutive. now rewrite orb_comm.
Qed.

(** Rounding to nearest after [S k] right shifts: the result is within half
    a unit of the exact quotient. *)
Lemma shr_round (M : Z) (k : nat) :
  0 <= M ->
  let mrs := Nat.iter (S k) shr_1 (Build_shr_record M false false) in
  let q := round_nearest_even (shr_m mrs) (loc_of_shr_record mrs) in
  let P := 2 ^ Z.of_nat k in
  M / (P * 2) <= q <= M / (P * 2) + 1 /\ - P <= q * (P * 2) - M <= P.
Proof.
  intros HM mrs q P. subst mrs q.
  rewrite shr_iter by lia. fold P.
  assert (HP : 0 < P) by (apply Z.pow_pos_nonneg; lia).
  replace (2 ^ Z.of_nat (S k)) with (P * 2)
    by (rewrite Nat2Z.inj_succ, Z.pow_succ_r by lia; unfold P; lia).
  pose proof (Z.div_mod M P ltac:(lia)) as HMP.
  pose proof (Z.mod_pos_bound M P HP) as Hd.
  assert (Hq : M / (P * 2) = M / P / 2) by (now rewrite Z.div_div by lia).
  pose proof (Z.div_mod (M / P) 2 ltac:(lia)) as Ha.
  pose proof (Z.mod_pos_bound (M / P) 2 ltac:(lia)) as Hb.
  rewrite Zodd_mod.
  cbn [shr_m loc_of_shr_record].
  destruct (Z.eqb_spec (M / P mod 2) 1) as [E | E];
    destruct (Z.eqb_spec (M mod P) 0) as [E0 | E0]; cbn [negb round_nearest_even].
  - destruct (Z.even (M / (P * 2))); nia.
  - nia.
  - nia.
  - nia.
Qed.


Local Open Scope Q_scope.

Lemma pow2_pos (e : Z) : 0 < 2 ^ e.
Proof. apply Qpower_0_lt. reflexivity. Qed.

Lemma pow2_add (a b : Z) : 2 ^ (a + b) == 2 ^ a * 2 ^ b.
Proof. apply Qpower_plus. discriminate. Qed.

Lemma pow2_Z (n : Z) : (0 <= n)%Z -> inject_Z (2 ^ n) == 2 ^ n.
Proof. intros H. now rewrite Zpower_Qpower. Qed.

Lemma pow2_le (a b : Z) : (a <= b)%Z -> 2 ^ a <= 2 ^ b.
Proof. intros H. apply Qpower_le_compat_l; [exact H | discriminate]. Qed.

Lemma pow2_lt_inv (a b : Z) : 2 ^ a < 2 ^ b -> (a < b)%Z.
Proof.
  intros H. destruct (Z.lt_ge_cases a b) as [Hlt | Hge]; [exact Hlt|].
  apply pow2_le in Hge. lra.
Qed.

Lemma cond_Zopp_abs (s : bool) (z : Z) : Z.abs (cond_Zopp s z) = Z.abs z.
Proof. destruct s; simpl; [apply Z.abs_opp | reflexivity]. Qed.

Lemma Qabs_inject (z : Z) : Qabs (inject_Z z) == inject_Z (Z.abs z).
Proof. unfold Qabs, inject_Z. reflexivity. Qed.

Lemma fexp_eq (e : Z) : fexp prec emax e = Z.max (e - 53) (-1074).
Proof. reflexivity. Qed.

(** A mantissa already short enough is kept as it is. *)
Lemma round_no_shift (sx : bool) (mx : positive) (ex : Z) :
  (fexp prec emax (Zpos (digits2_pos mx) + ex) <= ex)%Z ->
  binary_round_aux prec emax sx (Zpos mx) ex loc_Exact
  = if (ex <=? emax - prec)%Z then S754_finite sx mx ex else S754_infinity sx.
Proof.
  intros H. unfold binary_round_aux, shr_fexp.
  cbn [Zdigits2 shr_record_of_loc].
  destruct (fexp prec emax (Z.pos (digits2_pos mx) + ex) - ex)%Z eqn:E; try lia;
    cbn [shr shr_m loc_of_shr_record round_nearest_even Zdigits2 shr_record_of_loc];
    rewrite E; reflexivity.
Qed.

Lemma Zdigits2_le (q : Z) (n : Z) :
  (0 < q < 2 ^ n)%Z -> (0 <= n)%Z -> (0 < Zdigits2 q <= n)%Z.
Proof.
  intros [Hq Hlt] Hn. destruct q as [|p|p]; try lia. cbn [Zdigits2].
  split; [lia|].
  destruct (digits2_pos_bounds p) as [Hlo _].
  assert (2 ^ (Z.pos (digits2_pos p) - 1) < 2 ^ n)%Z by lia.
  apply Z.pow_lt_mono_r_iff in H; lia.
Qed.

(** Rounding a positive mantissa that has to lose [p] bits. *)
Lemma round_shift (sx : bool) (mx : positive) (ex : Z) (p : positive) :
  (fexp prec emax (Zpos (digits2_pos mx) + ex) - ex = Zpos p)%Z ->
  let e1 := (ex + Zpos p)%Z in
  (e1 + 1 <= emax - prec)%Z ->
  exists (q : Z) (v : Q),
    (- 2 ^ (Zpos p - 1) <= q * 2 ^ Zpos p - Zpos mx <= 2 ^ (Zpos p - 1))%Z
    /\ (0 <= q)%Z
    /\ value (binary_round_aux prec emax sx (Zpos mx) ex loc_Exact) = Some v
    /\ v == inject_Z (cond_Zopp sx q) * 2 ^ e1.
Proof.
  intros E e1 He1.
  unfold binary_round_aux, shr_fexp. cbn [Zdigits2 shr_record_of_loc].
  rewrite E. cbn [shr]. rewrite iter_pos_nat.
  destruct (Pos2Nat.is_succ p) as [k Hk]. rewrite Hk.
  pose proof (shr_round (Zpos mx) k ltac:(lia)) as Hr. cbv zeta in Hr.
  set (mrs := Nat.iter (S k) shr_1 _) in *.
  set (q := round_nearest_even (shr_m mrs) (loc_of_shr_record mrs)) in *.
  assert (Hp : Zpos p = Z.of_nat (S k)) by lia.
  assert (Hk1 : (Z.of_nat k = Zpos p - 1)%Z) by lia.
  rewrite Hk1 in Hr.
  assert (Hpow : (2 ^ (Zpos p - 1) * 2 = 2 ^ Zpos p)%Z).
  { replace (Zpos p) with (Z.succ (Zpos p - 1)) at 2 by lia.
    rewrite Z.pow_succ_r by lia. lia. }
  rewrite Hpow in Hr. destruct Hr as [Hq Herr].
  assert (Hpos : (0 < 2 ^ (Zpos p - 1))%Z) by (apply Z.pow_pos_nonneg; lia).
  (* the quotient has at most 53 bits *)
  set (d := Zpos (digits2_pos mx)) in *.
  destruct (digits2_pos_bounds mx) as [_ Hhi]. fold d in Hhi.
  rewrite fexp_eq in E.
  assert (Hd : (d - Zpos p <= 53)%Z) by lia.
  assert (Hquot : (Zpos mx / 2 ^ Zpos p < 2 ^ 53)%Z).
  { apply Z.div_lt_upper_bound; [apply Z.pow_pos_nonneg; lia|].
    rewrite <- Z.pow_add_r by lia.
    eapply Z.lt_le_trans; [exact Hhi|].
    apply Z.pow_le_mono_r; lia. }
  assert (Hq0 : (0 <= Zpos mx / 2 ^ Zpos p)%Z)
    by (apply Z.div_pos; [lia | apply Z.pow_pos_nonneg; lia]).
  assert (He1' : (-1074 <= e1)%Z) by (unfold e1; lia).
  exists q.
  change (ex + Zpos p)%Z with e1.
  destruct (Z.eq_dec q (2 ^ 53)) as [Hfull | Hnot].
  - rewrite Hfull.
    change (Zdigits2 (2 ^ 53)) with 54%Z.
    rewrite fexp_eq.
    replace (Z.max (54 + e1 - 53) (-1074) - e1)%Z with 1%Z by lia.
    cbn [shr iter_pos shr_record_of_loc].
    change (shr_1 {| shr_m := 2 ^ 53; shr_r := false; shr_s := false |})
      with {| shr_m := 2 ^ 52; shr_r := false; shr_s := false |}.
    cbn [shr_m]. change (2 ^ 52)%Z with (Zpos (2 ^ 52)).
    destruct (Z.leb_spec (e1 + 1) (emax - prec)) as [_ | Hbad]; [|lia].
    eexists. split; [lia|]. split; [lia|]. split; [reflexivity|].
    unfold finite. rewrite pow2_add.
    destruct sx; cbn [cond_Zopp];
      change (2 ^ 1) with 2; change (inject_Z (Z.pos (2 ^ 52))) with (4503599627370496 # 1);
      change (inject_Z (- Z.pos (2 ^ 52))) with (- 4503599627370496 # 1);
      change (inject_Z (2 ^ 53)) with (9007199254740992 # 1);
      change (inject_Z (- 2 ^ 53)) with (- 9007199254740992 # 1); ring.
  - assert (Hdq : (0 <= Zdigits2 q <= 53)%Z).
    { destruct (Z.eq_dec q 0) as [-> | Hnz]; [cbn; lia|].
      pose proof (Zdigits2_le q 53 ltac:(lia) ltac:(lia)). lia. }
    rewrite fexp_eq.
    destruct (Z.max (Zdigits2 q + e1 - 53) (-1074) - e1)%Z eqn:E2; try lia;
      cbn [shr shr_record_of_loc shr_m];
      (destruct q as [|m|m]; try lia;
       [ eexists; split; [lia|]; split; [lia|]; split; [reflexivity|];
         destruct sx; cbn [cond_Zopp]; change (inject_Z (- 0)) with (inject_Z 0);
         change (inject_Z 0) with 0; ring
       | destruct (Z.leb_spec e1 (emax - prec)) as [_ | Hbad]; [|lia];
         eexists; split; [lia|]; split; [lia|]; split; reflexivity ]).
Qed.


Lemma scaled_error (sx : bool) (q mx : Z) (p : positive) (ex : Z) :
  (- 2 ^ (Zpos p - 1) <= q * 2 ^ Zpos p - mx <= 2 ^ (Zpos p - 1))%Z ->
  Qabs (inject_Z (cond_Zopp sx q) * 2 ^ (ex + Zpos p) - inject_Z (cond_Zopp sx mx) * 2 ^ ex)
  <= 2 ^ (ex + Zpos p - 1).
Proof.
  intros H.
  assert (E : inject_Z (cond_Zopp sx q) * 2 ^ (ex + Zpos p)
              - inject_Z (cond_Zopp sx mx) * 2 ^ ex
              == inject_Z (cond_Zopp sx (q * 2 ^ Zpos p - mx)) * 2 ^ ex).
  { rewrite pow2_add, <- (pow2_Z (Zpos p)) by lia.
    destruct sx; cbn [cond_Zopp];
      unfold Z.sub; rewrite ?inject_Z_opp, inject_Z_plus, ?inject_Z_opp, inject_Z_mult; ring. }
  rewrite E, Qabs_Qmult, Qabs_inject, cond_Zopp_abs.
  rewrite (Qabs_pos (2 ^ ex)) by (apply Qlt_le_weak, pow2_pos).
  replace (ex + Zpos p - 1)%Z with ((Zpos p - 1) + ex)%Z by lia.
  rewrite pow2_add, <- (pow2_Z (Zpos p - 1)) by lia.
  apply Qmult_le_compat_r; [|apply Qlt_le_weak, pow2_pos].
  rewrite <- Zle_Qle. lia.
Qed.

(** Rounding the exact value [m * 2^e]: the result is finite and within
    half a unit in the last place. *)
Lemma round_aux_error (sx : bool) (mx : positive) (ex : Z) :
  let d := Zpos (digits2_pos mx) in
  (d + ex <= 1023)%Z -> (ex <= 971)%Z ->
  exists v,
    value (binary_round_aux prec emax sx (Zpos mx) ex loc_Exact) = Some v
    /\ Qabs (v - finite sx mx ex) <= 2 ^ (Z.max (d + ex - 54) (-1075)).
Proof.
  intros d Hd He.
  destruct (Z.le_gt_cases (fexp prec emax (d + ex)) ex) as [Hno | Hshift].
  - rewrite (round_no_shift sx mx ex Hno).
    destruct (Z.leb_spec ex (emax - prec)) as [_ | Hbad]; [|unfold emax, prec in Hbad; lia].
    exists (finite sx mx ex). split; [reflexivity|].
    setoid_replace (finite sx mx ex - finite sx mx ex) with 0 by ring.
    apply Qlt_le_weak, pow2_pos.
  - destruct (fexp prec emax (d + ex) - ex)%Z as [|p|p] eqn:E; try lia.
    rewrite fexp_eq in Hshift, E.
    destruct (round_shift sx mx ex p) as (q & v & Herr & Hq & Hv & Hval).
    { exact E. }
    { unfold emax, prec. lia. }
    exists v. split; [exact Hv|].
    rewrite Hval. unfold finite.
    eapply Qle_trans; [apply scaled_error; exact Herr|].
    apply pow2_le. lia.
Qed.

Lemma iter_xO (m : positive) (p : positive) :
  Zpos (Pos.iter xO m p) = (Zpos m * 2 ^ Zpos p)%Z
  /\ digits2_pos (Pos.iter xO m p) = (digits2_pos m + p)%positive.
Proof.
  induction p as [|p IH] using Pos.peano_ind.
  - cbn [Pos.iter]. split; [lia | cbn [digits2_pos]; lia].
  - rewrite Pos.iter_succ. destruct IH as [IH1 IH2]. split.
    + change (Zpos (Pos.iter xO m p)~0) with (2 * Zpos (Pos.iter xO m p))%Z.
      rewrite IH1, Pos2Z.inj_succ, Z.pow_succ_r by lia. lia.
    + cbn [digits2_pos]. rewrite IH2. lia.
Qed.

Lemma shl_align_spec (mx : positive) (ex ez : Z) :
  (ez <= ex)%Z ->
  Zpos (fst (shl_align mx ex ez)) = (Zpos mx * 2 ^ (ex - ez))%Z
  /\ snd (shl_align mx ex ez) = ez
  /\ Zpos (digits2_pos (fst (shl_align mx ex ez))) = (Zpos (digits2_pos mx) + (ex - ez))%Z.
Proof.
  intros H. unfold shl_align.
  destruct (ez - ex)%Z as [|d|d] eqn:E; try lia; cbn [fst snd].
  - replace (ex - ez)%Z with 0%Z by lia. change (2 ^ 0)%Z with 1%Z. lia.
  - destruct (iter_xO mx d) as [H1 H2].
    replace (ex - ez)%Z with (Zpos d) by lia. rewrite H1, H2. lia.
Qed.

(** [binary_round] first lengthens a short mantissa, which changes nothing. *)
Lemma round_error (sx : bool) (mx : positive) (ex : Z) :
  let d := Zpos (digits2_pos mx) in
  (d + ex <= 1023)%Z ->
  exists v,
    value (binary_round prec emax sx mx ex) = Some v
    /\ Qabs (v - finite sx mx ex) <= 2 ^ (Z.max (d + ex - 54) (-1075)).
Proof.
  intros d Hd. unfold binary_round. fold d.
  set (e' := fexp prec emax (d + ex)).
  assert (He' : e' = Z.max (d + ex - 53) (-1074)) by apply fexp_eq.
  destruct (Z.le_gt_cases e' ex) as [Hlong | Hshort].
  - destruct (shl_align_spec mx ex e' Hlong) as (Hm & He & Hdig).
    destruct (shl_align mx ex e') as [mz ez]. cbn [fst snd] in *. subst ez.
    destruct (round_aux_error sx mz e') as (v & Hv & Herr); [lia | lia |].
    exists v. split; [exact Hv|].
    assert (Hsame : finite sx mz e' == finite sx mx ex).
    { unfold finite.
      assert (Hex : (2 ^ ex == 2 ^ e' * inject_Z (2 ^ (ex - e')))%Q).
      { rewrite pow2_Z, <- pow2_add by lia. now replace (e' + (ex - e'))%Z with ex by lia. }
      rewrite Hex.
      destruct sx; cbn [cond_Zopp]; rewrite ?inject_Z_opp, Hm, inject_Z_mult; ring. }
    rewrite <- Hsame. eapply Qle_trans; [exact Herr|].
    apply pow2_le. lia.
  - assert (Hsame : shl_align mx ex e' = (mx, ex)).
    { unfold shl_align. destruct (e' - ex)%Z eqn:E; try lia; reflexivity. }
    rewrite Hsame.
    apply round_aux_error; lia.
Qed.


Lemma finite_abs (s : bool) (m : positive) (e : Z) :
  Qabs (finite s m e) == inject_Z (Zpos m) * 2 ^ e.
Proof.
  unfold finite. rewrite Qabs_Qmult, Qabs_inject, cond_Zopp_abs.
  rewrite (Qabs_pos (2 ^ e)) by (apply Qlt_le_weak, pow2_pos). reflexivity.
Qed.

(** A value below [2^k] has its leading bit below position [k]. *)
Lemma magnitude (s : bool) (m : positive) (e k : Z) :
  Qabs (finite s m e) < 2 ^ k -> (Zpos (digits2_pos m) + e <= k)%Z.
Proof.
  intros H. rewrite finite_abs in H.
  destruct (digits2_pos_bounds m) as [Hlo _].
  assert (Hq : 2 ^ (Zpos (digits2_pos m) - 1 + e) < 2 ^ k).
  { eapply Qle_lt_trans; [|exact H].
    rewrite pow2_add, <- (pow2_Z (Zpos (digits2_pos m) - 1)) by lia.
    apply Qmult_le_compat_r; [|apply Qlt_le_weak, pow2_pos].
    rewrite <- Zle_Qle. exact Hlo. }
  apply pow2_lt_inv in Hq. lia.
Qed.

Lemma exponent_lt (s : bool) (m : positive) (e k : Z) :
  Qabs (finite s m e) < 2 ^ k -> (e < k)%Z.
Proof.
  intros H. apply magnitude in H. lia.
Qed.

Lemma finite_mul (sx sy : bool) (mx my : positive) (ex ey : Z) :
  finite (xorb sx sy) (mx * my) (ex + ey) == finite sx mx ex * finite sy my ey.
Proof.
  unfold finite. rewrite pow2_add.
  destruct sx, sy; cbn [xorb cond_Zopp];
    rewrite ?inject_Z_opp, Pos2Z.inj_mul, inject_Z_mult; ring.
Qed.

(** The product of two doubles is the exact product, rounded. *)
Lemma mul_error (x y : t) (vx vy : Q) (k : Z) :
  value x = Some vx -> value y = Some vy ->
  Qabs (vx * vy) < 2 ^ k -> (k <= 1023)%Z ->
  (exponent x + exponent y <= 971)%Z ->
  exists v,
    value (mul x y) = Some v
    /\ Qabs (v - vx * vy) <= 2 ^ (Z.max (k - 54) (-1075)).
Proof.
  intros Hx Hy Hk Hk' He.
  assert (Hzero : forall a b : Q, a * b == 0 -> Qabs (0 - a * b) <= 2 ^ (Z.max (k - 54) (-1075))).
  { intros a b E. rewrite E. setoid_replace (0 - 0) with 0 by ring.
    apply Qlt_le_weak, pow2_pos. }
  destruct x as [sx | sx | | sx mx ex]; try discriminate Hx;
    destruct y as [sy | sy | | sy my ey]; try discriminate Hy;
    cbn [value] in Hx, Hy; injection Hx as <-; injection Hy as <-.
  - exists 0. split; [reflexivity|]. apply Hzero. ring.
  - exists 0. split; [reflexivity|]. apply Hzero. ring.
  - exists 0. split; [reflexivity|]. apply Hzero. ring.
  - cbn [exponent] in He. unfold mul. cbn [SFmul].
    rewrite <- finite_mul in Hk.
    pose proof (magnitude _ _ _ _ Hk) as Hd.
    destruct (round_aux_error (xorb sx sy) (mx * my) (ex + ey)) as (v & Hv & Herr);
      [lia | lia |].
    exists v. split; [exact Hv|]. rewrite <- finite_mul.
    eapply Qle_trans; [exact Herr|]. apply pow2_le. lia.
Qed.

(** The sum of two doubles is the exact sum, rounded. *)
Lemma add_error (x y : t) (vx vy : Q) (k : Z) :
  value x = Some vx -> value y = Some vy ->
  Qabs (vx + vy) < 2 ^ k -> (k <= 1023)%Z ->
  exists v,
    value (add x y) = Some v
    /\ Qabs (v - (vx + vy)) <= 2 ^ (Z.max (k - 54) (-1075)).
Proof.
  intros Hx Hy Hk Hk'.
  assert (Hexact : forall a b : Q, a == b -> Qabs (a - b) <= 2 ^ (Z.max (k - 54) (-1075))).
  { intros a b E. rewrite E. setoid_replace (b - b) with 0 by ring.
    apply Qlt_le_weak, pow2_pos. }
  destruct x as [sx | sx | | sx mx ex]; try discriminate Hx;
    destruct y as [sy | sy | | sy my ey]; try discriminate Hy;
    cbn [value] in Hx, Hy; injection Hx as <-; injection Hy as <-.
  - exists 0. split; [destruct sx, sy; reflexivity|]. apply Hexact. ring.
  - exists (finite sy my ey). split; [reflexivity|]. apply Hexact. ring.
  - exists (finite sx mx ex). split; [reflexivity|]. apply Hexact. ring.
  - unfold add. cbn [SFadd].
    set (ez := Z.min ex ey).
    destruct (shl_align_spec mx ex ez ltac:(lia)) as (Hmx & _ & _).
    destruct (shl_align_spec my ey ez ltac:(lia)) as (Hmy & _ & _).
    set (S := (cond_Zopp sx (Zpos (fst (shl_align mx ex ez)))
               + cond_Zopp sy (Zpos (fst (shl_align my ey ez))))%Z).
    assert (HS : inject_Z S * 2 ^ ez == finite sx mx ex + finite sy my ey).
    { unfold S, finite. rewrite Hmx, Hmy.
      assert (Hex : 2 ^ ex == 2 ^ ez * inject_Z (2 ^ (ex - ez))).
      { rewrite pow2_Z, <- pow2_add by lia. now replace (ez + (ex - ez))%Z with ex by lia. }
      assert (Hey : 2 ^ ey == 2 ^ ez * inject_Z (2 ^ (ey - ez))).
      { rewrite pow2_Z, <- pow2_add by lia. now replace (ez + (ey - ez))%Z with ey by lia. }
      rewrite Hex, Hey.
      destruct sx, sy; cbn [cond_Zopp];
        rewrite inject_Z_plus, ?inject_Z_opp, !inject_Z_mult; ring. }
    destruct S as [|m|m] eqn:ES; cbn [binary_normalize].
    + exists 0. split; [reflexivity|]. apply Hexact. rewrite <- HS. ring.
    + assert (Hf : finite false m ez == finite sx mx ex + finite sy my ey)
        by (now rewrite <- HS).
      rewrite <- Hf in Hk.
      pose proof (magnitude _ _ _ _ Hk) as Hd.
      destruct (round_error false m ez) as (v & Hv & Herr); [lia|].
      exists v. split; [exact Hv|]. rewrite <- Hf.
      eapply Qle_trans; [exact Herr|]. apply pow2_le. lia.
    + assert (Hf : finite true m ez == finite sx mx ex + finite sy my ey)
        by (now rewrite <- HS).
      rewrite <- Hf in Hk.
      pose proof (magnitude _ _ _ _ Hk) as Hd.
      destruct (round_error true m ez) as (v & Hv & Herr); [lia|].
      exists v. split; [exact Hv|]. rewrite <- Hf.
      eapply Qle_trans; [exact Herr|]. apply pow2_le. lia.
Qed.


Lemma five_percent : ratio 5 100 = S754_finite false 7205759403792794 (-57).
Proof. vm_compute. reflexivity. Qed.

Lemma hundred_and_five_percent :
  ratio 105 100 = S754_finite false 4728779608739021 (-52).
Proof. vm_compute. reflexivity. Qed.

Lemma Qabs_le_iff (x y : Q) : Qabs x <= y <-> - y <= x <= y.
Proof. apply Qabs_Qle_condition. Qed.

(** Tax and total of an amount of at most a million, computed in doubles,
    are within 1e-9 of 5% and 105% of the amount, and so is the amount
    times 1.05. *)
Lemma totals_tolerance (subtotal : t) (v : Q) :
  value subtotal = Some v -> Qabs v <= 1000000 ->
  exists vt vg vp,
    value (mul subtotal (ratio 5 100)) = Some vt
    /\ value (add subtotal (mul subtotal (ratio 5 100))) = Some vg
    /\ value (mul subtotal (ratio 105 100)) = Some vp
    /\ Qabs (vt - v * (5 # 100)) <= 1 # 1000000000
    /\ Qabs (vg - (v + vt)) <= 1 # 1000000000
    /\ Qabs (vg - v * (105 # 100)) <= 1 # 1000000000
    /\ Qabs (vg - vp) <= 1 # 1000000000.
Proof.
  intros Hv Hb. rewrite five_percent, hundred_and_five_percent.
  set (c := S754_finite false 7205759403792794 (-57)).
  set (c' := S754_finite false 4728779608739021 (-52)).
  set (vc := (7205759403792794 # 144115188075855872)%Q).
  set (vc' := (4728779608739021 # 4503599627370496)%Q).
  assert (Hc : value c = Some (finite false 7205759403792794 (-57))) by reflexivity.
  assert (Hvc : finite false 7205759403792794 (-57) == vc) by reflexivity.
  assert (Hc' : value c' = Some (finite false 4728779608739021 (-52))) by reflexivity.
  assert (Hvc' : finite false 4728779608739021 (-52) == vc') by reflexivity.
  apply Qabs_le_iff in Hb.
  assert (He : (exponent subtotal < 20)%Z).
  { destruct subtotal as [s | s | | s m e]; cbn [exponent]; try lia.
    cbn [value] in Hv. injection Hv as <-.
    apply (exponent_lt s m e 20).
    apply Qabs_Qlt_condition.
    change (2 ^ 20) with (1048576 # 1). lra. }
  destruct (mul_error subtotal c v _ 16 Hv Hc) as (vt & Ht & Herr1).
  { rewrite Hvc. apply Qabs_Qlt_condition. unfold vc.
    change (2 ^ 16) with (65536 # 1). lra. }
  { lia. }
  { cbn [exponent c]. lia. }
  rewrite Hvc in Herr1.
  change (2 ^ Z.max (16 - 54) (-1075)) with (1 # 274877906944) in Herr1.
  apply Qabs_le_iff in Herr1. unfold vc in Herr1.
  destruct (add_error subtotal (mul subtotal c) v vt 21 Hv Ht) as (vg & Hg & Herr2).
  { apply Qabs_Qlt_condition.
    change (2 ^ 21) with (2097152 # 1). lra. }
  { lia. }
  change (2 ^ Z.max (21 - 54) (-1075)) with (1 # 8589934592) in Herr2.
  apply Qabs_le_iff in Herr2.
  destruct (mul_error subtotal c' v _ 21 Hv Hc') as (vp & Hp & Herr3).
  { rewrite Hvc'. apply Qabs_Qlt_condition. unfold vc'.
    change (2 ^ 21) with (2097152 # 1). lra. }
  { lia. }
  { cbn [exponent c']. lia. }
  rewrite Hvc' in Herr3.
  change (2 ^ Z.max (21 - 54) (-1075)) with (1 # 8589934592) in Herr3.
  apply Qabs_le_iff in Herr3. unfold vc' in Herr3.
  exists vt, vg, vp.
  split; [exact Ht|]. split; [exact Hg|]. split; [exact Hp|].
  repeat split; apply Qabs_le_iff; lra.
Qed.

(** Adding the literal 0 changes nothing, except that it turns the
    negative zero into the positive one. *)
Lemma add_zero_r (x : t) :
  add x zero = x \/ (x = S754_zero true /\ add x zero = S754_zero false).
Proof.
  destruct x as [[] | [] | | s m e]; cbn; auto.
Qed.

Lemma mul_one_zero : mul (ofZ 1) zero = zero.
Proof. reflexivity. Qed.

End RoundingFacts.

(** ** Totals *)

Lemma totalsBlock_lines (data : InvoiceData) (y : Q) :
  snd (Rich.totalsBlock (Rich.totalsOf data) y)
  = let subtotal := match totalAmount data with Some v => v | None => Number.zero end in
    Totals.lines subtotal (Number.mul subtotal (Number.ratio 5 100))
      (Number.add subtotal (Number.mul subtotal (Number.ratio 5 100))) y.
Proof. reflexivity. Qed.

(** The totals block of the client-side page. *)
Lemma page_totals_lines (env : Env) (data : InvoiceData) :
  let subtotal :=
    match totalAmount data with
    | Some supplied => supplied
    | None => Totals.sumOfAmounts (lineItems data)
    end in
  let tax := Number.mul subtotal (Number.ratio 5 100) in
  let total := Number.add subtotal tax in
  exists above y below,
    snd (Rich.generateInvoice env data)
    = (above ++ Totals.lines subtotal tax total y ++ below)%list
    /\ (y == tableTop - 50 - 25 * num (List.length (lineItems data)))%Q.
Proof.
  intros subtotal tax total.
  unfold Rich.generateInvoice, Rich.drawPage, Rich.belowRows. cbn [snd].
  set (data' := Rich.fillTotalAmount data).
  assert (Hitems : lineItems data' = lineItems data).
  { unfold data', Rich.fillTotalAmount. now destruct (totalAmount data). }
  assert (Hsub : match totalAmount data' with Some v => v | None => Number.zero end
                 = subtotal).
  { unfold data', Rich.fillTotalAmount, subtotal.
    rewrite LayoutFacts.sumOfAmounts_is_sumLineItems.
    destruct (totalAmount data) eqn:E; cbn; [now rewrite E | reflexivity]. }
  pose proof (OverflowFacts.forEachRow_cursor (lineItems data') 0 (tableTop - 45)%Q)
    as Hcursor.
  destruct (forEachRow (lineItems data') 0 (tableTop - 45)%Q) as [yPosition rows].
  cbn [fst] in Hcursor. rewrite Hitems in Hcursor.
  pose proof (totalsBlock_lines data' (yPosition - 5)%Q) as Hlines.
  cbv zeta in Hlines. rewrite Hsub in Hlines. fold tax total in Hlines.
  destruct (Rich.totalsBlock (Rich.totalsOf data') (yPosition - 5)%Q) as [y' drawn].
  cbn [snd] in Hlines. subst drawn.
  exists (Rich.aboveRows env data' ++ rows)%list, (yPosition - 5)%Q,
    (Rich.paymentBlock data' y' ++ Rich.footer env)%list.
  split.
  - now rewrite <- !List.app_assoc.
  - rewrite Hcursor. ring.
Qed.

(** C1, as amended.  The subtotal the page shows is [data.totalAmount] when
    the caller supplies one, and the left-to-right sum of
    quantity x unitPrice over the line items (from 0) only when
    [totalAmount] is undefined.  The tax shown is the double
    subtotal x 0.05 and the total shown is the double subtotal + tax; the
    three amounts are printed with two decimals in the totals block, which
    starts 50 units below the top of the table plus 25 per line item.  For
    a subtotal of at most a million in absolute value, the tax is within
    1e-9 of 5% of the subtotal and the total within 1e-9 of
    subtotal + tax and of subtotal x 1.05. *)
Theorem rich_totals_follow_totalAmount (env : Env) (data : InvoiceData) :
  let subtotal :=
    match totalAmount data with
    | Some supplied => supplied
    | None => Totals.sumOfAmounts (lineItems data)
    end in
  let tax := Number.mul subtotal (Number.ratio 5 100) in
  let total := Number.add subtotal tax in
  (exists above y below,
     snd (Rich.generateInvoice env data)
     = (above ++ Totals.lines subtotal tax total y ++ below)%list
     /\ (y == tableTop - 50 - 25 * num (List.length (lineItems data)))%Q)
  /\ (forall v : Q,
        Number.value subtotal = Some v ->
        (Qabs v <= 1000000)%Q ->
        exists vTax vTotal,
          Number.value tax = Some vTax
          /\ Number.value total = Some vTotal
          /\ Totals.within (1 # 1000000000) vTax (v * (5 # 100))
          /\ Totals.within (1 # 1000000000) vTotal (v + vTax)
          /\ Totals.within (1 # 1000000000) vTotal (v * (105 # 100))).
Proof.
  intros subtotal tax total. split.
  - exact (page_totals_lines env data).
  - intros v Hv Hbound.
    destruct (RoundingFacts.totals_tolerance subtotal v Hv Hbound)
      as (vt & vg & vp & Ht & Hg & _ & H1 & H2 & H3 & _).
    exists vt, vg. unfold Totals.within. repeat split; assumption.
Qed.

Lemma rich_totals_follow_totalAmount_witness :
  let data := set_totalAmount Sample.invoice (Some (Number.ratio 1001 10)) in
  let v := Number.finite false 7043911292184166 (-46) in
  Number.value (Number.ratio 1001 10) = Some v
  /\ (Qabs v <= 1000000)%Q
  /\ exists vTax vTotal,
       Number.value (Number.mul (Number.ratio 1001 10) (Number.ratio 5 100)) = Some vTax
       /\ Number.value (Number.add (Number.ratio 1001 10)
                          (Number.mul (Number.ratio 1001 10) (Number.ratio 5 100)))
          = Some vTotal
       /\ Totals.within (1 # 1000000000) vTax (v * (5 # 100))
       /\ Totals.within (1 # 1000000000) vTotal (v * (105 # 100)).
Proof.
  intros data v.
  assert (Hv : Number.value (Number.ratio 1001 10) = Some v) by (vm_compute; reflexivity).
  assert (Hb : (Qabs v <= 1000000)%Q) by (vm_compute; discriminate).
  split; [exact Hv|]. split; [exact Hb|].
  destruct (proj2 (rich_totals_follow_totalAmount Sample.noon data) v Hv Hb)
    as (vTax & vTotal & Ht & Hg & H1 & _ & H3).
  exists vTax, vTotal. repeat split; assumption.
Defined.

(** C1 fails as stated, twice.  With a supplied [totalAmount] of 999 on the
    single-item invoice (2 x 100), the page shows "$999.00" as subtotal,
    while the sum of the line items is 200.  And on an invoice of one item
    at 33554432.01 the total, computed in doubles, is more than 1e-9 away
    from subtotal x 1.05. *)
Lemma rich_subtotal_not_recomputed :
  let data := set_totalAmount Sample.invoice (Some (Number.ofZ 999)) in
  let page := snd (Rich.generateInvoice Sample.noon data) in
  let big := Number.ratio 3355443201 100 in
  Totals.money (Totals.sumOfAmounts (lineItems data)) = "$200.00"
  /\ nth_error page 27
     = Some (DrawText "Subtotal:" 410 (tableTop - 45 - 25 - 5)%Q
               normalFontSize HelveticaBold (rgb 0.2 0.2 0.2))
  /\ nth_error page 28
     = Some (DrawText "$999.00" 490 (tableTop - 45 - 25 - 5)%Q
               normalFontSize Helvetica (rgb 0.2 0.2 0.2))
  /\ Totals.sumOfAmounts (lineItems (Sample.priced big)) = big
  /\ exists v vTotal,
       Number.value big = Some v
       /\ Number.value (Number.add big (Number.mul big (Number.ratio 5 100))) = Some vTotal
       /\ ~ Totals.within (1 # 1000000000) vTotal (v * (105 # 100)).
Proof.
  cbv zeta. split; [vm_compute; reflexivity|].
  split; [vm_compute; reflexivity|].
  split; [vm_compute; reflexivity|].
  split; [vm_compute; reflexivity|].
  eexists. eexists.
  split; [vm_compute; reflexivity|].
  split; [vm_compute; reflexivity|].
  unfold Totals.within. apply Qlt_not_le. vm_compute. reflexivity.
Qed.

(** ** Effects on the record, and what a render depends on *)

Lemma fillTotalAmount_idempotent (data : InvoiceData) :
  Rich.fillTotalAmount (Rich.fillTotalAmount data) = Rich.fillTotalAmount data.
Proof.
  unfold Rich.fillTotalAmount.
  destruct (totalAmount data) eqn:E; simpl; now rewrite ?E.
Qed.

Lemma currentDate_same_day (env1 env2 : Env) :
  JsDate.localDay (utcOffset (runtime env1)) (now env1)
  = JsDate.localDay (utcOffset (runtime env2)) (now env2) ->
  Rich.currentDate env1 = Rich.currentDate env2.
Proof.
  intros Hday.
  unfold Rich.currentDate, JsDate.getMonth, JsDate.getDate, JsDate.getFullYear.
  cbv zeta. now rewrite Hday.
Qed.

Lemma drawPage_same_day (env1 env2 : Env) (data : InvoiceData) :
  runtime env1 = runtime env2 ->
  JsDate.localDay (utcOffset (runtime env1)) (now env1)
  = JsDate.localDay (utcOffset (runtime env2)) (now env2) ->
  Rich.drawPage env1 data = Rich.drawPage env2 data.
Proof.
  intros Hrt Hday.
  unfold Rich.drawPage, Rich.aboveRows, Rich.belowRows, Rich.footer.
  now rewrite (currentDate_same_day env1 env2 Hday), Hrt.
Qed.

(** The server-side renderer reads the runtime of [Date] and nothing else
    of the environment. *)
Lemma simple_page_same_runtime (env1 env2 : Env) (data : InvoiceData) :
  runtime env1 = runtime env2 ->
  Simple.generateInvoice env1 data = Simple.generateInvoice env2 data.
Proof.
  intros Hrt. unfold Simple.generateInvoice, Simple.aboveRows. now rewrite Hrt.
Qed.

(** C7, as amended.  The render writes to its argument in one case only:
    when [totalAmount] is undefined it stores there the left-to-right sum
    of the line items; a record that carries a [totalAmount] is returned
    as it came.  No other field and no line item is ever changed, and a
    second render of the record the first one left writes nothing.  (The
    server-side renderer returns a page only and has no write at all.) *)
Theorem rich_render_writes_only_missing_total (env env' : Env) (data : InvoiceData) :
  let data' := fst (Rich.generateInvoice env data) in
  data' = match totalAmount data with
          | Some _ => data
          | None => set_totalAmount data (Some (sumLineItems (lineItems data)))
          end
  /\ lineItems data' = lineItems data
  /\ (invoiceNumber data', invoiceDate data', dueDate data', notes data', status data')
     = (invoiceNumber data, invoiceDate data, dueDate data, notes data, status data)
  /\ (companyName data', companyAddress data', companyEmail data', companyPhone data')
     = (companyName data, companyAddress data, companyEmail data, companyPhone data)
  /\ (clientName data', clientAddress data', clientEmail data')
     = (clientName data, clientAddress data, clientEmail data)
  /\ fst (Rich.generateInvoice env' data') = data'.
Proof.
  unfold Rich.generateInvoice. cbn [fst].
  rewrite fillTotalAmount_idempotent.
  unfold Rich.fillTotalAmount.
  destruct (totalAmount data); repeat split.
Qed.

(** C7 fails as stated: the sample record arrives without [totalAmount] and
    leaves the render with [totalAmount = 200]; and the stored value
    outlives the call: once the caller changes the quantity from 2 to 3, a
    second render of the same record still shows the subtotal 200, where a
    record that never went through a render shows 300. *)
Lemma rich_render_mutates_record :
  let data := Sample.invoice in
  let data' := fst (Rich.generateInvoice Sample.noon data) in
  let edited := [mkLineItem "Consulting" (Number.ofZ 3) (Number.ofZ 100)] in
  data' <> data
  /\ totalAmount data = None
  /\ totalAmount data' = Some (Number.ofZ 200)
  /\ nth_error (snd (Rich.generateInvoice Sample.noon (set_lineItems data' edited))) 28
     = Some (DrawText "$200.00" 490 (tableTop - 45 - 25 - 5)%Q
               normalFontSize Helvetica (rgb 0.2 0.2 0.2))
  /\ nth_error (snd (Rich.generateInvoice Sample.noon (set_lineItems data edited))) 28
     = Some (DrawText "$300.00" 490 (tableTop - 45 - 25 - 5)%Q
               normalFontSize Helvetica (rgb 0.2 0.2 0.2)).
Proof.
  vm_compute. repeat split; try reflexivity. intros H; discriminate H.
Qed.

(** C2, as amended.  A render reads, besides the record, the runtime of
    [Date] (the local time zone and the date formats it accepts) and, on
    the client side, the current date.  Two runs of the client-side
    renderer on the same record in the same runtime and on the same local
    calendar day leave the same record and draw identical primitive
    sequences, also when the second run receives the record as the first
    one left it.  The server-side renderer never reads the clock: its page
    is the same in the same runtime at any two times.  In both cases a
    serialiser that is a function of the primitive sequence returns
    identical bytes. *)
Theorem render_deterministic_within_a_day (data : InvoiceData) :
  (forall env1 env2 : Env,
     runtime env1 = runtime env2 ->
     JsDate.localDay (utcOffset (runtime env1)) (now env1)
     = JsDate.localDay (utcOffset (runtime env2)) (now env2) ->
     Rich.generateInvoice env1 data = Rich.generateInvoice env2 data
     /\ Rich.generateInvoice env2 (fst (Rich.generateInvoice env1 data))
        = Rich.generateInvoice env1 data
     /\ forall (Bytes : Type) (save : Page -> Bytes),
          save (snd (Rich.generateInvoice env1 data))
          = save (snd (Rich.generateInvoice env2 data)))
  /\ (forall env1 env2 : Env,
        runtime env1 = runtime env2 ->
        Simple.generateInvoice env1 data = Simple.generateInvoice env2 data
        /\ forall (Bytes : Type) (save : Page -> Bytes),
             save (Simple.generateInvoice env1 data)
             = save (Simple.generateInvoice env2 data)).
Proof.
  split.
  - intros env1 env2 Hrt Hday.
    assert (Hsame : Rich.generateInvoice env1 data = Rich.generateInvoice env2 data).
    { unfold Rich.generateInvoice.
      now rewrite (drawPage_same_day env1 env2 _ Hrt Hday). }
    split; [exact Hsame|]. split.
    + unfold Rich.generateInvoice. cbn [fst].
      rewrite fillTotalAmount_idempotent.
      now rewrite (drawPage_same_day env1 env2 _ Hrt Hday).
    + intros Bytes save. now rewrite Hsame.
  - intros env1 env2 Hrt.
    pose proof (simple_page_same_runtime env1 env2 data Hrt) as Hsame.
    split; [exact Hsame|]. intros Bytes save. now rewrite Hsame.
Qed.

Lemma render_deterministic_within_a_day_witness :
  runtime Sample.noon = runtime Sample.one_pm
  /\ JsDate.localDay 0 (now Sample.noon) = JsDate.localDay 0 (now Sample.one_pm)
  /\ Rich.generateInvoice Sample.noon Sample.invoice
     = Rich.generateInvoice Sample.one_pm Sample.invoice
  /\ runtime Sample.noon = runtime Sample.next_day
  /\ Simple.generateInvoice Sample.noon Sample.invoice
     = Simple.generateInvoice Sample.next_day Sample.invoice.
Proof.
  destruct (render_deterministic_within_a_day Sample.invoice) as [Hrich Hsimple].
  split; [reflexivity|]. split; [reflexivity|].
  split; [apply (Hrich Sample.noon Sample.one_pm); reflexivity|].
  split; [reflexivity|].
  apply (Hsimple Sample.noon Sample.next_day). reflexivity.
Defined.

(** C2 fails as stated: the same record rendered at noon and twenty-four
    hours later gives two different primitive sequences; they differ in the
    "Invoice generated on" line of the footer. *)
Lemma render_depends_on_clock :
  snd (Rich.generateInvoice Sample.noon Sample.invoice)
  <> snd (Rich.generateInvoice Sample.next_day Sample.invoice)
  /\ nth_error (snd (Rich.generateInvoice Sample.noon Sample.invoice)) 44
     = Some (DrawText "Invoice generated on January 5, 2024" (width / 2 - 100)%Q 50 8
               Helvetica (rgb 0.4 0.4 0.4))
  /\ nth_error (snd (Rich.generateInvoice Sample.next_day Sample.invoice)) 44
     = Some (DrawText "Invoice generated on January 6, 2024" (width / 2 - 100)%Q 50 8
               Helvetica (rgb 0.4 0.4 0.4)).
Proof.
  vm_compute. repeat split; try reflexivity. intros H; discriminate H.
Qed.

(** ** The status badge *)

Lemma statusOf_fillTotalAmount (data : InvoiceData) :
  Rich.statusOf (Rich.fillTotalAmount data) = Rich.statusOf data.
Proof.
  unfold Rich.fillTotalAmount. now destruct (totalAmount data).
Qed.

(** The badge rectangle and the status text are consecutive primitives of
    the page, the rectangle first. *)
Lemma page_badge_then_text (env : Env) (data : InvoiceData) :
  exists above below,
    snd (Rich.generateInvoice env data)
    = (above
       ++ [Badge.rectangle (Rich.statusColorOf (Rich.statusOf data));
           Badge.label (Rich.statusOf data)]
       ++ below)%list.
Proof.
  unfold Rich.generateInvoice, Rich.drawPage. cbn [snd].
  set (data' := Rich.fillTotalAmount data).
  destruct (forEachRow (lineItems data') 0 (tableTop - 45)) as [yPosition rows].
  exists (Rich.headerBand ++ companyBlock data' ++ metaBlock (runtime env) data'
          ++ [DrawText "Status:" (width - 200) (height - 135) normalFontSize
                Helvetica (rgb 0 0 0)])%list%Q.
  exists (divider ++ clientBlock data' ++ Rich.tableHeader ++ rows
          ++ Rich.belowRows env data' yPosition)%list.
  unfold Rich.aboveRows, Rich.statusBlock.
  rewrite <- (statusOf_fillTotalAmount data). fold data'.
  repeat rewrite <- app_assoc. reflexivity.
Qed.

Lemma statusOf_paid (data : InvoiceData) (s : string) :
  status data = Some s -> eq_ignore_case s "paid" = true ->
  Rich.statusOf data = "PAID".
Proof.
  intros Hs Hci. apply JsFacts.upper_of_paid in Hci.
  unfold Rich.statusOf. now rewrite Hs, Hci.
Qed.

(** The text starts inside the rectangle, whatever the fill and the
    text. *)
Lemma label_on_rectangle (fill : Color) (text : string) :
  Badge.startsInside (Badge.label text) (Badge.rectangle fill) = true.
Proof. reflexivity. Qed.

(** C3.  A status equal to "paid" up to letter case gives the badge
    rectangle filled with rgb(0.2, 0.7, 0.2), a green, immediately followed
    in drawing order by the text PAID; each of the statuses draft, sent,
    overdue and cancelled gives the rectangle filled with
    rgb(0.8, 0.2, 0.2), a red, immediately followed by the status in upper
    case (DRAFT, SENT, OVERDUE, CANCELLED).  The text starts inside the
    rectangle. *)
Theorem status_badge_classification (env : Env) (data : InvoiceData) (s : string) :
  status data = Some s ->
  (eq_ignore_case s "paid" = true ->
   exists above below,
     snd (Rich.generateInvoice env data)
     = (above ++ [Badge.rectangle Badge.paidFill; Badge.label "PAID"] ++ below)%list)
  /\ (forall shown : string,
        In (s, shown) unpaidStatuses ->
        exists above below,
          snd (Rich.generateInvoice env data)
          = (above ++ [Badge.rectangle Badge.unpaidFill; Badge.label shown] ++ below)%list)
  /\ Badge.greenLike Badge.paidFill = true
  /\ Badge.redLike Badge.unpaidFill = true
  /\ (forall (fill : Color) (text : string),
        Badge.startsInside (Badge.label text) (Badge.rectangle fill) = true).
Proof.
  intros Hs.
  destruct (page_badge_then_text env data) as (above & below & Hpage).
  split; [|split; [|split; [|split]]].
  - intros Hpaid. exists above, below. rewrite Hpage.
    now rewrite (statusOf_paid data s Hs Hpaid).
  - intros shown Hin. exists above, below. rewrite Hpage.
    unfold Rich.statusOf. rewrite Hs. unfold unpaidStatuses in Hin. simpl in Hin.
    destruct Hin as [H | [H | [H | [H | []]]]]; injection H as <- <-; reflexivity.
  - reflexivity.
  - reflexivity.
  - apply label_on_rectangle.
Qed.

Lemma status_badge_classification_witness :
  let paid :=
    mkInvoiceData "INV-2" "2024-01-05" "2024-02-04" "Acme Ltd" "1 Main Street"
      "billing@acme.test" "555-0100" "Bob" "2 Side Street" "bob@client.test"
      None None (Some "Paid") [mkLineItem "Consulting" (Number.ofZ 2) (Number.ofZ 100)] in
  (status paid = Some "Paid"
   /\ eq_ignore_case "Paid" "paid" = true
   /\ exists above below,
        snd (Rich.generateInvoice Sample.noon paid)
        = (above ++ [Badge.rectangle Badge.paidFill; Badge.label "PAID"] ++ below)%list)
  /\ (status Sample.invoice = Some "draft"
      /\ exists above below,
           snd (Rich.generateInvoice Sample.noon Sample.invoice)
           = (above ++ [Badge.rectangle Badge.unpaidFill; Badge.label "DRAFT"] ++ below)%list).
Proof.
  intros paid. split.
  - split; [reflexivity|]. split; [reflexivity|].
    apply (proj1 (status_badge_classification Sample.noon paid "Paid" eq_refl)).
    reflexivity.
  - split; [reflexivity|].
    apply (proj1 (proj2
             (status_badge_classification Sample.noon Sample.invoice "draft" eq_refl))).
    unfold unpaidStatuses. simpl. now left.
Defined.

(** C10.  Without a status the page still carries a badge: the rectangle
    filled with rgb(0.8, 0.2, 0.2), a red, immediately followed by the text
    UNPAID, a word that is neither one of the five stored statuses nor the
    upper-case form of one. *)
Theorem missing_status_badge (env : Env) (data : InvoiceData) :
  status data = None ->
  (exists above below,
     snd (Rich.generateInvoice env data)
     = (above ++ [Badge.rectangle Badge.unpaidFill; Badge.label "UNPAID"] ++ below)%list)
  /\ Badge.redLike Badge.unpaidFill = true
  /\ Badge.startsInside (Badge.label "UNPAID") (Badge.rectangle Badge.unpaidFill) = true
  /\ ~ In "UNPAID" enumeratedStatuses
  /\ ~ In "UNPAID" (map Js.toUpperCase enumeratedStatuses)
  /\ ~ In "UNPAID" ["DRAFT"; "SENT"; "PAID"; "OVERDUE"; "CANCELLED"].
Proof.
  intros Hs. split.
  - destruct (page_badge_then_text env data) as (above & below & Hpage).
    exists above, below. rewrite Hpage.
    unfold Rich.statusOf. now rewrite Hs.
  - split; [reflexivity|]. split; [reflexivity|].
    repeat split; simpl; intros H;
      repeat (destruct H as [H | H]; [discriminate H|]); exact H.
Qed.

Lemma missing_status_badge_witness :
  let data :=
    mkInvoiceData "INV-2" "2024-01-05" "2024-02-04" "Acme Ltd" "1 Main Street"
      "billing@acme.test" "555-0100" "Bob" "2 Side Street" "bob@client.test"
      None (Some (Number.ofZ 200)) None [mkLineItem "Consulting" (Number.ofZ 2) (Number.ofZ 100)] in
  status data = None
  /\ exists above below,
       snd (Rich.generateInvoice Sample.noon data)
       = (above ++ [Badge.rectangle Badge.unpaidFill; Badge.label "UNPAID"] ++ below)%list.
Proof.
  intros data. split; [reflexivity|].
  apply (missing_status_badge Sample.noon data). reflexivity.
Defined.

(** ** Row banding *)

Module BandingFacts.
Import Banding.
Local Open Scope Q_scope.
Local Open Scope list_scope.

Lemma forEachRow_rowPages (items : list LineItem) :
  forall index y, snd (forEachRow items index y) = List.concat (rowPages items index y).
Proof.
  induction items as [|item rest IH]; intros index y; simpl.
  - reflexivity.
  - specialize (IH (S index) (y - 25)).
    destruct (forEachRow rest (S index) (y - 25)) as [y' page].
    simpl in *. now rewrite IH.
Qed.

Lemma rowPages_length (items : list LineItem) :
  forall index y, List.length (rowPages items index y) = List.length items.
Proof.
  induction items as [|item rest IH]; intros index y; simpl.
  - reflexivity.
  - now rewrite IH.
Qed.

Lemma mod2_even (n : nat) : (n mod 2 =? 0)%nat = Nat.even n.
Proof.
  destruct (Nat.even n) eqn:E.
  - apply Nat.even_spec in E. destruct E as [k ->].
    apply Nat.eqb_eq. rewrite Nat.mul_comm. apply Nat.Div0.mod_mul.
  - apply Nat.eqb_neq. intros H.
    assert (Nat.even n = true); [|congruence].
    apply Nat.even_spec. exists (n / 2)%nat.
    pose proof (Nat.div_mod_eq n 2). lia.
Qed.

(** The group of index [i] is the row of the item of index [i], drawn
    25 units lower per preceding row, with a band exactly when the row
    index is even. *)
Lemma rowPages_nth (items : list LineItem) :
  forall index y i row,
    nth_error (rowPages items index y) i = Some row ->
    exists item y',
      nth_error items i = Some item
      /\ y' == y - num i * 25
      /\ row = (if Nat.even (index + i) then [bandBehind y'] else []) ++ rowText item y'.
Proof.
  induction items as [|item rest IH]; intros index y i row H.
  - destruct i; discriminate.
  - destruct i as [|i]; simpl in H.
    + injection H as <-. exists item, y. split; [reflexivity|]. split.
      * unfold num. simpl. ring.
      * rewrite Nat.add_0_r. unfold drawRow. now rewrite mod2_even.
    + destruct (IH (S index) (y - 25) i row H) as (it & y' & Hit & Hy & Hrow).
      exists it, y'. split; [exact Hit|]. split.
      * rewrite Hy, LayoutFacts.num_succ. ring.
      * now rewrite <- Nat.add_succ_comm.
Qed.

Lemma banded_row (b : bool) (item : LineItem) (y : Q) :
  banded ((if b then [bandBehind y] else []) ++ rowText item y) = b.
Proof. now destruct b. Qed.

(** The baseline of a row lies within the band drawn behind it. *)
Lemma band_covers_baseline (y : Q) : covers (bandBehind y) y = true.
Proof.
  unfold covers, bandBehind. apply andb_true_intro.
  split; apply Qle_bool_iff; lra.
Qed.

Lemma drawLines_not_banded (base : Q) (lines : list string) :
  forall index, banded (drawLines base lines index) = false.
Proof.
  induction lines as [|l ls IH]; intros index; simpl; auto.
Qed.

Lemma banded_app (p q : Page) : banded (p ++ q) = banded p || banded q.
Proof. apply existsb_app. Qed.

Lemma aboveRows_not_banded (env : Env) (data : InvoiceData) :
  banded (Rich.aboveRows env data) = false.
Proof.
  unfold Rich.aboveRows, companyBlock, clientBlock, Rich.statusBlock.
  repeat rewrite banded_app. rewrite !drawLines_not_banded.
  unfold Rich.statusColorOf.
  destruct (String.eqb (Rich.statusOf data) "PAID"); reflexivity.
Qed.

Lemma belowRows_not_banded (env : Env) (data : InvoiceData) (y : Q) :
  banded (Rich.belowRows env data y) = false.
Proof. reflexivity. Qed.

End BandingFacts.

(** C4.  The page is what precedes the table rows, then one group of
    primitives per line item in input order, then what follows the rows.
    The group of index [i] is the text of item [i] (description, quantity,
    unit price, amount) on the baseline 45 + 25 i below the top of the
    table, preceded exactly when [i] is even by a rectangle in the light
    fill rgb(0.97, 0.97, 0.97), as wide as the table and 25 high, which
    contains that baseline.  No primitive outside the rows has the light
    fill; a table of one item consists of one banded row. *)
Theorem banding_parity (env : Env) (data : InvoiceData) :
  exists (above : Page) (rows : list Page) (below : Page),
    snd (Rich.generateInvoice env data) = (above ++ List.concat rows ++ below)%list
    /\ Banding.banded above = false
    /\ Banding.banded below = false
    /\ List.length rows = List.length (lineItems data)
    /\ (forall i row,
          nth_error rows i = Some row ->
          Banding.banded row = Nat.even i
          /\ exists item y,
               nth_error (lineItems data) i = Some item
               /\ (y == tableTop - 45 - num i * 25)%Q
               /\ row = ((if Nat.even i then [Banding.bandBehind y] else [])
                         ++ Banding.rowText item y)%list
               /\ Banding.covers (Banding.bandBehind y) y = true)
    /\ (forall item,
          lineItems data = [item] ->
          rows = [Banding.bandBehind (tableTop - 45)%Q
                  :: Banding.rowText item (tableTop - 45)%Q]).
Proof.
  unfold Rich.generateInvoice, Rich.drawPage. cbn [snd].
  set (data' := Rich.fillTotalAmount data).
  assert (Hitems : lineItems data' = lineItems data).
  { unfold data', Rich.fillTotalAmount. now destruct (totalAmount data). }
  pose proof (BandingFacts.forEachRow_rowPages (lineItems data') 0 (tableTop - 45)%Q) as Hrows.
  destruct (forEachRow (lineItems data') 0 (tableTop - 45)%Q) as [yPosition rows].
  cbn [snd] in Hrows. subst rows. rewrite Hitems.
  exists (Rich.aboveRows env data'),
    (Banding.rowPages (lineItems data) 0 (tableTop - 45)%Q),
    (Rich.belowRows env data' yPosition).
  split; [reflexivity|].
  split; [apply BandingFacts.aboveRows_not_banded|].
  split; [apply BandingFacts.belowRows_not_banded|].
  split; [apply BandingFacts.rowPages_length|].
  split.
  - intros i row Hrow.
    destruct (BandingFacts.rowPages_nth _ _ _ _ _ Hrow) as (item & y & Hitem & Hy & Heq).
    simpl in Heq. split.
    + rewrite Heq. apply BandingFacts.banded_row.
    + exists item, y. repeat split; try assumption.
      apply BandingFacts.band_covers_baseline.
  - intros item Hone. rewrite Hone. reflexivity.
Qed.

(** ** Address blocks *)

Module BlocksFacts.
Import Blocks.
Local Open Scope Q_scope.
Local Open Scope list_scope.

Lemma page_around_company (env : Env) (data : InvoiceData) :
  snd (Rich.generateInvoice env data)
  = Rich.headerBand ++ companyBlock (Rich.fillTotalAmount data)
    ++ afterCompany env (Rich.fillTotalAmount data).
Proof.
  unfold Rich.generateInvoice, Rich.drawPage, afterCompany, Rich.aboveRows. cbn [snd].
  destruct (forEachRow _ 0 (tableTop - 45)) as [yPosition rows].
  now repeat rewrite <- app_assoc.
Qed.

(** Nothing after the company block reads the company address. *)
Lemma afterCompany_ignores_companyAddress (env : Env) (data : InvoiceData) (v : string) :
  afterCompany env (Rich.fillTotalAmount (set_companyAddress data v))
  = afterCompany env (Rich.fillTotalAmount data).
Proof.
  destruct data as [? ? ? ? ? ? ? ? ? ? ? total ? ?].
  destruct total; reflexivity.
Qed.

Lemma companyBlock_fillTotalAmount (data : InvoiceData) :
  companyBlock (Rich.fillTotalAmount data) = companyBlock data.
Proof.
  unfold Rich.fillTotalAmount. now destruct (totalAmount data).
Qed.

Lemma clientBlock_fillTotalAmount (data : InvoiceData) :
  clientBlock (Rich.fillTotalAmount data) = clientBlock data.
Proof.
  unfold Rich.fillTotalAmount. now destruct (totalAmount data).
Qed.

(** The client block is part of the page. *)
Lemma page_around_client (env : Env) (data : InvoiceData) :
  exists above below,
    snd (Rich.generateInvoice env data) = above ++ clientBlock data ++ below.
Proof.
  rewrite page_around_company. unfold afterCompany.
  set (data' := Rich.fillTotalAmount data).
  destruct (forEachRow _ 0 (tableTop - 45)) as [yPosition rows].
  exists (Rich.headerBand ++ companyBlock data' ++ metaBlock (runtime env) data'
          ++ Rich.statusBlock data' ++ divider),
    (Rich.tableHeader ++ rows ++ Rich.belowRows env data' yPosition).
  rewrite <- (clientBlock_fillTotalAmount data). fold data'.
  now repeat rewrite <- app_assoc.
Qed.

End BlocksFacts.

(** C6.  With [n] address lines, line [i] of the company address is drawn at
    [baseY - i * 15] for [baseY = height - 110], the e-mail line follows at
    [baseY - n * 15] and the phone line at [baseY - n * 15 - 15]; for three
    lines these are [baseY - 3 * 15] and [baseY - 3 * 15 - 15].  The client
    block follows the same rule from its own base, [height - 215]. *)
Theorem address_trailer_position (env : Env) (data : InvoiceData) (n : nat) :
  List.length (Js.split_newline (companyAddress data)) = n ->
  let baseY := (height - 110)%Q in
  let clientLines := Js.split_newline (clientAddress data) in
  (exists lines yEmail yPhone below,
     snd (Rich.generateInvoice env data)
     = (Rich.headerBand ++ [Blocks.companyNameRun data] ++ lines
        ++ [Blocks.emailRun data yEmail; Blocks.phoneRun data yPhone] ++ below)%list
     /\ List.length lines = n
     /\ (forall i line,
           nth_error (Js.split_newline (companyAddress data)) i = Some line ->
           nth_error lines i = Some (Blocks.lineRun line (baseY - num i * 15)%Q))
     /\ (yEmail == baseY - num n * 15)%Q
     /\ (yPhone == baseY - num n * 15 - 15)%Q)
  /\ (exists above lines yEmail below,
        snd (Rich.generateInvoice env data)
        = (above ++ [Blocks.billTo; Blocks.clientNameRun data] ++ lines
           ++ [Blocks.clientEmailRun data yEmail] ++ below)%list
        /\ List.length lines = List.length clientLines
        /\ (yEmail == height - 215 - num (List.length clientLines) * 15)%Q).
Proof.
  intros Hn baseY clientLines. split.
  - exists (drawLines baseY (Js.split_newline (companyAddress data)) 0),
      (height - 110 - num n * 15)%Q, (height - 125 - num n * 15)%Q,
      (Blocks.afterCompany env (Rich.fillTotalAmount data)).
    split; [|split; [|split; [|split]]].
    + rewrite BlocksFacts.page_around_company, BlocksFacts.companyBlock_fillTotalAmount.
      unfold companyBlock. rewrite Hn.
      now repeat rewrite <- app_assoc.
    + now rewrite LayoutFacts.drawLines_length.
    + intros i line Hline.
      now rewrite (LayoutFacts.drawLines_nth baseY _ 0 i line Hline).
    + reflexivity.
    + unfold baseY. ring.
  - destruct (BlocksFacts.page_around_client env data) as (above & below & Hpage).
    exists above, (drawLines (height - 215)%Q clientLines 0),
      (height - 215 - num (List.length clientLines) * 15)%Q, below.
    split; [|split].
    + rewrite Hpage. unfold clientBlock. fold clientLines.
      now repeat rewrite <- app_assoc.
    + now rewrite LayoutFacts.drawLines_length.
    + reflexivity.
Qed.

Lemma address_trailer_position_witness :
  let data :=
    set_companyAddress Sample.invoice
      ("1 Main Street" ++ String Js.newline ("Suite 5" ++ String Js.newline "Springfield")) in
  List.length (Js.split_newline (companyAddress data)) = 3%nat
  /\ exists lines yEmail yPhone below,
       snd (Rich.generateInvoice Sample.noon data)
       = (Rich.headerBand ++ [Blocks.companyNameRun data] ++ lines
          ++ [Blocks.emailRun data yEmail; Blocks.phoneRun data yPhone] ++ below)%list
       /\ List.length lines = 3%nat
       /\ (yEmail == height - 110 - 3 * 15)%Q
       /\ (yPhone == height - 110 - 3 * 15 - 15)%Q.
Proof.
  intros data.
  assert (H3 : List.length (Js.split_newline (companyAddress data)) = 3%nat) by reflexivity.
  split; [exact H3|].
  destruct (address_trailer_position Sample.noon data 3 H3)
    as [(lines & yEmail & yPhone & below & Hpage & Hlen & _ & HyE & HyP) _].
  exists lines, yEmail, yPhone, below.
  repeat split; assumption.
Defined.

(** C5, as amended.  Replacing the company address by one with one more
    line draws one more address line and moves the company e-mail and phone
    lines down by exactly 15 units; when the new line is appended, it is
    drawn where the e-mail line was.  Nothing else changes: the meta
    column, the badge, the divider, the client block, the table, the
    totals, the payment information and the footer are drawn by the same
    primitives at the same coordinates. *)
Theorem extra_address_line_moves_company_trailer_only
    (env : Env) (data : InvoiceData) (address' : string) :
  let n := List.length (Js.split_newline (companyAddress data)) in
  List.length (Js.split_newline address') = S n ->
  let longer := set_companyAddress data address' in
  exists lines lines' yEmail yPhone yEmail' yPhone' rest,
    snd (Rich.generateInvoice env data)
    = (Rich.headerBand ++ [Blocks.companyNameRun data] ++ lines
       ++ [Blocks.emailRun data yEmail; Blocks.phoneRun data yPhone] ++ rest)%list
    /\ snd (Rich.generateInvoice env longer)
       = (Rich.headerBand ++ [Blocks.companyNameRun data] ++ lines'
          ++ [Blocks.emailRun data yEmail'; Blocks.phoneRun data yPhone'] ++ rest)%list
    /\ lines = drawLines (height - 110)%Q (Js.split_newline (companyAddress data)) 0
    /\ lines' = drawLines (height - 110)%Q (Js.split_newline address') 0
    /\ List.length lines = n
    /\ List.length lines' = S n
    /\ (yEmail' == yEmail - 15)%Q
    /\ (yPhone' == yPhone - 15)%Q
    /\ (forall extra,
          Text.single_line extra = true ->
          address' = companyAddress data ++ String Js.newline extra ->
          lines' = (lines ++ [Blocks.lineRun extra yEmail])%list).
Proof.
  intros n Hlines longer.
  exists (drawLines (height - 110)%Q (Js.split_newline (companyAddress data)) 0),
    (drawLines (height - 110)%Q (Js.split_newline address') 0),
    (height - 110 - num n * 15)%Q, (height - 125 - num n * 15)%Q,
    (height - 110 - num (S n) * 15)%Q, (height - 125 - num (S n) * 15)%Q,
    (Blocks.afterCompany env (Rich.fillTotalAmount data)).
  pose proof (LayoutFacts.num_succ n) as Hnum.
  repeat match goal with |- _ /\ _ => split end.
  - rewrite BlocksFacts.page_around_company, BlocksFacts.companyBlock_fillTotalAmount.
    unfold companyBlock. fold n. now repeat rewrite <- app_assoc.
  - rewrite BlocksFacts.page_around_company, BlocksFacts.companyBlock_fillTotalAmount.
    unfold longer. rewrite BlocksFacts.afterCompany_ignores_companyAddress.
    unfold companyBlock.
    destruct data; cbn [companyAddress companyName companyEmail companyPhone
                          set_companyAddress] in *.
    rewrite Hlines.
    unfold Blocks.companyNameRun, Blocks.emailRun, Blocks.phoneRun.
    cbn [companyName companyEmail companyPhone].
    now repeat rewrite <- app_assoc.
  - reflexivity.
  - reflexivity.
  - now rewrite LayoutFacts.drawLines_length.
  - now rewrite LayoutFacts.drawLines_length.
  - rewrite Hnum. ring.
  - rewrite Hnum. ring.
  - intros extra Hextra ->.
    rewrite (JsFacts.split_newline_add_line _ _ Hextra).
    rewrite LayoutFacts.drawLines_snoc. fold n. now rewrite Nat.add_0_l.
Qed.

Lemma extra_address_line_moves_company_trailer_only_witness :
  let data := Sample.invoice in
  let address' := "1 Main Street" ++ String Js.newline "Suite 5" in
  let longer := set_companyAddress data address' in
  List.length (Js.split_newline address')
  = S (List.length (Js.split_newline (companyAddress data)))
  /\ exists lines yEmail yPhone yEmail' yPhone' rest,
       snd (Rich.generateInvoice Sample.noon data)
       = (Rich.headerBand ++ [Blocks.companyNameRun data] ++ lines
          ++ [Blocks.emailRun data yEmail; Blocks.phoneRun data yPhone] ++ rest)%list
       /\ snd (Rich.generateInvoice Sample.noon longer)
          = (Rich.headerBand ++ [Blocks.companyNameRun data] ++ lines
             ++ [Blocks.lineRun "Suite 5" yEmail]
             ++ [Blocks.emailRun data yEmail'; Blocks.phoneRun data yPhone'] ++ rest)%list
       /\ (yEmail' == yEmail - 15)%Q
       /\ (yPhone' == yPhone - 15)%Q.
Proof.
  intros data address' longer.
  assert (H : List.length (Js.split_newline address')
              = S (List.length (Js.split_newline (companyAddress data))))
    by reflexivity.
  split; [exact H|].
  destruct (extra_address_line_moves_company_trailer_only Sample.noon data address' H)
    as (lines & lines' & yE & yP & yE' & yP' & rest
        & Hpage & Hpage' & _ & _ & _ & _ & HyE & HyP & Happend).
  exists lines, yE, yP, yE', yP', rest.
  rewrite (Happend "Suite 5" eq_refl eq_refl) in Hpage'.
  rewrite <- app_assoc in Hpage'.
  repeat split; assumption.
Defined.

(** C5 fails as stated: with a second line in the company address, the
    "BILL TO:" label of the client block is drawn at [height - 180] as
    before, and so is everything from the meta column down to the footer:
    the two pages are equal from the end of the company block on. *)
Lemma blocks_below_company_do_not_move :
  let data := Sample.invoice in
  let longer := set_companyAddress data ("1 Main Street" ++ String Js.newline "Suite 5") in
  let page := snd (Rich.generateInvoice Sample.noon data) in
  let page' := snd (Rich.generateInvoice Sample.noon longer) in
  nth_error page 13 = Some Blocks.billTo
  /\ nth_error page' 14 = Some Blocks.billTo
  /\ nth_error page 5 = Some (Blocks.phoneRun data (height - 125 - 15)%Q)
  /\ nth_error page' 6 = Some (Blocks.phoneRun data (height - 125 - 2 * 15)%Q)
  /\ skipn 6 page = skipn 7 page'
  /\ ~ (height - 180 == height - 180 - 15)%Q.
Proof.
  vm_compute. repeat split; try reflexivity. intros H; discriminate H.
Qed.

(** ** The notes block of the server-side renderer *)

Module NotesFacts.
Import Notes.
Local Open Scope Q_scope.
Local Open Scope list_scope.

Lemma isNotesLabel_notesLabel (y : Q) : isNotesLabel (Simple.notesLabel y) = true.
Proof. reflexivity. Qed.

Lemma hasNotes_blank (data : InvoiceData) : blank data -> Simple.hasNotes data = false.
Proof.
  unfold blank, Simple.hasNotes. destruct (notes data) as [s|]; [|reflexivity].
  intros H. rewrite (JsFacts.trim_whitespace_only s H).
  now rewrite andb_false_r.
Qed.

Lemma notesBlock_blank (data : InvoiceData) (y : Q) :
  blank data -> Simple.notesBlock data y = (y, []).
Proof.
  intros H. unfold Simple.notesBlock. now rewrite (hasNotes_blank data H).
Qed.

Lemma drawLines_no_label (base : Q) (lines : list string) :
  forall index, existsb isNotesLabel (drawLines base lines index) = false.
Proof.
  induction lines as [|l ls IH]; intros index; simpl; auto.
Qed.

Lemma rows_no_label (items : list LineItem) :
  forall index y, existsb isNotesLabel (snd (forEachRow items index y)) = false.
Proof.
  induction items as [|item rest IH]; intros index y; simpl.
  - reflexivity.
  - specialize (IH (S index) (y - 25)).
    destruct (forEachRow rest (S index) (y - 25)) as [y' page]. cbn [snd] in *.
    rewrite existsb_app, IH. unfold drawRow.
    now destruct (index mod 2 =? 0)%nat.
Qed.

Lemma aboveRows_no_label (env : Env) (data : InvoiceData) :
  existsb isNotesLabel (Simple.aboveRows env data) = false.
Proof.
  unfold Simple.aboveRows, companyBlock, clientBlock.
  repeat rewrite existsb_app. rewrite !drawLines_no_label.
  cbn. now rewrite !andb_false_r.
Qed.

Lemma rowsAndTotal_no_label (data : InvoiceData) :
  existsb isNotesLabel (snd (Simple.rowsAndTotal data)) = false.
Proof.
  unfold Simple.rowsAndTotal, Simple.totalBlock.
  pose proof (rows_no_label (lineItems data) 0 (tableTop - 45)) as H.
  destruct (forEachRow (lineItems data) 0 (tableTop - 45)) as [y rows].
  cbn [snd] in *. rewrite existsb_app, H. cbn. now rewrite ?andb_false_r.
Qed.

Lemma rowsAndTotal_ignores_notes (data : InvoiceData) (v : option string) :
  Simple.rowsAndTotal (set_notes data v) = Simple.rowsAndTotal data.
Proof. reflexivity. Qed.

Lemma aboveRows_ignores_notes (env : Env) (data : InvoiceData) (v : option string) :
  Simple.aboveRows env (set_notes data v) = Simple.aboveRows env data.
Proof. reflexivity. Qed.

Lemma rich_page_ignores_notes (env : Env) (data : InvoiceData) (v : option string) :
  snd (Rich.generateInvoice env (set_notes data v)) = snd (Rich.generateInvoice env data).
Proof.
  destruct data as [? ? ? ? ? ? ? ? ? ? ? total ? ?].
  destruct total; reflexivity.
Qed.

End NotesFacts.

(** C9.  When the notes are absent, empty or white space only, the notes
    block draws nothing and leaves the cursor where it was; the page is,
    primitive for primitive, the page of the same record without notes, so
    no space is reserved; and no "NOTES:" label occurs anywhere on it.  (The
    client-side renderer never draws notes: its page does not depend on
    the field.) *)
Theorem blank_notes_draw_nothing (env : Env) (data : InvoiceData) :
  Notes.blank data ->
  Simple.generateInvoice env data = Simple.generateInvoice env (set_notes data None)
  /\ (forall y, Simple.notesBlock data y = (y, []))
  /\ (forall y, ~ In (Simple.notesLabel y) (Simple.generateInvoice env data))
  /\ snd (Rich.generateInvoice env data)
     = snd (Rich.generateInvoice env (set_notes data None)).
Proof.
  intros Hblank.
  assert (Hpage : Simple.generateInvoice env data
                  = (Simple.aboveRows env data ++ snd (Simple.rowsAndTotal data)
                     ++ Simple.thanks)%list).
  { unfold Simple.generateInvoice.
    destruct (Simple.rowsAndTotal data) as [y body].
    rewrite (NotesFacts.notesBlock_blank data y Hblank). reflexivity. }
  split; [|split; [|split]].
  - rewrite Hpage. unfold Simple.generateInvoice.
    rewrite NotesFacts.rowsAndTotal_ignores_notes, NotesFacts.aboveRows_ignores_notes.
    destruct (Simple.rowsAndTotal data) as [y body]. reflexivity.
  - intros y. now apply NotesFacts.notesBlock_blank.
  - intros y Hin.
    assert (Hex : existsb Notes.isNotesLabel (Simple.generateInvoice env data) = true).
    { apply existsb_exists. exists (Simple.notesLabel y). split; [exact Hin|reflexivity]. }
    rewrite Hpage in Hex. rewrite !existsb_app in Hex.
    rewrite NotesFacts.aboveRows_no_label, NotesFacts.rowsAndTotal_no_label in Hex.
    discriminate Hex.
  - now rewrite NotesFacts.rich_page_ignores_notes.
Qed.

Lemma blank_notes_draw_nothing_witness :
  let data := set_notes Sample.invoice (Some "   ") in
  Notes.blank data
  /\ Simple.generateInvoice Sample.noon data
     = Simple.generateInvoice Sample.noon (set_notes data None).
Proof.
  intros data.
  assert (H : Notes.blank data) by reflexivity.
  split; [exact H|].
  exact (proj1 (blank_notes_draw_nothing Sample.noon data H)).
Defined.

(** ** [formatDate] *)

Lemma monthName_in_table (month : Z) :
  0 <= month <= 11 ->
  nth_error FormatUtils.monthNames (Z.to_nat month) = Some (FormatUtils.monthName month).
Proof.
  intros H.
  assert (Hcases : month = 0 \/ month = 1 \/ month = 2 \/ month = 3 \/ month = 4
                   \/ month = 5 \/ month = 6 \/ month = 7 \/ month = 8 \/ month = 9
                   \/ month = 10 \/ month = 11) by lia.
  repeat (destruct Hcases as [-> | Hcases]; [reflexivity|]).
  now subst month.
Qed.

Lemma parseYMD_valid (s rest : string) (y m d : Z) :
  JsDate.parseYMD s = Some (y, m, d, rest) ->
  1 <= m <= 12 /\ 1 <= d <= JsDate.daysInMonth y m.
Proof.
  unfold JsDate.parseYMD, JsDate.bind, JsDate.guard.
  destruct (JsDate.number 4 0 s) as [[y0 s1]|]; [|discriminate].
  destruct (JsDate.expect "-" s1) as [s2|]; [|discriminate].
  destruct (JsDate.number 2 0 s2) as [[m0 s3]|]; [|discriminate].
  destruct (JsDate.expect "-" s3) as [s4|]; [|discriminate].
  destruct (JsDate.number 2 0 s4) as [[d0 s5]|]; [|discriminate].
  destruct ((1 <=? m0) && (m0 <=? 12) && (1 <=? d0)
            && (d0 <=? JsDate.daysInMonth y0 m0)) eqn:E; [|discriminate].
  intros H. injection H as -> -> -> ->.
  repeat (apply andb_prop in E as [E ?]).
  repeat match goal with
         | H : (_ <=? _) = true |- _ => apply Z.leb_le in H
         end.
  lia.
Qed.

Lemma parse_date_only_is_utc_midnight (rt : Runtime) (s : string) (y m d : Z) :
  JsDate.parseYMD s = Some (y, m, d, EmptyString) ->
  JsDate.parse rt s = Some (JsDate.days_from_civil y m d * JsDate.msPerDay).
Proof.
  intros H. unfold JsDate.parse, JsDate.parseISO. now rewrite H.
Qed.

Lemma localDay_east (tz D : Z) :
  0 <= tz < 1440 -> JsDate.localDay tz (D * JsDate.msPerDay) = D.
Proof.
  intros H. unfold JsDate.localDay, JsDate.msPerDay, JsDate.msPerMinute.
  Z.div_mod_to_equations. lia.
Qed.

Lemma localDay_west (tz D : Z) :
  -1440 <= tz < 0 -> JsDate.localDay tz (D * JsDate.msPerDay) = D - 1.
Proof.
  intros H. unfold JsDate.localDay, JsDate.msPerDay, JsDate.msPerMinute.
  Z.div_mod_to_equations. lia.
Qed.

(** The day before, by day numbers. *)
Module CalendarFacts.
Import JsDate.

Lemma daysInMonth_range (y m : Z) : 28 <= daysInMonth y m <= 31.
Proof.
  unfold daysInMonth.
  destruct (m =? 2); [destruct (isLeap y); lia|].
  destruct ((m =? 4) || (m =? 6) || (m =? 9) || (m =? 11)); lia.
Qed.

Lemma previousDay_valid (y m d : Z) :
  Calendar.valid y m d ->
  let '(y', m', d') := Calendar.previousDay y m d in Calendar.valid y' m' d'.
Proof.
  unfold Calendar.valid, Calendar.previousDay. intros [Hm Hd].
  destruct (1 <? d) eqn:E1; [apply Z.ltb_lt in E1; lia|].
  destruct (1 <? m) eqn:E2.
  - apply Z.ltb_lt in E2. pose proof (daysInMonth_range y (m - 1)). lia.
  - cbn. lia.
Qed.

Lemma previousDay_number (y m d : Z) :
  Calendar.valid y m d ->
  let '(y', m', d') := Calendar.previousDay y m d in
  days_from_civil y' m' d' = days_from_civil y m d - 1.
Proof.
  unfold Calendar.valid, Calendar.previousDay. intros [Hm Hd].
  destruct (1 <? d) eqn:E1.
  { unfold days_from_civil. lia. }
  apply Z.ltb_ge in E1. assert (d = 1) by lia. subst d.
  destruct (1 <? m) eqn:E2.
  - apply Z.ltb_lt in E2.
    assert (Hc : m = 2 \/ m = 3 \/ m = 4 \/ m = 5 \/ m = 6 \/ m = 7 \/ m = 8
                 \/ m = 9 \/ m = 10 \/ m = 11 \/ m = 12) by lia.
    assert (L : isLeap y = true /\ (y mod 4 = 0 /\ (y mod 100 <> 0 \/ y mod 400 = 0))
                \/ isLeap y = false
                   /\ ~ (y mod 4 = 0 /\ (y mod 100 <> 0 \/ y mod 400 = 0))).
    { destruct (isLeap y) eqn:L.
      - left. split; [reflexivity|]. now apply DateFacts.isLeap_spec.
      - right. split; [reflexivity|].
        intros H. apply DateFacts.isLeap_spec in H. congruence. }
    repeat (destruct Hc as [-> | Hc]); try subst m;
      unfold daysInMonth, days_from_civil; cbn;
      try (Z.div_mod_to_equations; lia).
    destruct L as [[-> L] | [-> L]]; Z.div_mod_to_equations; lia.
  - apply Z.ltb_ge in E2. assert (m = 1) by lia. subst m.
    unfold days_from_civil. cbn. Z.div_mod_to_equations. lia.
Qed.

(** The date of the day number before that of a date of the calendar is
    the previous day of the calendar. *)
Lemma day_before (y m d : Z) :
  Calendar.valid y m d ->
  civil_from_days (days_from_civil y m d - 1) = Calendar.previousDay y m d.
Proof.
  intros H.
  pose proof (previousDay_valid y m d H) as Hv.
  pose proof (previousDay_number y m d H) as Hn.
  destruct (Calendar.previousDay y m d) as [[y' m'] d'].
  rewrite <- Hn. destruct Hv as [Hm Hd].
  now apply DateFacts.civil_roundtrip.
Qed.

Lemma monthName_calendar (m : Z) :
  1 <= m <= 12 ->
  FormatUtils.monthName (m - 1) = nth (Z.to_nat (m - 1)) Calendar.monthNames "undefined".
Proof.
  intros H.
  assert (Hc : m = 1 \/ m = 2 \/ m = 3 \/ m = 4 \/ m = 5 \/ m = 6 \/ m = 7 \/ m = 8
               \/ m = 9 \/ m = 10 \/ m = 11 \/ m = 12) by lia.
  repeat (destruct Hc as [-> | Hc]); try subst m; reflexivity.
Qed.

Lemma render_longDate (y m d : Z) :
  1 <= m <= 12 -> FormatUtils.render (m - 1) d y = Calendar.longDate (y, m, d).
Proof.
  intros H. unfold FormatUtils.render, Calendar.longDate.
  now rewrite (monthName_calendar m H).
Qed.

End CalendarFacts.

(** C8.  [formatDate] does not ignore the time of day and the time zone.
    In a runtime five hours west of UTC the date-only string 2024-01-05
    is printed as January 4, while a UTC runtime prints January 5.  In a
    UTC runtime two timestamps written with the same calendar date and the
    same offset, half an hour after midnight and half an hour before, are
    printed as different days, and the late one changes day again when
    only its offset is replaced by Z. *)
Theorem formatDate_depends_on_time_and_zone :
  FormatUtils.formatDate (Sample.zone (-300)) "2024-01-05" = "January 4, 2024"
  /\ FormatUtils.formatDate (Sample.zone 0) "2024-01-05" = "January 5, 2024"
  /\ FormatUtils.formatDate (Sample.zone 0) "2024-01-05T00:30:00-05:00" = "January 5, 2024"
  /\ FormatUtils.formatDate (Sample.zone 0) "2024-01-05T23:30:00-05:00" = "January 6, 2024"
  /\ FormatUtils.formatDate (Sample.zone 0) "2024-01-05T23:30:00Z" = "January 5, 2024".
Proof.
  repeat split; reflexivity.
Qed.

(** * Further properties of the code around the renderers *)

(** ** Dates as text: printing what was parsed *)

Module DateTextFacts.
Import JsDate Digits.

Lemma digit_chr (c : ascii) (d : Z) :
  digit c = Some d -> In d digits10 /\ c = chr d.
Proof.
  destruct c as [[] [] [] [] [] [] [] []]; vm_compute; intros H;
    try discriminate H; injection H as <-; split; try reflexivity; tauto.
Qed.

Lemma table4_true : forall4 check4 digits10 = true.
Proof. vm_compute. reflexivity. Qed.

Lemma table2_true : forall2 check2 digits10 = true.
Proof. vm_compute. reflexivity. Qed.

Lemma forall4_spec (P : Z -> Z -> Z -> Z -> bool) (l : list Z) :
  forall4 P l = true ->
  forall a b c d, In a l -> In b l -> In c l -> In d l -> P a b c d = true.
Proof.
  unfold forall4. intros H a b c d Ha Hb Hc Hd.
  rewrite forallb_forall in H. specialize (H a Ha).
  rewrite forallb_forall in H. specialize (H b Hb).
  rewrite forallb_forall in H. specialize (H c Hc).
  rewrite forallb_forall in H. exact (H d Hd).
Qed.

Lemma forall2_spec (P : Z -> Z -> bool) (l : list Z) :
  forall2 P l = true -> forall a b, In a l -> In b l -> P a b = true.
Proof.
  unfold forall2. intros H a b Ha Hb.
  rewrite forallb_forall in H. specialize (H a Ha).
  rewrite forallb_forall in H. exact (H b Hb).
Qed.

Lemma table4_spec (d1 d2 d3 d4 : Z) :
  In d1 digits10 -> In d2 digits10 -> In d3 digits10 -> In d4 digits10 ->
  text4 d1 d2 d3 d4 = JsMore.padStart 4 "0" (Js.toString (value4 d1 d2 d3 d4))
  /\ (1000 <= value4 d1 d2 d3 d4 ->
      text4 d1 d2 d3 d4 = Js.toString (value4 d1 d2 d3 d4)).
Proof.
  intros H1 H2 H3 H4.
  pose proof (forall4_spec check4 digits10 table4_true d1 d2 d3 d4 H1 H2 H3 H4) as Ht.
  unfold check4 in Ht.
  apply andb_prop in Ht as [Hpad Hplain].
  apply String.eqb_eq in Hpad. split; [exact Hpad|].
  intros Hbig. apply orb_prop in Hplain as [Hlt | Heq].
  - apply Z.ltb_lt in Hlt. lia.
  - now apply String.eqb_eq in Heq.
Qed.

Lemma table2_spec (d1 d2 : Z) :
  In d1 digits10 -> In d2 digits10 ->
  text2 d1 d2 = JsMore.padStart 2 "0" (Js.toString (value2 d1 d2)).
Proof.
  intros H1 H2.
  pose proof (forall2_spec check2 digits10 table2_true d1 d2 H1 H2) as Ht.
  now apply String.eqb_eq in Ht.
Qed.

Lemma in_digits10 (d : Z) : In d digits10 -> 0 <= d <= 9.
Proof.
  unfold digits10. simpl. intros H.
  repeat (destruct H as [<- | H]; [lia|]). contradiction.
Qed.

(** What [number 4 0] reads is what [padStart(4, "0")] prints. *)
Lemma number4_print (s rest : string) (v : Z) :
  number 4 0 s = Some (v, rest) ->
  s = JsMore.padStart 4 "0" (Js.toString v) ++ rest
  /\ 0 <= v <= 9999
  /\ (1000 <= v -> s = Js.toString v ++ rest).
Proof.
  cbn [number].
  destruct s as [|c1 [|c2 [|c3 [|c4 s]]]]; try discriminate;
    try (destruct (digit c1); discriminate).
  - destruct (digit c1); [destruct (digit c2)|]; discriminate.
  - destruct (digit c1); [destruct (digit c2); [destruct (digit c3)|]|]; discriminate.
  - destruct (digit c1) as [d1|] eqn:E1; [|discriminate].
    destruct (digit c2) as [d2|] eqn:E2; [|discriminate].
    destruct (digit c3) as [d3|] eqn:E3; [|discriminate].
    destruct (digit c4) as [d4|] eqn:E4; [|discriminate].
    intros H. injection H as Hv <-.
    assert (Hv' : value4 d1 d2 d3 d4 = v) by exact Hv. clear Hv. subst v.
    destruct (digit_chr _ _ E1) as [H1 ->].
    destruct (digit_chr _ _ E2) as [H2 ->].
    destruct (digit_chr _ _ E3) as [H3 ->].
    destruct (digit_chr _ _ E4) as [H4 ->].
    destruct (table4_spec d1 d2 d3 d4 H1 H2 H3 H4) as [Hpad Hplain].
    pose proof (in_digits10 _ H1). pose proof (in_digits10 _ H2).
    pose proof (in_digits10 _ H3). pose proof (in_digits10 _ H4).
    split; [|split].
    + rewrite <- Hpad. reflexivity.
    + unfold value4. lia.
    + intros Hbig. rewrite <- (Hplain Hbig). reflexivity.
Qed.

Lemma number2_print (s rest : string) (v : Z) :
  number 2 0 s = Some (v, rest) ->
  s = JsMore.padStart 2 "0" (Js.toString v) ++ rest /\ 0 <= v <= 99.
Proof.
  cbn [number].
  destruct s as [|c1 [|c2 s]]; try discriminate;
    try (destruct (digit c1); discriminate).
  destruct (digit c1) as [d1|] eqn:E1; [|discriminate].
  destruct (digit c2) as [d2|] eqn:E2; [|discriminate].
  intros H. injection H as Hv <-.
  assert (Hv' : value2 d1 d2 = v) by exact Hv. clear Hv. subst v.
  destruct (digit_chr _ _ E1) as [H1 ->].
  destruct (digit_chr _ _ E2) as [H2 ->].
  pose proof (table2_spec d1 d2 H1 H2) as Hpad.
  pose proof (in_digits10 _ H1). pose proof (in_digits10 _ H2).
  split.
  - rewrite <- Hpad. reflexivity.
  - unfold value2. lia.
Qed.

Lemma expect_inv (c : ascii) (s rest : string) :
  expect c s = Some rest -> s = String c rest.
Proof.
  destruct s as [|c' s]; simpl; [discriminate|].
  destruct (Ascii.eqb c c') eqn:E; [|discriminate].
  apply Ascii.eqb_eq in E. subst c'. now intros [= ->].
Qed.

Lemma append_assoc' (a b c : string) : (a ++ b) ++ c = a ++ (b ++ c).
Proof.
  induction a as [|x a IH]; simpl; [reflexivity | now rewrite IH].
Qed.

(** A string accepted by [parseYMD] is the date it denotes, printed with a
    four-digit year and two-digit month and day, followed by the rest. *)
Lemma parseYMD_print (s rest : string) (y m d : Z) :
  parseYMD s = Some (y, m, d, rest) ->
  s = isoDate y m d ++ rest
  /\ 0 <= y <= 9999
  /\ (1000 <= y ->
      s = Js.toString y ++ "-" ++ JsMore.padStart 2 "0" (Js.toString m)
          ++ "-" ++ JsMore.padStart 2 "0" (Js.toString d) ++ rest).
Proof.
  unfold parseYMD, bind, guard.
  destruct (number 4 0 s) as [[y0 s1]|] eqn:E1; [|discriminate].
  destruct (expect "-" s1) as [s2|] eqn:E2; [|discriminate].
  destruct (number 2 0 s2) as [[m0 s3]|] eqn:E3; [|discriminate].
  destruct (expect "-" s3) as [s4|] eqn:E4; [|discriminate].
  destruct (number 2 0 s4) as [[d0 s5]|] eqn:E5; [|discriminate].
  destruct ((1 <=? m0) && (m0 <=? 12) && (1 <=? d0) && (d0 <=? daysInMonth y0 m0));
    [|discriminate].
  intros H. injection H as -> -> -> ->.
  destruct (number4_print _ _ _ E1) as (H4 & Hy & Hplain).
  destruct (number2_print _ _ _ E3) as [Hm _].
  destruct (number2_print _ _ _ E5) as [Hd _].
  apply expect_inv in E2, E4. subst s4 s3 s2 s1.
  split; [|split; [exact Hy|]].
  - rewrite H4. unfold isoDate. now rewrite !append_assoc'.
  - intros Hbig. rewrite (Hplain Hbig). reflexivity.
Qed.

(** [days_from_civil] inverts [civil_from_days]. *)
Lemma days_roundtrip (z : Z) :
  let '(y, m, d) := civil_from_days z in days_from_civil y m d = z.
Proof.
  unfold civil_from_days, days_from_civil.
  set (z' := z + 719468).
  set (era := z' / 146097).
  set (doe := z' - era * 146097).
  assert (Hdoe : 0 <= doe < 146097).
  { unfold doe, era. Z.div_mod_to_equations. lia. }
  assert (Hyoe : 0 <= yoe_of_doe doe < 400).
  { unfold yoe_of_doe. Z.div_mod_to_equations. lia. }
  pose proof (DateFacts.doy_range doe Hdoe) as Hdoy.
  assert (Hd : (153 * mp_of_doy (doy_of_doe doe) + 2) / 5
               + dom_of_doy (doy_of_doe doe) - 1 = doy_of_doe doe).
  { unfold dom_of_doy. lia. }
  destruct (DateFacts.dom_range _ Hdoy) as [Hmp _].
  set (yoe := yoe_of_doe doe) in *.
  set (doy := doy_of_doe doe) in *.
  set (mp := mp_of_doy doy) in *.
  set (d := dom_of_doy doy) in *.
  set (m := if mp <? 10 then mp + 3 else mp - 9).
  assert (Hm : (m <=? 2) = negb (mp <? 10)).
  { unfold m. destruct (mp <? 10) eqn:E.
    - apply Z.ltb_lt in E. simpl. apply Z.leb_gt. lia.
    - apply Z.ltb_ge in E. simpl. apply Z.leb_le. lia. }
  rewrite Hm.
  assert (Hmp' : (if negb (mp <? 10) then m + 9 else m - 3) = mp).
  { unfold m. destruct (mp <? 10); simpl; lia. }
  rewrite Hmp'.
  assert (Hy : (if negb (mp <? 10)
                then yoe + era * 400 + (if negb (mp <? 10) then 1 else 0) - 1
                else yoe + era * 400 + (if negb (mp <? 10) then 1 else 0))
               = yoe + era * 400).
  { destruct (mp <? 10); simpl; lia. }
  rewrite Hy.
  replace ((yoe + era * 400) / 400) with era by (Z.div_mod_to_equations; lia).
  replace (yoe + era * 400 - era * 400) with yoe by lia.
  rewrite Hd.
  unfold doy, doy_of_doe. fold yoe. unfold doe, z'. lia.
Qed.

End DateTextFacts.

(** ** The three date formatters on a date-only string *)

Lemma append_nil_r (s : string) : s ++ EmptyString = s.
Proof.
  induction s as [|c s IH]; simpl; [reflexivity | now rewrite IH].
Qed.

(** X1.  [formatDate] on a date-only string, which is a date of the
    calendar written as YYYY-MM-DD: a runtime at or east of UTC (by less
    than a day) prints that date, as "<Month> <day>, <year>"; a runtime
    west of UTC prints the previous day of the calendar. *)
Theorem formatDate_date_only_shift (rt : Runtime) (s : string) (y m d : Z) :
  JsDate.parseYMD s = Some (y, m, d, EmptyString) ->
  Calendar.valid y m d
  /\ s = Digits.isoDate y m d
  /\ (0 <= utcOffset rt < 1440 ->
      FormatUtils.formatDate rt s = Calendar.longDate (y, m, d))
  /\ (-1440 <= utcOffset rt < 0 ->
      FormatUtils.formatDate rt s = Calendar.longDate (Calendar.previousDay y m d)).
Proof.
  intros Hparse.
  destruct (parseYMD_valid _ _ _ _ _ Hparse) as [Hm Hd].
  assert (Hvalid : Calendar.valid y m d) by (split; assumption).
  split; [exact Hvalid|].
  split.
  { destruct (DateTextFacts.parseYMD_print _ _ _ _ _ Hparse) as (Hprint & _).
    now rewrite append_nil_r in Hprint. }
  unfold FormatUtils.formatDate.
  rewrite (parse_date_only_is_utc_midnight rt _ _ _ _ Hparse).
  unfold JsDate.getMonth, JsDate.getDate, JsDate.getFullYear.
  split; intros Htz.
  - rewrite (localDay_east _ _ Htz), (DateFacts.civil_roundtrip y m d Hm Hd).
    now apply CalendarFacts.render_longDate.
  - rewrite (localDay_west _ _ Htz), (CalendarFacts.day_before y m d Hvalid).
    pose proof (CalendarFacts.previousDay_valid y m d Hvalid) as Hprev.
    destruct (Calendar.previousDay y m d) as [[y' m'] d'].
    destruct Hprev as [Hm' _].
    now apply CalendarFacts.render_longDate.
Qed.

Lemma formatDate_date_only_shift_witness :
  JsDate.parseYMD "2024-03-01" = Some (2024, 3, 1, EmptyString)
  /\ FormatUtils.formatDate (Sample.zone 330) "2024-03-01" = "March 1, 2024"
  /\ FormatUtils.formatDate (Sample.zone (-480)) "2024-03-01" = "February 29, 2024".
Proof.
  assert (H : JsDate.parseYMD "2024-03-01" = Some (2024, 3, 1, EmptyString))
    by reflexivity.
  split; [exact H|].
  split.
  - apply (proj1 (proj2 (proj2 (formatDate_date_only_shift (Sample.zone 330)
                                  "2024-03-01" 2024 3 1 H)))).
    cbn. lia.
  - apply (proj2 (proj2 (proj2 (formatDate_date_only_shift (Sample.zone (-480))
                                  "2024-03-01" 2024 3 1 H)))).
    cbn. lia.
Defined.

(** X2.  [formatDateToYYYYMMDD] on a date-only string with a year from 1000
    on: a runtime at or east of UTC returns the string itself; a runtime
    west of UTC returns the previous day of the calendar, as
    "<year>-<MM>-<DD>". *)
Theorem formatDateToYYYYMMDD_date_only (rt : Runtime) (s : string) (y m d : Z) :
  JsDate.parseYMD s = Some (y, m, d, EmptyString) ->
  1000 <= y ->
  Calendar.valid y m d
  /\ s = Calendar.dashed (y, m, d)
  /\ (0 <= utcOffset rt < 1440 -> ServerActions.formatDateToYYYYMMDD rt s = s)
  /\ (-1440 <= utcOffset rt < 0 ->
      ServerActions.formatDateToYYYYMMDD rt s
      = Calendar.dashed (Calendar.previousDay y m d)).
Proof.
  intros Hparse Hy.
  destruct (parseYMD_valid _ _ _ _ _ Hparse) as [Hm Hd].
  assert (Hvalid : Calendar.valid y m d) by (split; assumption).
  destruct (DateTextFacts.parseYMD_print _ _ _ _ _ Hparse) as (_ & _ & Hprint).
  specialize (Hprint Hy). rewrite append_nil_r in Hprint.
  split; [exact Hvalid|]. split; [exact Hprint|].
  unfold ServerActions.formatDateToYYYYMMDD.
  rewrite (parse_date_only_is_utc_midnight rt _ _ _ _ Hparse). cbv zeta.
  unfold JsDate.getMonth, JsDate.getDate, JsDate.getFullYear.
  split; intros Htz.
  - rewrite (localDay_east _ _ Htz), (DateFacts.civil_roundtrip y m d Hm Hd).
    rewrite Z.sub_add. now rewrite <- Hprint.
  - rewrite (localDay_west _ _ Htz), (CalendarFacts.day_before y m d Hvalid).
    destruct (Calendar.previousDay y m d) as [[y' m'] d'].
    rewrite Z.sub_add. reflexivity.
Qed.

Lemma formatDateToYYYYMMDD_date_only_witness :
  JsDate.parseYMD "2024-03-01" = Some (2024, 3, 1, EmptyString)
  /\ ServerActions.formatDateToYYYYMMDD (Sample.zone 60) "2024-03-01" = "2024-03-01"
  /\ ServerActions.formatDateToYYYYMMDD (Sample.zone (-300)) "2024-03-01" = "2024-02-29".
Proof.
  assert (H : JsDate.parseYMD "2024-03-01" = Some (2024, 3, 1, EmptyString))
    by reflexivity.
  split; [exact H|].
  destruct (formatDateToYYYYMMDD_date_only (Sample.zone 60) "2024-03-01" 2024 3 1 H
              ltac:(lia)) as (_ & _ & Heast & _).
  destruct (formatDateToYYYYMMDD_date_only (Sample.zone (-300)) "2024-03-01" 2024 3 1 H
              ltac:(lia)) as (_ & _ & _ & Hwest).
  split; [apply Heast; cbn; lia | apply Hwest; cbn; lia].
Defined.

Lemma split_head (sep : ascii) (a b : string) :
  Digits.free_of sep a = true ->
  JsMore.split sep (a ++ String sep b) = a :: JsMore.split sep b.
Proof.
  induction a as [|c a IH]; simpl; intros H.
  - now rewrite Ascii.eqb_refl.
  - apply andb_prop in H as [Hc Ha]. apply negb_true_iff in Hc.
    rewrite Hc, (IH Ha). reflexivity.
Qed.

Lemma free_of_app (sep : ascii) (a b : string) :
  Digits.free_of sep (a ++ b) = Digits.free_of sep a && Digits.free_of sep b.
Proof.
  induction a as [|c a IH]; simpl; [reflexivity|].
  now rewrite IH, andb_assoc.
Qed.

Lemma digit_is_not_T (c : ascii) :
  Decimals.is_digit c = true -> Ascii.eqb c "T" = false.
Proof.
  destruct c as [[] [] [] [] [] [] [] []]; vm_compute; intros H;
    first [reflexivity | discriminate H].
Qed.

Lemma all_digits_free_of_T (s : string) :
  Decimals.all_digits s = true -> Digits.free_of "T" s = true.
Proof.
  induction s as [|c s IH]; simpl; intros H; [reflexivity|].
  apply andb_prop in H as [Hc Hs].
  now rewrite (digit_is_not_T c Hc), (IH Hs).
Qed.

Lemma all_digits_app (a b : string) :
  Decimals.all_digits (a ++ b) = Decimals.all_digits a && Decimals.all_digits b.
Proof.
  induction a as [|c a IH]; simpl; [reflexivity|].
  now rewrite IH, andb_assoc.
Qed.

Lemma all_digits_toString (v : Z) : 0 <= v -> Decimals.all_digits (Js.toString v) = true.
Proof.
  intros H. destruct v as [|p|p]; [reflexivity| |lia].
  apply PrintingFacts.all_digits_string_of_uint.
Qed.

Lemma all_digits_padStart (k : nat) (v : Z) :
  0 <= v -> Decimals.all_digits (JsMore.padStart k "0" (Js.toString v)) = true.
Proof.
  intros H. unfold JsMore.padStart.
  rewrite all_digits_app, (all_digits_toString v H), andb_true_r.
  induction (k - String.length (Js.toString v))%nat as [|n IH]; simpl; auto.
Qed.

Lemma isoDate_free_of_T (y m d : Z) :
  0 <= y -> 0 <= m -> 0 <= d -> Digits.free_of "T" (Digits.isoDate y m d) = true.
Proof.
  intros Hy Hm Hd. unfold Digits.isoDate.
  rewrite !free_of_app.
  rewrite (all_digits_free_of_T _ (all_digits_padStart 4 y Hy)).
  rewrite (all_digits_free_of_T _ (all_digits_padStart 2 m Hm)).
  rewrite (all_digits_free_of_T _ (all_digits_padStart 2 d Hd)).
  reflexivity.
Qed.

(** The ISO text of a UTC midnight starts with the date, and the date holds
    no "T": splitting on "T" gives the date first. *)
Lemma toISOString_date_part (y m d : Z) :
  0 <= y <= 9999 -> 1 <= m <= 12 -> 1 <= d <= JsDate.daysInMonth y m ->
  exists rest,
    JsMore.split "T" (JsMore.toISOString (JsDate.days_from_civil y m d * JsDate.msPerDay))
    = Digits.isoDate y m d :: rest.
Proof.
  intros Hy Hm Hd.
  unfold JsMore.toISOString.
  rewrite Z.div_mul by (unfold JsDate.msPerDay; lia).
  rewrite Z.mod_mul by (unfold JsDate.msPerDay; lia).
  rewrite (DateFacts.civil_roundtrip y m d Hm Hd).
  assert (Hyear : JsMore.isoYear y = JsMore.padStart 4 "0" (Js.toString y)).
  { unfold JsMore.isoYear.
    destruct (Z.leb_spec 0 y); [|lia]. destruct (Z.leb_spec y 9999); [|lia].
    reflexivity. }
  rewrite Hyear.
  change (JsMore.padStart 4 "0" (Js.toString y) ++ "-"
          ++ JsMore.padStart 2 "0" (Js.toString m) ++ "-"
          ++ JsMore.padStart 2 "0" (Js.toString d) ++ "T"
          ++ ?rest)
    with (JsMore.padStart 4 "0" (Js.toString y)
          ++ String "-" (JsMore.padStart 2 "0" (Js.toString m)
          ++ String "-" (JsMore.padStart 2 "0" (Js.toString d) ++ String "T" rest))).
  assert (Hshape : forall a b c rest,
             a ++ String "-" (b ++ String "-" (c ++ String "T" rest))
             = (a ++ "-" ++ b ++ "-" ++ c) ++ String "T" rest).
  { intros a b c rest. now rewrite !DateTextFacts.append_assoc'. }
  rewrite Hshape. fold (Digits.isoDate y m d).
  rewrite split_head by (apply isoDate_free_of_T; lia).
  eexists. reflexivity.
Qed.

(** X3.  [formatDateForInput] returns a date-only string as it is, whatever
    the runtime's time zone. *)
Theorem formatDateForInput_date_only (rt : Runtime) (s : string) (y m d : Z) :
  JsDate.parseYMD s = Some (y, m, d, EmptyString) ->
  EditPage.formatDateForInput rt s = Some s.
Proof.
  intros Hparse.
  destruct (parseYMD_valid _ _ _ _ _ Hparse) as [Hm Hd].
  destruct (DateTextFacts.parseYMD_print _ _ _ _ _ Hparse) as (Hprint & Hy & _).
  rewrite append_nil_r in Hprint.
  unfold EditPage.formatDateForInput.
  rewrite (parse_date_only_is_utc_midnight rt _ _ _ _ Hparse).
  destruct (toISOString_date_part y m d Hy Hm Hd) as [rest ->].
  now rewrite Hprint.
Qed.

Lemma formatDateForInput_date_only_witness :
  JsDate.parseYMD "0999-03-04" = Some (999, 3, 4, EmptyString)
  /\ EditPage.formatDateForInput (Sample.zone (-480)) "0999-03-04" = Some "0999-03-04".
Proof.
  assert (H : JsDate.parseYMD "0999-03-04" = Some (999, 3, 4, EmptyString))
    by reflexivity.
  split; [exact H|].
  exact (formatDateForInput_date_only (Sample.zone (-480)) "0999-03-04" 999 3 4 H).
Defined.

Lemma number_app (k : nat) (s rest more : string) (v : Z) :
  forall acc,
    JsDate.number k acc s = Some (v, rest) ->
    JsDate.number k acc (s ++ more) = Some (v, rest ++ more).
Proof.
  revert s. induction k as [|k IH]; intros s acc H; simpl in *.
  - now injection H as -> ->.
  - destruct s as [|c s]; [discriminate|]. simpl.
    destruct (JsDate.digit c); [now apply IH | discriminate].
Qed.

Lemma expect_app (c : ascii) (s rest more : string) :
  JsDate.expect c s = Some rest ->
  JsDate.expect c (s ++ more) = Some (rest ++ more).
Proof.
  destruct s as [|c' s]; simpl; [discriminate|].
  destruct (Ascii.eqb c c'); [|discriminate]. now intros [= ->].
Qed.

Lemma parseYMD_app (s rest more : string) (y m d : Z) :
  JsDate.parseYMD s = Some (y, m, d, rest) ->
  JsDate.parseYMD (s ++ more) = Some (y, m, d, rest ++ more).
Proof.
  unfold JsDate.parseYMD, JsDate.bind, JsDate.guard.
  destruct (JsDate.number 4 0 s) as [[y0 s1]|] eqn:E1; [|discriminate].
  rewrite (number_app _ _ _ more _ _ E1).
  destruct (JsDate.expect "-" s1) as [s2|] eqn:E2; [|discriminate].
  rewrite (expect_app _ _ _ more E2).
  destruct (JsDate.number 2 0 s2) as [[m0 s3]|] eqn:E3; [|discriminate].
  rewrite (number_app _ _ _ more _ _ E3).
  destruct (JsDate.expect "-" s3) as [s4|] eqn:E4; [|discriminate].
  rewrite (expect_app _ _ _ more E4).
  destruct (JsDate.number 2 0 s4) as [[d0 s5]|] eqn:E5; [|discriminate].
  rewrite (number_app _ _ _ more _ _ E5).
  destruct ((1 <=? m0) && (m0 <=? 12) && (1 <=? d0)
            && (d0 <=? JsDate.daysInMonth y0 m0)); [|discriminate].
  now intros [= -> -> -> ->].
Qed.

(** X4.  A date-only string and the same date written as the UTC-midnight
    timestamp [YYYY-MM-DDT00:00:00.000Z] denote the same instant, so the
    three formatters treat them alike; in particular the edit form shows
    the stored date in every time zone, while the list page and the
    document show it shifted as a date-only string is. *)
Theorem utc_midnight_timestamp_as_date_only (rt : Runtime) (s : string) (y m d : Z) :
  JsDate.parseYMD s = Some (y, m, d, EmptyString) ->
  let stamp := s ++ "T00:00:00.000Z" in
  JsDate.parse rt stamp = JsDate.parse rt s
  /\ EditPage.formatDateForInput rt stamp = Some s
  /\ FormatUtils.formatDate rt stamp = FormatUtils.formatDate rt s
  /\ ServerActions.formatDateToYYYYMMDD rt stamp
     = ServerActions.formatDateToYYYYMMDD rt s.
Proof.
  intros Hparse stamp.
  assert (Hsame : JsDate.parse rt stamp = JsDate.parse rt s).
  { rewrite (parse_date_only_is_utc_midnight rt _ _ _ _ Hparse).
    unfold stamp, JsDate.parse, JsDate.parseISO.
    rewrite (parseYMD_app _ _ "T00:00:00.000Z" _ _ _ Hparse).
    cbn [append JsDate.bind].
    change (JsDate.parseHMS "00:00:00.000Z") with (Some (0, "Z")).
    cbn [JsDate.bind].
    change (JsDate.parseOffset (utcOffset rt) "Z") with (Some 0).
    cbn [JsDate.bind]. f_equal. lia. }
  split; [exact Hsame|]. split; [|split].
  - destruct (parseYMD_valid _ _ _ _ _ Hparse) as [Hm Hd].
    destruct (DateTextFacts.parseYMD_print _ _ _ _ _ Hparse) as (Hprint & Hy & _).
    rewrite append_nil_r in Hprint.
    unfold EditPage.formatDateForInput. rewrite Hsame.
    rewrite (parse_date_only_is_utc_midnight rt _ _ _ _ Hparse).
    destruct (toISOString_date_part y m d Hy Hm Hd) as [rest ->].
    now rewrite Hprint.
  - unfold FormatUtils.formatDate. now rewrite Hsame.
  - unfold ServerActions.formatDateToYYYYMMDD. now rewrite Hsame.
Qed.

Lemma utc_midnight_timestamp_as_date_only_witness :
  JsDate.parseYMD "2024-01-05" = Some (2024, 1, 5, EmptyString)
  /\ EditPage.formatDateForInput (Sample.zone (-300)) "2024-01-05T00:00:00.000Z"
     = Some "2024-01-05"
  /\ FormatUtils.formatDate (Sample.zone (-300)) "2024-01-05T00:00:00.000Z"
     = "January 4, 2024".
Proof.
  assert (H : JsDate.parseYMD "2024-01-05" = Some (2024, 1, 5, EmptyString))
    by reflexivity.
  split; [exact H|].
  destruct (utc_midnight_timestamp_as_date_only (Sample.zone (-300)) "2024-01-05"
              2024 1 5 H)
    as (_ & Hinput & _).
  split; [exact Hinput | reflexivity].
Defined.

(** ** The date [formatDate] prints *)

Module LocalDateFacts.
Import JsDate CalendarFacts.

Lemma days_from_civil_day (y m d : Z) :
  days_from_civil y m d = days_from_civil y m 1 + d - 1.
Proof. unfold days_from_civil. lia. Qed.

(** The date of a day number is a date of the calendar. *)
Lemma civil_from_days_valid (z : Z) :
  let '(y, m, d) := civil_from_days z in Calendar.valid y m d.
Proof.
  pose proof (DateTextFacts.days_roundtrip z) as Hback.
  pose proof (DateFacts.civil_from_days_range z) as Hrange.
  destruct (civil_from_days z) as [[y m] d] eqn:E.
  destruct Hrange as [Hm Hd].
  destruct (Z.le_gt_cases d (daysInMonth y m)) as [Hle | Hgt].
  { split; [exact Hm | lia]. }
  exfalso.
  pose proof (daysInMonth_range y m) as HL.
  pose proof (daysInMonth_range y (m + 1)) as HL'.
  assert (Hm' : m <= 11).
  { destruct (Z.eq_dec m 12) as [-> | ]; [|lia]. cbn in Hgt. lia. }
  assert (Hnext : Calendar.valid y (m + 1) 1) by (unfold Calendar.valid; lia).
  pose proof (previousDay_number y (m + 1) 1 Hnext) as Hprev.
  unfold Calendar.previousDay in Hprev.
  rewrite Z.ltb_irrefl in Hprev.
  destruct (Z.ltb_spec 1 (m + 1)) as [_ | ?]; [|lia].
  replace (m + 1 - 1) with m in Hprev by lia.
  assert (Hsame : days_from_civil y (m + 1) (d - daysInMonth y m) = z).
  { rewrite days_from_civil_day. rewrite <- Hback.
    rewrite (days_from_civil_day y m d).
    rewrite (days_from_civil_day y m (daysInMonth y m)) in Hprev. lia. }
  assert (Hround : civil_from_days z = (y, m + 1, d - daysInMonth y m)).
  { rewrite <- Hsame. apply DateFacts.civil_roundtrip; lia. }
  rewrite E in Hround. injection Hround as Hbad _. lia.
Qed.

End LocalDateFacts.

(** X17.  For an input that parses to the instant [t], [formatDate] prints
    the date of the calendar on which [t] falls in the runtime's local
    time (the date whose day number is the whole number of days in
    [t + offset]), as "<Month> <day>, <year>" with the English month name
    and the day and the year as plain decimal integers without leading
    zeros.  The time of day and the offset carried by the input count only
    through the instant they denote: inputs that denote the same instant
    are printed alike. *)
Theorem formatDate_prints_local_date (rt : Runtime) (dateString : string) (t : Z) :
  JsDate.parse rt dateString = Some t ->
  exists year month day,
    Calendar.valid year month day
    /\ JsDate.days_from_civil year month day = (t + utcOffset rt * 60000) / 86400000
    /\ FormatUtils.formatDate rt dateString = Calendar.longDate (year, month, day)
    /\ Decimals.plain_decimal (Js.toString day) = true
    /\ Decimals.plain_decimal (Js.toString year) = true
    /\ (forall other,
          JsDate.parse rt other = Some t ->
          FormatUtils.formatDate rt other = FormatUtils.formatDate rt dateString).
Proof.
  intros Hparse.
  assert (Hsame : forall other,
             JsDate.parse rt other = Some t ->
             FormatUtils.formatDate rt other = FormatUtils.formatDate rt dateString).
  { intros other Hother. unfold FormatUtils.formatDate. now rewrite Hparse, Hother. }
  assert (Hprint : FormatUtils.formatDate rt dateString
                   = FormatUtils.render (JsDate.getMonth (utcOffset rt) t)
                       (JsDate.getDate (utcOffset rt) t)
                       (JsDate.getFullYear (utcOffset rt) t)).
  { unfold FormatUtils.formatDate. now rewrite Hparse. }
  pose proof (LocalDateFacts.civil_from_days_valid (JsDate.localDay (utcOffset rt) t))
    as Hvalid.
  pose proof (DateTextFacts.days_roundtrip (JsDate.localDay (utcOffset rt) t)) as Hback.
  unfold JsDate.getFullYear, JsDate.getMonth, JsDate.getDate in Hprint.
  destruct (JsDate.civil_from_days (JsDate.localDay (utcOffset rt) t)) as [[y m] d].
  exists y, m, d.
  split; [exact Hvalid|]. split; [exact Hback|].
  split; [rewrite Hprint; apply CalendarFacts.render_longDate; apply Hvalid|].
  split; [apply PrintingFacts.toString_plain|].
  split; [apply PrintingFacts.toString_plain|].
  exact Hsame.
Qed.

Lemma formatDate_prints_local_date_witness :
  JsDate.parse (Sample.zone 0) "2024-01-05" = Some 1704412800000
  /\ FormatUtils.formatDate (Sample.zone 0) "2024-01-05" = "January 5, 2024"
  /\ FormatUtils.formatDate (Sample.zone 0) "2024-01-05T00:00:00.000Z"
     = FormatUtils.formatDate (Sample.zone 0) "2024-01-05"
  /\ JsDate.parse Sample.dayFirst "05/01/2024" = Some 1704412800000
  /\ FormatUtils.formatDate Sample.dayFirst "05/01/2024"
     = FormatUtils.formatDate Sample.dayFirst "2024-01-05".
Proof.
  assert (H : JsDate.parse (Sample.zone 0) "2024-01-05" = Some 1704412800000)
    by reflexivity.
  assert (H' : JsDate.parse Sample.dayFirst "2024-01-05" = Some 1704412800000)
    by reflexivity.
  split; [exact H|]. split; [reflexivity|].
  destruct (formatDate_prints_local_date (Sample.zone 0) "2024-01-05" 1704412800000 H)
    as (year & month & day & _ & _ & _ & _ & _ & Hsame).
  destruct (formatDate_prints_local_date Sample.dayFirst "2024-01-05" 1704412800000 H')
    as (year' & month' & day' & _ & _ & _ & _ & _ & Hsame').
  split; [apply Hsame; reflexivity|].
  split; [reflexivity|].
  apply Hsame'. reflexivity.
Defined.

(** ** The status colour on the list page and on the document *)

Module StatusFacts.
Import Js Text.

Lemma every_character (c : ascii) : In c (map ascii_of_nat (seq 0 256)).
Proof.
  rewrite <- (ascii_nat_embedding c). apply in_map, in_seq.
  pose proof (nat_ascii_bounded c). lia.
Qed.

Lemma same_letter_lower_char (a b : ascii) :
  same_letter a b = true -> lower_char a = lower_char b.
Proof.
  assert (Hall : forallb
                   (fun a => forallb
                     (fun b => implb (same_letter a b)
                                 (Ascii.eqb (lower_char a) (lower_char b)))
                     (map ascii_of_nat (seq 0 256)))
                   (map ascii_of_nat (seq 0 256)) = true)
    by (vm_compute; reflexivity).
  rewrite forallb_forall in Hall. specialize (Hall a (every_character a)).
  rewrite forallb_forall in Hall. specialize (Hall b (every_character b)).
  intros H. rewrite H in Hall. now apply Ascii.eqb_eq.
Qed.

(** Strings equal up to case have the same lower-case form. *)
Lemma eq_ignore_case_lower (s : string) :
  forall t, eq_ignore_case s t = true -> toLowerCase s = toLowerCase t.
Proof.
  induction s as [|a s IH]; intros [|b t]; simpl; intros H;
    try discriminate H; [reflexivity|].
  apply andb_prop in H as [Hc Hs].
  now rewrite (same_letter_lower_char a b Hc), (IH t Hs).
Qed.

Lemma green_iff_paid (s : string) :
  InvoicesPage.getStatusColor (Some s) = "bg-green-500 hover:bg-green-600"
  <-> eq_ignore_case s "paid" = true.
Proof.
  rewrite JsFacts.eq_ignore_case_paid. unfold InvoicesPage.getStatusColor.
  destruct (String.eqb_spec (toLowerCase s) "paid") as [E | E].
  - split; [intros _; exact E | reflexivity].
  - split; [|contradiction].
    destruct (String.eqb (toLowerCase s) "sent"); [discriminate|].
    destruct (String.eqb (toLowerCase s) "overdue"); [discriminate|].
    destruct (String.eqb (toLowerCase s) "cancelled"); discriminate.
Qed.

(** The fill of the badge of an ASCII status. *)
Lemma statusColor_ascii (s : string) :
  ascii_only s = true ->
  Rich.statusColorOf (if String.eqb (toUpperCase s) EmptyString then "UNPAID" else toUpperCase s)
  = if eq_ignore_case s "paid" then Badge.paidFill else Badge.unpaidFill.
Proof.
  intros Hs. unfold Rich.statusColorOf.
  destruct (eq_ignore_case s "paid") eqn:E.
  - now rewrite (JsFacts.upper_of_paid s E).
  - destruct (String.eqb_spec (toUpperCase s) EmptyString) as [_ | _]; [reflexivity|].
    destruct (String.eqb_spec (toUpperCase s) "PAID") as [Hup | _]; [|reflexivity].
    rewrite (JsFacts.paid_of_upper s Hs Hup) in E. discriminate E.
Qed.

End StatusFacts.

(** X5.  The list page and the document classify an ASCII status alike.
    The list colour is green exactly when the status is "paid" up to
    letter case, and the badge rectangle of the document is then filled
    with the green rgb(0.2, 0.7, 0.2), and with the red rgb(0.8, 0.2, 0.2)
    otherwise.  Statuses that differ by letter case only have the same
    list colour.  A record without status is amber (as a draft) on the
    list while its document carries the red badge UNPAID. *)
Theorem status_colour_list_and_document (env : Env) (data : InvoiceData) :
  (forall s : string,
     status data = Some s ->
     Text.ascii_only s = true ->
     (InvoicesPage.getStatusColor (status data) = "bg-green-500 hover:bg-green-600"
      <-> eq_ignore_case s "paid" = true)
     /\ exists above below text,
          snd (Rich.generateInvoice env data)
          = (above
             ++ [Badge.rectangle
                   (if eq_ignore_case s "paid" then Badge.paidFill else Badge.unpaidFill);
                 Badge.label text]
             ++ below)%list)
  /\ (forall s t : string,
        eq_ignore_case s t = true ->
        InvoicesPage.getStatusColor (Some s) = InvoicesPage.getStatusColor (Some t))
  /\ (status data = None ->
      InvoicesPage.getStatusColor (status data) = "bg-amber-500 hover:bg-amber-600"
      /\ exists above below,
           snd (Rich.generateInvoice env data)
           = (above ++ [Badge.rectangle Badge.unpaidFill; Badge.label "UNPAID"]
              ++ below)%list).
Proof.
  destruct (page_badge_then_text env data) as (above & below & Hpage).
  split; [|split].
  - intros s Hs Hascii. rewrite Hs. split; [apply StatusFacts.green_iff_paid|].
    exists above, below, (Rich.statusOf data). rewrite Hpage.
    unfold Rich.statusOf. rewrite Hs. cbv zeta.
    now rewrite (StatusFacts.statusColor_ascii s Hascii).
  - intros s t H. apply StatusFacts.eq_ignore_case_lower in H.
    unfold InvoicesPage.getStatusColor. now rewrite H.
  - intros Hnone. rewrite Hnone. split; [reflexivity|].
    exists above, below. rewrite Hpage.
    unfold Rich.statusOf. now rewrite Hnone.
Qed.

Lemma status_colour_list_and_document_witness :
  let paid :=
    mkInvoiceData "INV-2" "2024-01-05" "2024-02-04" "Acme Ltd" "1 Main Street"
      "billing@acme.test" "555-0100" "Bob" "2 Side Street" "bob@client.test"
      None None (Some "Paid") [mkLineItem "Consulting" (Number.ofZ 2) (Number.ofZ 100)] in
  status paid = Some "Paid"
  /\ Text.ascii_only "Paid" = true
  /\ InvoicesPage.getStatusColor (Some "Paid") = "bg-green-500 hover:bg-green-600"
  /\ exists above below text,
       snd (Rich.generateInvoice Sample.noon paid)
       = (above ++ [Badge.rectangle Badge.paidFill; Badge.label text] ++ below)%list.
Proof.
  intros paid.
  destruct (proj1 (status_colour_list_and_document Sample.noon paid)
              "Paid" eq_refl eq_refl) as [Hgreen Hpage].
  split; [reflexivity|]. split; [reflexivity|].
  split; [apply Hgreen; reflexivity | exact Hpage].
Defined.

(** ** The line-item list of the edit page *)

Module EditFacts.
Import EditPage.
Local Open Scope list_scope.

Lemma filterOutIndex_past (items : list LineItem) :
  forall i index, (index < i)%nat -> filterOutIndex items i index = items.
Proof.
  induction items as [|item rest IH]; intros i index Hlt; simpl.
  - reflexivity.
  - destruct (Nat.eqb_spec i index) as [E|_]; [lia|].
    now rewrite IH by lia.
Qed.

Lemma filterOutIndex_spec (items : list LineItem) :
  forall i index,
    (i <= index)%nat ->
    filterOutIndex items i index
    = firstn (index - i) items ++ skipn (S (index - i)) items.
Proof.
  induction items as [|item rest IH]; intros i index Hle; simpl.
  - now destruct (index - i)%nat.
  - destruct (Nat.eqb_spec i index) as [E | Hne].
    + subst i. rewrite Nat.sub_diag. simpl.
      apply filterOutIndex_past. lia.
    + rewrite (IH (S i) index) by lia.
      replace (index - i)%nat with (S (index - S i)) by lia.
      reflexivity.
Qed.

Lemma removeLineItem_spec (items : list LineItem) (index : nat) :
  (1 < List.length items)%nat ->
  removeLineItem items index = firstn index items ++ skipn (S index) items.
Proof.
  intros Hlen. unfold removeLineItem.
  destruct (Nat.ltb_spec 1 (List.length items)); [|lia].
  rewrite filterOutIndex_spec by lia. now rewrite Nat.sub_0_r.
Qed.

Lemma calculateTotal_is_sumOfAmounts (items : list LineItem) :
  calculateTotal items = Totals.sumOfAmounts items.
Proof. symmetry. apply LayoutFacts.sumOfAmounts_is_sumLineItems. Qed.

Lemma calculateTotal_snoc (items : list LineItem) (item : LineItem) :
  calculateTotal (items ++ [item]) = Number.add (calculateTotal items) (Totals.amount item).
Proof. apply LayoutFacts.sumLineItems_snoc. Qed.

(** The two zeros are printed alike, also after the multiplications of the
    preview. *)
Lemma preview_of_zero :
  let shown (x : Number.t) :=
    (Js.toFixed2 x, Js.toFixed2 (Number.mul x (Number.ratio 5 100)),
     Js.toFixed2 (Number.mul x (Number.ratio 105 100))) in
  shown (S754_zero true) = shown (S754_zero false).
Proof. vm_compute. reflexivity. Qed.

End EditFacts.

(** X6.  Removing a line item never empties the list: a list of one item is
    left as it is.  On a longer list the item at a valid index is the only
    one removed, the others keeping their order; an index past the end
    removes nothing. *)
Theorem removeLineItem_keeps_one (lineItems : list LineItem) (index : nat) :
  lineItems <> [] ->
  EditPage.removeLineItem lineItems index <> []
  /\ (List.length lineItems = 1%nat -> EditPage.removeLineItem lineItems index = lineItems)
  /\ ((1 < List.length lineItems)%nat -> (index < List.length lineItems)%nat ->
      EditPage.removeLineItem lineItems index
      = (firstn index lineItems ++ skipn (S index) lineItems)%list
      /\ S (List.length (EditPage.removeLineItem lineItems index))
         = List.length lineItems)
  /\ ((List.length lineItems <= index)%nat ->
      EditPage.removeLineItem lineItems index = lineItems).
Proof.
  intros Hne.
  assert (Hspec : (1 < List.length lineItems)%nat ->
                  EditPage.removeLineItem lineItems index
                  = (firstn index lineItems ++ skipn (S index) lineItems)%list).
  { intros Hlen. unfold EditPage.removeLineItem.
    destruct (Nat.ltb_spec 1 (List.length lineItems)); [|lia].
    rewrite EditFacts.filterOutIndex_spec by lia. now rewrite Nat.sub_0_r. }
  assert (Hlen_spec : (1 < List.length lineItems)%nat ->
                      (index < List.length lineItems)%nat ->
                      S (List.length (EditPage.removeLineItem lineItems index))
                      = List.length lineItems).
  { intros H1 Hi. rewrite (Hspec H1), length_app, length_firstn, length_skipn. lia. }
  split; [|split; [|split]].
  - destruct (Nat.ltb_spec 1 (List.length lineItems)) as [Hlong | Hshort].
    + intros Hnil.
      destruct (Nat.ltb_spec index (List.length lineItems)) as [Hin | Hout].
      * specialize (Hlen_spec Hlong Hin). rewrite Hnil in Hlen_spec. simpl in Hlen_spec. lia.
      * rewrite (Hspec Hlong) in Hnil.
        rewrite firstn_all2 in Hnil by lia. rewrite skipn_all2 in Hnil by lia.
        rewrite List.app_nil_r in Hnil. contradiction.
    + unfold EditPage.removeLineItem.
      destruct (Nat.ltb_spec 1 (List.length lineItems)); [lia | exact Hne].
  - intros H1. unfold EditPage.removeLineItem. now rewrite H1.
  - intros H1 Hi. split; [now apply Hspec | now apply Hlen_spec].
  - intros Hout.
    destruct (Nat.ltb_spec 1 (List.length lineItems)) as [Hlong | Hshort].
    + rewrite (Hspec Hlong).
      rewrite firstn_all2 by lia. rewrite skipn_all2 by lia. apply List.app_nil_r.
    + unfold EditPage.removeLineItem.
      destruct (Nat.ltb_spec 1 (List.length lineItems)); [lia | reflexivity].
Qed.

Lemma removeLineItem_keeps_one_witness :
  let items :=
    [mkLineItem "Consulting" (Number.ofZ 2) (Number.ofZ 100);
     mkLineItem "Parts" (Number.ofZ 3) (Number.ratio 999 100)] in
  items <> []
  /\ EditPage.removeLineItem items 0 = [mkLineItem "Parts" (Number.ofZ 3) (Number.ratio 999 100)]
  /\ EditPage.removeLineItem (EditPage.removeLineItem items 0) 0
     = [mkLineItem "Parts" (Number.ofZ 3) (Number.ratio 999 100)].
Proof.
  intros items.
  assert (H : items <> []) by discriminate.
  split; [exact H|].
  destruct (removeLineItem_keeps_one items 0 H) as (_ & _ & Hcut & _).
  split.
  - destruct (Hcut ltac:(simpl; lia) ltac:(simpl; lia)) as [Heq _]. exact Heq.
  - reflexivity.
Defined.

(** X7.  Adding a line item appends one item with an empty description,
    quantity 1 and unit price 0, and leaves the other items in place.  The
    total is recomputed as the old total + 1 x 0: it is the old total
    (a negative zero becoming the positive one), and the three amounts
    under the list read as before. *)
Theorem addLineItem_keeps_total (lineItems : list LineItem) :
  EditPage.addLineItem lineItems
  = (lineItems ++ [mkLineItem EmptyString (Number.ofZ 1) Number.zero])%list
  /\ List.length (EditPage.addLineItem lineItems) = S (List.length lineItems)
  /\ firstn (List.length lineItems) (EditPage.addLineItem lineItems) = lineItems
  /\ (EditPage.calculateTotal (EditPage.addLineItem lineItems)
      = EditPage.calculateTotal lineItems
      \/ (EditPage.calculateTotal lineItems = S754_zero true
          /\ EditPage.calculateTotal (EditPage.addLineItem lineItems) = S754_zero false))
  /\ EditPage.preview (EditPage.addLineItem lineItems) = EditPage.preview lineItems.
Proof.
  assert (Htotal : EditPage.calculateTotal (EditPage.addLineItem lineItems)
                   = Number.add (EditPage.calculateTotal lineItems) Number.zero).
  { unfold EditPage.addLineItem. rewrite EditFacts.calculateTotal_snoc.
    unfold Totals.amount, EditPage.blankItem. cbn [quantity unitPrice].
    now rewrite RoundingFacts.mul_one_zero. }
  split; [reflexivity|]. split; [|split; [|split]].
  - unfold EditPage.addLineItem. rewrite length_app. simpl. lia.
  - unfold EditPage.addLineItem.
    rewrite firstn_app, Nat.sub_diag, firstn_all. simpl. apply List.app_nil_r.
  - rewrite Htotal.
    destruct (RoundingFacts.add_zero_r (EditPage.calculateTotal lineItems)) as [H | [H1 H2]];
      [left; exact H | right; split; assumption].
  - unfold EditPage.preview. rewrite Htotal.
    destruct (RoundingFacts.add_zero_r (EditPage.calculateTotal lineItems)) as [H | [H1 H2]].
    + now rewrite H.
    + rewrite H2, H1. symmetry. exact EditFacts.preview_of_zero.
Qed.

(** X8.  On a list of more than one item, removing the item at a valid
    index leaves the left-to-right sum of the amounts of the remaining
    items as total.  When the last item is removed this is the total from
    which the old one was obtained by adding that item's amount.  Removing
    an earlier item need not lower the total by that item's amount: of the
    three items 0.1, 0.2, 0.3, whose total is 0.6000000000000001, the last
    two total 0.5, while the total minus 0.1 is 0.5000000000000001. *)
Theorem removeLineItem_recomputes_total (lineItems : list LineItem) (index : nat) :
  (1 < List.length lineItems)%nat ->
  (index < List.length lineItems)%nat ->
  EditPage.calculateTotal (EditPage.removeLineItem lineItems index)
  = Totals.sumOfAmounts (firstn index lineItems ++ skipn (S index) lineItems)%list
  /\ (forall last,
        nth_error lineItems index = Some last ->
        S index = List.length lineItems ->
        EditPage.calculateTotal lineItems
        = Number.add (EditPage.calculateTotal (EditPage.removeLineItem lineItems index))
            (Totals.amount last))
  /\ (let tenths (n : Z) := mkLineItem "Item" (Number.ofZ 1) (Number.ratio n 10) in
      let three := [tenths 1; tenths 2; tenths 3] in
      EditPage.calculateTotal (EditPage.removeLineItem three 0) = Number.ratio 5 10
      /\ Number.sub (EditPage.calculateTotal three) (Totals.amount (tenths 1))
         <> Number.ratio 5 10).
Proof.
  intros Hlen Hindex.
  pose proof (EditFacts.removeLineItem_spec lineItems index Hlen) as Hspec.
  split; [|split].
  - rewrite Hspec. apply EditFacts.calculateTotal_is_sumOfAmounts.
  - intros last Hnth Hlast.
    destruct (nth_error_split lineItems index Hnth) as (before & after & Hsplit & Hbefore).
    assert (Hafter : after = []).
    { rewrite Hsplit, length_app in Hlast. simpl in Hlast.
      destruct after; [reflexivity | simpl in Hlast; lia]. }
    subst after. rewrite Hspec. rewrite Hsplit at 1 2 3. subst index.
    rewrite firstn_app, Nat.sub_diag, firstn_all. cbn [firstn].
    rewrite skipn_all2 by (rewrite length_app; simpl; lia).
    rewrite !List.app_nil_r.
    apply EditFacts.calculateTotal_snoc.
  - cbv zeta. split; [vm_compute; reflexivity|].
    vm_compute. discriminate.
Qed.

Lemma removeLineItem_recomputes_total_witness :
  let items :=
    [mkLineItem "Consulting" (Number.ofZ 2) (Number.ofZ 100); mkLineItem "Parts" (Number.ofZ 3) (Number.ratio 999 100)] in
  (1 < List.length items)%nat
  /\ (1 < List.length items)%nat
  /\ EditPage.calculateTotal (EditPage.removeLineItem items 1) = Number.ofZ 200.
Proof.
  intros items.
  assert (H1 : (1 < List.length items)%nat) by (simpl; lia).
  split; [exact H1|]. split; [exact H1|].
  rewrite (proj1 (removeLineItem_recomputes_total items 1 H1 H1)).
  vm_compute. reflexivity.
Defined.

(** X9.  The record the edit form submits carries the left-to-right sum of
    its own line items as [totalAmount], so the render does not write to
    it and the document shows that sum as subtotal, 5% of it as tax and
    their sum as total.  The subtotal and the tax under the item list of
    the form are printed from the same numbers as on the document.  The
    total of the form is the sum x 1.05, the total of the document the sum
    plus the tax: two doubles that are within 1e-9 of each other for a sum
    of at most a million, and that may print differently, as 105.11 on the
    form and $105.10 on the document for one item at 100.1. *)
Theorem submitted_record_renders_its_items
    (env : Env) (data : InvoiceData) (items : list LineItem) :
  let record := EditPage.submitted data items in
  let subtotal := Totals.sumOfAmounts items in
  let tax := Number.mul subtotal (Number.ratio 5 100) in
  let total := Number.add subtotal tax in
  let formTotal := Number.mul subtotal (Number.ratio 105 100) in
  fst (Rich.generateInvoice env record) = record
  /\ lineItems record = items
  /\ totalAmount record = Some subtotal
  /\ (exists above y below,
        snd (Rich.generateInvoice env record)
        = (above ++ Totals.lines subtotal tax total y ++ below)%list)
  /\ EditPage.preview items = (Js.toFixed2 subtotal, Js.toFixed2 tax, Js.toFixed2 formTotal)
  /\ (forall v : Q,
        Number.value subtotal = Some v ->
        (Qabs v <= 1000000)%Q ->
        exists vForm vPage,
          Number.value formTotal = Some vForm
          /\ Number.value total = Some vPage
          /\ Totals.within (1 # 1000000000) vPage vForm)
  /\ (let one := [mkLineItem "Licence" (Number.ofZ 1) (Number.ratio 1001 10)] in
      snd (EditPage.preview one) = "105.11"
      /\ Totals.money
           (Number.add (Totals.sumOfAmounts one)
              (Number.mul (Totals.sumOfAmounts one) (Number.ratio 5 100)))
         = "$105.10").
Proof.
  intros record subtotal tax total formTotal.
  assert (Hrecord : totalAmount record = Some subtotal).
  { unfold record, EditPage.submitted. destruct data; cbn.
    now rewrite EditFacts.calculateTotal_is_sumOfAmounts. }
  assert (Hitems : lineItems record = items).
  { unfold record, EditPage.submitted. destruct data; reflexivity. }
  split; [|split; [exact Hitems|split; [exact Hrecord|split; [|split; [|split]]]]].
  - unfold Rich.generateInvoice, Rich.fillTotalAmount. cbn [fst].
    now rewrite Hrecord.
  - destruct (page_totals_lines env record) as (above & y & below & Hpage & _).
    cbv zeta in Hpage. rewrite Hrecord in Hpage.
    now exists above, y, below.
  - unfold EditPage.preview.
    now rewrite EditFacts.calculateTotal_is_sumOfAmounts.
  - intros v Hv Hbound.
    destruct (RoundingFacts.totals_tolerance subtotal v Hv Hbound)
      as (vt & vg & vp & _ & Hg & Hp & _ & _ & _ & Hclose).
    exists vp, vg. split; [exact Hp|]. split; [exact Hg|]. exact Hclose.
  - cbv zeta. split; vm_compute; reflexivity.
Qed.

Lemma submitted_record_renders_its_items_witness :
  let items := [mkLineItem "Licence" (Number.ofZ 1) (Number.ratio 1001 10)] in
  let v := Number.finite false 7043911292184166 (-46) in
  Number.value (Totals.sumOfAmounts items) = Some v
  /\ (Qabs v <= 1000000)%Q
  /\ exists vForm vPage,
       Number.value (Number.mul (Totals.sumOfAmounts items) (Number.ratio 105 100))
       = Some vForm
       /\ Number.value
            (Number.add (Totals.sumOfAmounts items)
               (Number.mul (Totals.sumOfAmounts items) (Number.ratio 5 100)))
          = Some vPage
       /\ Totals.within (1 # 1000000000) vPage vForm.
Proof.
  intros items v.
  assert (Hv : Number.value (Totals.sumOfAmounts items) = Some v)
    by (vm_compute; reflexivity).
  assert (Hb : (Qabs v <= 1000000)%Q) by (vm_compute; discriminate).
  split; [exact Hv|]. split; [exact Hb|].
  destruct (submitted_record_renders_its_items Sample.noon Sample.invoice items)
    as (_ & _ & _ & _ & _ & Hclose & _).
  exact (Hclose v Hv Hb).
Defined.

(** ** Where the layout stops fitting the page *)

(** X10.  The renderer never starts a second page and never clips: with N
    line items the last line of the payment information is drawn at
    y = 351.89 - 25 N, directly before the footer.  Up to 10 items this is
    above the footer rule (y = 80); from 11 items on it is below the rule,
    and from 15 items on it is below the bottom edge of the page (y < 0). *)
Theorem payment_block_runs_off_the_page (env : Env) (data : InvoiceData) :
  let N := List.length (lineItems data) in
  exists above y,
    snd (Rich.generateInvoice env data)
    = (above
       ++ [DrawText "Account Number:" (tableLeft + 10)%Q y normalFontSize
             HelveticaBold (rgb 0 0 0);
           DrawText "1234567890" (tableLeft + 100)%Q y normalFontSize
             Helvetica (rgb 0 0 0)]
       ++ Rich.footer env)%list
    /\ (y == 351.89 - 25 * num N)%Q
    /\ ((N <= 10)%nat -> (Rich.footerY + 30 < y)%Q)
    /\ ((11 <= N)%nat -> (y < Rich.footerY + 30)%Q)
    /\ ((15 <= N)%nat -> (y < 0)%Q).
Proof.
  intros N.
  unfold Rich.generateInvoice, Rich.drawPage, Rich.belowRows. cbn [snd].
  set (data' := Rich.fillTotalAmount data).
  assert (Hitems : lineItems data' = lineItems data).
  { unfold data', Rich.fillTotalAmount. now destruct (totalAmount data). }
  pose proof (OverflowFacts.forEachRow_cursor (lineItems data') 0 (tableTop - 45)%Q)
    as Hcursor.
  destruct (forEachRow (lineItems data') 0 (tableTop - 45)%Q) as [yPosition rows].
  cbn [fst] in Hcursor. rewrite Hitems in Hcursor. fold N in Hcursor.
  set (y := (yPosition - 5 - 20 - 20 - 30 - 20 - 20 - 20 - 15 - 15)%Q).
  assert (Hy : (y == 351.89 - 25 * num N)%Q).
  { unfold y. rewrite Hcursor. unfold tableTop, height. ring. }
  exists (Rich.aboveRows env data' ++ rows
          ++ snd (Rich.totalsBlock (Rich.totalsOf data') (yPosition - 5)%Q)
          ++ firstn 6 (Rich.paymentBlock data' (yPosition - 5 - 20 - 20 - 30)%Q))%list.
  exists y. split; [|split; [exact Hy|]].
  - unfold Rich.totalsBlock, Rich.paymentBlock. cbn [snd firstn].
    repeat rewrite <- List.app_assoc. cbn [app]. reflexivity.
  - unfold Rich.footerY. repeat split; intros HN.
    + pose proof (OverflowFacts.num_le _ _ HN) as Hq.
      change (num 10) with 10%Q in Hq. rewrite Hy. lra.
    + pose proof (OverflowFacts.num_le _ _ HN) as Hq.
      change (num 11) with 11%Q in Hq. rewrite Hy. lra.
    + pose proof (OverflowFacts.num_le _ _ HN) as Hq.
      change (num 15) with 15%Q in Hq. rewrite Hy. lra.
Qed.

(** X11.  The company block is not bounded either.  With [n] address lines
    (there is always at least one) the phone line is drawn at
    [height - 125 - 15 n], while the divider stays at [height - 150] and the
    "BILL TO:" label at [height - 180]: the phone line is below the divider
    exactly from two address lines on, and below the label exactly from
    four on. *)
Theorem company_block_crosses_the_divider (env : Env) (data : InvoiceData) :
  let n := List.length (Js.split_newline (companyAddress data)) in
  exists lines yEmail yPhone rest,
    snd (Rich.generateInvoice env data)
    = (Rich.headerBand ++ [Blocks.companyNameRun data] ++ lines
       ++ [Blocks.emailRun data yEmail; Blocks.phoneRun data yPhone] ++ rest)%list
    /\ List.length lines = n
    /\ (1 <= n)%nat
    /\ (yPhone == height - 125 - 15 * num n)%Q
    /\ In (DrawLine 50 (height - 150) (width - 50) (height - 150) 2 (rgb 0.8 0.8 0.8))%Q rest
    /\ In Blocks.billTo rest
    /\ ((2 <= n)%nat <-> (yPhone < height - 150)%Q)
    /\ ((4 <= n)%nat <-> (yPhone < height - 180)%Q).
Proof.
  intros n.
  exists (drawLines (height - 110)%Q (Js.split_newline (companyAddress data)) 0),
    (height - 110 - num n * 15)%Q, (height - 125 - num n * 15)%Q,
    (Blocks.afterCompany env (Rich.fillTotalAmount data)).
  assert (Hn : (1 <= n)%nat).
  { unfold n. destruct (Js.split_newline (companyAddress data)) eqn:E.
    - now apply JsFacts.split_newline_nonempty in E.
    - simpl. lia. }
  repeat match goal with |- _ /\ _ => split end.
  - rewrite BlocksFacts.page_around_company, BlocksFacts.companyBlock_fillTotalAmount.
    unfold companyBlock. fold n. now repeat rewrite <- List.app_assoc.
  - now rewrite LayoutFacts.drawLines_length.
  - exact Hn.
  - ring.
  - unfold Blocks.afterCompany.
    destruct (forEachRow _ 0 (tableTop - 45)%Q) as [y rows].
    apply in_or_app. right. apply in_or_app. right.
    apply in_or_app. left. left. reflexivity.
  - unfold Blocks.afterCompany.
    destruct (forEachRow _ 0 (tableTop - 45)%Q) as [y rows].
    apply in_or_app. right. apply in_or_app. right.
    apply in_or_app. right. apply in_or_app. left.
    rewrite BlocksFacts.clientBlock_fillTotalAmount. left. reflexivity.
  - destruct (Nat.le_gt_cases 2 n) as [Hge | Hlt].
    + pose proof (OverflowFacts.num_le _ _ Hge) as Hq. change (num 2) with 2%Q in Hq.
      split; intros _; [lra | exact Hge].
    + assert (Hle : (n <= 1)%nat) by lia.
      pose proof (OverflowFacts.num_le _ _ Hle) as Hq. change (num 1) with 1%Q in Hq.
      split; intros H; [lia | lra].
  - destruct (Nat.le_gt_cases 4 n) as [Hge | Hlt].
    + pose proof (OverflowFacts.num_le _ _ Hge) as Hq. change (num 4) with 4%Q in Hq.
      split; intros _; [lra | exact Hge].
    + assert (Hle : (n <= 3)%nat) by lia.
      pose proof (OverflowFacts.num_le _ _ Hle) as Hq. change (num 3) with 3%Q in Hq.
      split; intros H; [lia | lra].
Qed.

(** ** The notes block and the total line of the server-side renderer *)

Module NotesShape.
Local Open Scope Q_scope.
Local Open Scope list_scope.

Lemma drawNotesLines_length (lines : list string) :
  forall y, List.length (snd (Simple.drawNotesLines lines y)) = List.length lines.
Proof.
  induction lines as [|l ls IH]; intros y; simpl.
  - reflexivity.
  - specialize (IH (y - 15)).
    destruct (Simple.drawNotesLines ls (y - 15)) as [y' page]. simpl in *.
    now rewrite IH.
Qed.

(** Line [i] of the notes is drawn, as it is, 15 units below line [i - 1]. *)
Lemma drawNotesLines_nth (lines : list string) :
  forall y i line,
    nth_error lines i = Some line ->
    exists yLine,
      nth_error (snd (Simple.drawNotesLines lines y)) i = Some (Notes.line line yLine)
      /\ yLine == y - 15 * num i.
Proof.
  induction lines as [|l ls IH]; intros y i line H.
  - destruct i; discriminate.
  - cbn [Simple.drawNotesLines].
    specialize (IH (y - 15)).
    destruct (Simple.drawNotesLines ls (y - 15)) as [y' page]. cbn [snd] in *.
    destruct i as [|i]; simpl in H.
    + injection H as ->. exists y. split; [reflexivity|].
      unfold num. simpl. ring.
    + destruct (IH i line H) as (yLine & Hnth & Hy).
      exists yLine. split; [exact Hnth|].
      rewrite Hy, LayoutFacts.num_succ. ring.
Qed.

Lemma hasNotes_not_blank (data : InvoiceData) (s : string) :
  notes data = Some s -> Text.whitespace_only s = false ->
  Simple.hasNotes data = true.
Proof.
  intros Hs Hw. unfold Simple.hasNotes. rewrite Hs.
  destruct (String.eqb_spec s EmptyString) as [-> | _]; [discriminate Hw|].
  destruct (String.eqb_spec (Js.trim s) EmptyString) as [E | _]; [|reflexivity].
  apply JsFacts.trim_empty_iff in E. congruence.
Qed.

(** The rows, then the total line on the baseline 50 + 25 N below the top
    of the table, the cursor being left 30 units lower. *)
Lemma rowsAndTotal_shape (data : InvoiceData) :
  exists rows yTotal,
    Simple.rowsAndTotal data
    = (yTotal - 30,
       rows
       ++ Totals.totalLine
            (match totalAmount data with Some t => t | None => Number.zero end) yTotal)
    /\ yTotal == tableTop - 50 - 25 * num (List.length (lineItems data)).
Proof.
  unfold Simple.rowsAndTotal, Simple.totalBlock.
  pose proof (OverflowFacts.forEachRow_cursor (lineItems data) 0 (tableTop - 45)) as Hy.
  destruct (forEachRow (lineItems data) 0 (tableTop - 45)) as [yPosition rows].
  cbn [fst] in Hy.
  exists rows, (yPosition - 5). split; [reflexivity|].
  rewrite Hy. ring.
Qed.

End NotesShape.

(** X12.  Notes that are not blank add one block to the page, between the
    total line and the closing line and nowhere else: the "NOTES:" label
    50 units below the baseline of the total line, which is 50 + 25 N below
    the top of the table, then one text run per line of the notes, the
    first 20 units below the label and each next one 15 units lower.  The
    lines are those of the notes as stored: the trimmed text only decides
    whether the block is drawn. *)
Theorem notes_block_shape (env : Env) (data : InvoiceData) (s : string) :
  notes data = Some s ->
  Text.whitespace_only s = false ->
  let total := match totalAmount data with Some t => t | None => Number.zero end in
  exists before yTotal lines,
    Simple.generateInvoice env data
    = (before ++ Totals.totalLine total yTotal
       ++ [Notes.label yTotal] ++ lines ++ [Notes.closing])%list
    /\ Simple.generateInvoice env (set_notes data None)
       = (before ++ Totals.totalLine total yTotal ++ [Notes.closing])%list
    /\ (yTotal == tableTop - 50 - 25 * num (List.length (lineItems data)))%Q
    /\ List.length lines = List.length (Js.split_newline s)
    /\ (forall i line,
          nth_error (Js.split_newline s) i = Some line ->
          exists yLine,
            nth_error lines i = Some (Notes.line line yLine)
            /\ (yLine == yTotal - 30 - 20 - 20 - 15 * num i)%Q).
Proof.
  intros Hs Hw total.
  pose proof (NotesShape.hasNotes_not_blank data s Hs Hw) as Hhas.
  unfold Simple.generateInvoice.
  rewrite NotesFacts.rowsAndTotal_ignores_notes, NotesFacts.aboveRows_ignores_notes.
  destruct (NotesShape.rowsAndTotal_shape data) as (rows & yTotal & -> & HyTotal).
  fold total.
  unfold Simple.notesBlock. rewrite Hhas, Hs.
  cbn [Simple.hasNotes notes set_notes].
  pose proof (NotesShape.drawNotesLines_length (Js.split_newline s)
                (yTotal - 30 - 20 - 20)%Q) as Hlen.
  pose proof (NotesShape.drawNotesLines_nth (Js.split_newline s)
                (yTotal - 30 - 20 - 20)%Q) as Hnth.
  destruct (Simple.drawNotesLines (Js.split_newline s) (yTotal - 30 - 20 - 20)%Q)
    as [y' lines].
  cbn [snd] in *.
  exists (Simple.aboveRows env data ++ rows)%list, yTotal, lines.
  split; [|split; [|split; [exact HyTotal|split; [exact Hlen|]]]].
  - repeat rewrite <- List.app_assoc. reflexivity.
  - destruct data; cbn. repeat rewrite <- List.app_assoc. reflexivity.
  - intros i line Hline.
    destruct (Hnth i line Hline) as (yLine & Hrun & Hy).
    exists yLine. split; [exact Hrun|]. rewrite Hy. ring.
Qed.

Lemma notes_block_shape_witness :
  let data := set_notes Sample.invoice (Some (" net 30" ++ String Js.newline "thanks ")) in
  notes data = Some (" net 30" ++ String Js.newline "thanks ")
  /\ Text.whitespace_only (" net 30" ++ String Js.newline "thanks ") = false
  /\ exists before yTotal lines,
       Simple.generateInvoice Sample.noon data
       = (before ++ Totals.totalLine Number.zero yTotal
          ++ [Notes.label yTotal] ++ lines ++ [Notes.closing])%list
       /\ List.length lines = 2%nat.
Proof.
  intros data.
  assert (H1 : notes data = Some (" net 30" ++ String Js.newline "thanks "))
    by reflexivity.
  assert (H2 : Text.whitespace_only (" net 30" ++ String Js.newline "thanks ") = false)
    by reflexivity.
  split; [exact H1|]. split; [exact H2|].
  destruct (notes_block_shape Sample.noon data _ H1 H2)
    as (before & y & lines & Hpage & _ & _ & Hlen & _).
  exists before, y, lines. split; [exact Hpage | exact Hlen].
Defined.

(** X13.  A record without [totalAmount]: the server-side renderer prints
    the total "$0.00" whatever the line items are, where the client-side
    renderer shows the left-to-right sum of their amounts as subtotal,
    with the tax and the total that follow from it. *)
Theorem missing_total_prints_zero (env : Env) (data : InvoiceData) :
  totalAmount data = None ->
  let subtotal := Totals.sumOfAmounts (lineItems data) in
  let tax := Number.mul subtotal (Number.ratio 5 100) in
  (exists above y below,
     Simple.generateInvoice env data
     = (above
        ++ [DrawText "Total:" (tableLeft + col 0 + col 1 + 10)%Q y headerFontSize
              HelveticaBold (rgb 0 0 0);
            DrawText "$0.00" (tableLeft + col 0 + col 1 + col 2 + 10)%Q y headerFontSize
              HelveticaBold (rgb 0.2 0.2 0.2)]
        ++ below)%list)
  /\ (exists above y below,
        snd (Rich.generateInvoice env data)
        = (above ++ Totals.lines subtotal tax (Number.add subtotal tax) y ++ below)%list).
Proof.
  intros Hnone subtotal tax. split.
  - unfold Simple.generateInvoice, Simple.rowsAndTotal, Simple.totalBlock.
    destruct (forEachRow (lineItems data) 0 (tableTop - 45)%Q) as [yPosition rows].
    destruct (Simple.notesBlock data (yPosition - 5 - 30)%Q) as [y' notesPage].
    rewrite Hnone.
    exists (Simple.aboveRows env data ++ rows
            ++ [DrawRectangle (tableLeft + col 0 + col 1) (yPosition - 5 - 15 + 2)
                  (tableRight - (tableLeft + col 0 + col 1)) 30 (rgb 0.95 0.95 0.95)
                  None None])%list%Q,
      (yPosition - 5)%Q, (notesPage ++ Simple.thanks)%list.
    change (Js.toFixed2 Number.zero) with "0.00".
    repeat rewrite <- List.app_assoc. reflexivity.
  - destruct (page_totals_lines env data) as (above & y & below & Hpage & _).
    cbv zeta in Hpage. rewrite Hnone in Hpage.
    now exists above, y, below.
Qed.

Lemma missing_total_prints_zero_witness :
  totalAmount Sample.invoice = None
  /\ (exists above y below,
        Simple.generateInvoice Sample.noon Sample.invoice
        = (above
           ++ [DrawText "Total:" (tableLeft + col 0 + col 1 + 10)%Q y headerFontSize
                 HelveticaBold (rgb 0 0 0);
               DrawText "$0.00" (tableLeft + col 0 + col 1 + col 2 + 10)%Q y headerFontSize
                 HelveticaBold (rgb 0.2 0.2 0.2)]
           ++ below)%list)
  /\ Totals.money (Totals.sumOfAmounts (lineItems Sample.invoice)) = "$200.00".
Proof.
  split; [reflexivity|].
  split; [|vm_compute; reflexivity].
  apply (proj1 (missing_total_prints_zero Sample.noon Sample.invoice eq_refl)).
Defined.

(** ** The client block, the total line and the size of the page *)

Module SizeFacts.
Local Open Scope list_scope.

Lemma even_mod2 (n : nat) : (n mod 2 =? 0)%nat = Nat.even n.
Proof.
  destruct (Nat.even n) eqn:E.
  - apply Nat.even_spec in E. destruct E as [k ->].
    rewrite Nat.mul_comm, Nat.Div0.mod_mul. reflexivity.
  - apply Nat.eqb_neq. intros H.
    assert (Nat.even n = true); [|congruence].
    apply Nat.even_spec. exists (n / 2)%nat.
    pose proof (Nat.div_mod_eq n 2). lia.
Qed.

(** Four cells per row, and a band under every row of even index. *)
Lemma forEachRow_length (items : list LineItem) :
  forall index y,
    List.length (snd (forEachRow items index y))
    = (4 * List.length items
       + (if Nat.even index then (List.length items + 1) / 2 else List.length items / 2))%nat.
Proof.
  induction items as [|item rest IH]; intros index y.
  - simpl. now destruct (Nat.even index).
  - cbn [forEachRow].
    specialize (IH (S index) (y - 25)%Q).
    destruct (forEachRow rest (S index) (y - 25)%Q) as [y' page].
    cbn [snd] in *. rewrite List.length_app, IH. unfold drawRow.
    rewrite even_mod2, Nat.even_succ, <- Nat.negb_even.
    cbn [List.length].
    destruct (Nat.even index); cbn [negb List.length app cells].
    + replace (S (List.length rest) + 1)%nat with (List.length rest + 1 * 2)%nat by lia.
      rewrite Nat.div_add by lia. lia.
    + replace (S (List.length rest))%nat with (List.length rest + 1)%nat by lia. lia.
Qed.

End SizeFacts.

(** X14.  The client block has no lower bound either: its e-mail line is
    drawn 15 units lower per line of the client address, directly before
    the table header, whose band lies between [tableTop - 25] and
    [tableTop].  From five address lines on the e-mail line is below the
    top edge of the band, from seven on below its bottom edge, in the rows. *)
Theorem client_block_crosses_the_table_header (env : Env) (data : InvoiceData) :
  let m := List.length (Js.split_newline (clientAddress data)) in
  exists before lines yEmail rest,
    Simple.generateInvoice env data
    = (before ++ [Blocks.billTo; Blocks.clientNameRun data] ++ lines
       ++ [Blocks.clientEmailRun data yEmail] ++ Simple.tableHeader ++ rest)%list
    /\ List.length lines = m
    /\ (1 <= m)%nat
    /\ (yEmail == height - 215 - 15 * num m)%Q
    /\ ((5 <= m)%nat <-> (yEmail < tableTop)%Q)
    /\ ((7 <= m)%nat <-> (yEmail < tableTop - 25)%Q).
Proof.
  intros m.
  assert (Hm : (1 <= m)%nat).
  { unfold m. destruct (Js.split_newline (clientAddress data)) eqn:E.
    - now apply JsFacts.split_newline_nonempty in E.
    - simpl. lia. }
  unfold Simple.generateInvoice.
  destruct (Simple.rowsAndTotal data) as [y body].
  destruct (Simple.notesBlock data y) as [y' notesPage].
  exists (Simple.title ++ companyBlock data ++ metaBlock (runtime env) data ++ divider)%list,
    (drawLines (height - 215)%Q (Js.split_newline (clientAddress data)) 0),
    (height - 215 - num m * 15)%Q,
    (body ++ notesPage ++ Simple.thanks)%list.
  repeat match goal with |- _ /\ _ => split end.
  - unfold Simple.aboveRows, clientBlock. fold m.
    repeat rewrite <- List.app_assoc. reflexivity.
  - now rewrite LayoutFacts.drawLines_length.
  - exact Hm.
  - ring.
  - unfold tableTop. destruct (Nat.le_gt_cases 5 m) as [Hge | Hlt].
    + pose proof (OverflowFacts.num_le _ _ Hge) as Hq. change (num 5) with 5%Q in Hq.
      split; intros _; [lra | exact Hge].
    + assert (Hle : (m <= 4)%nat) by lia.
      pose proof (OverflowFacts.num_le _ _ Hle) as Hq. change (num 4) with 4%Q in Hq.
      split; intros H; [lia | lra].
  - unfold tableTop. destruct (Nat.le_gt_cases 7 m) as [Hge | Hlt].
    + pose proof (OverflowFacts.num_le _ _ Hge) as Hq. change (num 7) with 7%Q in Hq.
      split; intros _; [lra | exact Hge].
    + assert (Hle : (m <= 6)%nat) by lia.
      pose proof (OverflowFacts.num_le _ _ Hle) as Hq. change (num 6) with 6%Q in Hq.
      split; intros H; [lia | lra].
Qed.

(** X15.  The server-side renderer draws every line item on the one page
    and the total line 25 units lower per item, while the closing line
    stays at height 50: from 19 items on the total is below the closing
    line, from 21 on below the bottom edge of the page. *)
Theorem total_line_runs_off_the_page (env : Env) (data : InvoiceData) :
  let N := List.length (lineItems data) in
  exists above y amount below,
    Simple.generateInvoice env data
    = (above
       ++ [DrawText "Total:" (tableLeft + col 0 + col 1 + 10)%Q y headerFontSize
             HelveticaBold (rgb 0 0 0);
           DrawText amount (tableLeft + col 0 + col 1 + col 2 + 10)%Q y headerFontSize
             HelveticaBold (rgb 0.2 0.2 0.2)]
       ++ below ++ Simple.thanks)%list
    /\ (y == tableTop - 50 - 25 * num N)%Q
    /\ ((19 <= N)%nat <-> (y < 50)%Q)
    /\ ((21 <= N)%nat <-> (y < 0)%Q).
Proof.
  intros N.
  unfold Simple.generateInvoice, Simple.rowsAndTotal, Simple.totalBlock.
  pose proof (OverflowFacts.forEachRow_cursor (lineItems data) 0 (tableTop - 45)%Q) as Hy.
  destruct (forEachRow (lineItems data) 0 (tableTop - 45)%Q) as [yPosition rows].
  cbn [fst] in Hy. fold N in Hy.
  destruct (Simple.notesBlock data (yPosition - 5 - 30)%Q) as [y' notesPage].
  exists (Simple.aboveRows env data ++ rows
          ++ [DrawRectangle (tableLeft + col 0 + col 1) (yPosition - 5 - 15 + 2)
                (tableRight - (tableLeft + col 0 + col 1)) 30 (rgb 0.95 0.95 0.95)
                None None])%list%Q,
    (yPosition - 5)%Q,
    ("$" ++ Js.toFixed2 (match totalAmount data with Some t => t | None => Number.zero end))%string,
    notesPage.
  repeat match goal with |- _ /\ _ => split end.
  - repeat rewrite <- List.app_assoc. reflexivity.
  - rewrite Hy. ring.
  - rewrite Hy. unfold tableTop, height.
    destruct (Nat.le_gt_cases 19 N) as [Hge | Hlt].
    + pose proof (OverflowFacts.num_le _ _ Hge) as Hq. change (num 19) with 19%Q in Hq.
      split; intros _; [lra | exact Hge].
    + assert (Hle : (N <= 18)%nat) by lia.
      pose proof (OverflowFacts.num_le _ _ Hle) as Hq. change (num 18) with 18%Q in Hq.
      split; intros H; [lia | lra].
  - rewrite Hy. unfold tableTop, height.
    destruct (Nat.le_gt_cases 21 N) as [Hge | Hlt].
    + pose proof (OverflowFacts.num_le _ _ Hge) as Hq. change (num 21) with 21%Q in Hq.
      split; intros _; [lra | exact Hge].
    + assert (Hle : (N <= 20)%nat) by lia.
      pose proof (OverflowFacts.num_le _ _ Hle) as Hq. change (num 20) with 20%Q in Hq.
      split; intros H; [lia | lra].
Qed.

(** X16.  The client-side renderer draws a number of operations that
    depends only on how many lines the two addresses have and how many
    line items there are: one run per address line, four cells per item
    and one band per item of even index.  No other field of the record,
    the status included, adds or removes an operation; the server-side
    page differs in its fixed part and in the notes block alone. *)
Theorem page_size (env : Env) (data : InvoiceData) :
  let n := List.length (Js.split_newline (companyAddress data)) in
  let m := List.length (Js.split_newline (clientAddress data)) in
  let N := List.length (lineItems data) in
  List.length (snd (Rich.generateInvoice env data))
  = (39 + n + m + 4 * N + (N + 1) / 2)%nat
  /\ List.length (Simple.generateInvoice env (set_notes data None))
     = (20 + n + m + 4 * N + (N + 1) / 2)%nat.
Proof.
  intros n m N. split.
  - unfold Rich.generateInvoice. cbn [snd]. unfold Rich.drawPage.
    replace (lineItems (Rich.fillTotalAmount data)) with (lineItems data)
      by (unfold Rich.fillTotalAmount; destruct data as [? ? ? ? ? ? ? ? ? ? ? [t|] ? ?]; reflexivity).
    pose proof (SizeFacts.forEachRow_length (lineItems data) 0 (tableTop - 45)%Q) as Hrows.
    destruct (forEachRow (lineItems data) 0 (tableTop - 45)%Q) as [yPosition rows].
    cbn [snd Nat.even] in Hrows. fold N in Hrows.
    unfold Rich.aboveRows, Rich.belowRows.
    destruct (Rich.totalsBlock _ _) as [y totals] eqn:Etot.
    assert (Htot : List.length totals = 7%nat).
    { unfold Rich.totalsBlock in Etot. injection Etot as _ <-. reflexivity. }
    repeat rewrite List.length_app.
    rewrite Hrows, Htot.
    rewrite BlocksFacts.companyBlock_fillTotalAmount, BlocksFacts.clientBlock_fillTotalAmount.
    unfold companyBlock, clientBlock. repeat rewrite List.length_app.
    repeat rewrite LayoutFacts.drawLines_length. fold n m.
    cbn [List.length Rich.headerBand metaBlock Rich.statusBlock divider Rich.tableHeader
         tableLabels Rich.paymentBlock Rich.footer app].
    lia.
  - unfold Simple.generateInvoice, Simple.rowsAndTotal, Simple.totalBlock.
    replace (lineItems (set_notes data None)) with (lineItems data) by (destruct data; reflexivity).
    pose proof (SizeFacts.forEachRow_length (lineItems data) 0 (tableTop - 45)%Q) as Hrows.
    destruct (forEachRow (lineItems data) 0 (tableTop - 45)%Q) as [yPosition rows].
    cbn [snd Nat.even] in Hrows. fold N in Hrows.
    unfold Simple.notesBlock.
    replace (Simple.hasNotes (set_notes data None)) with false by (destruct data; reflexivity).
    unfold Simple.aboveRows.
    repeat rewrite List.length_app. rewrite Hrows.
    replace (companyBlock (set_notes data None)) with (companyBlock data) by (destruct data; reflexivity).
    replace (clientBlock (set_notes data None)) with (clientBlock data) by (destruct data; reflexivity).
    unfold companyBlock, clientBlock. repeat rewrite List.length_app.
    repeat rewrite LayoutFacts.drawLines_length. fold n m.
    cbn [List.length Simple.title metaBlock divider Simple.tableHeader tableLabels Simple.thanks app].
    lia.
Qed.
